(** * RedBus bus reviews: scraper helpers, ETL pipeline, loader and dashboard

    A shallow embedding of the parts of the repository that its
    specification makes checkable statements about:

    - [src/sentiment/analyzer.py]   ([Sentiment])
    - [src/scraper/redbus_scraper.py], [src/scraper/parsers.py] ([Scraper])
    - [src/etl/process_reviews.py]  ([ETL])
    - [src/db/load.py]              ([Loader])
    - [app.py]                      ([Dashboard])

    Conventions.  A Python [str] is a [string] (code points below 128).
    A pandas cell that may be missing (NaN / None / NaT) is an [option].
    A float is the rational it denotes ([Q]); NaN only occurs as a missing
    cell, so it is [None].  Comparisons of floats are exact, so they are the
    comparisons of [Q]; arithmetic that rounds (the mean of a group) is a
    parameter.  A Python exception is a value of [exn] carried by
    [result]. *)

From Stdlib Require Import List String Ascii Bool Arith ZArith QArith Qabs Lia.
From Stdlib Require Import Sorting.Sorted.
Import ListNotations.

#[local] Set Warnings "-abstract-large-number".

Local Close Scope Q_scope.
Local Open Scope string_scope.
Local Open Scope nat_scope.

(** ** Python values shared by the modules *)

Inductive exn : Type :=
| ValueError (msg : string)
| TypeError (msg : string)
| FileNotFoundError (path : string)
| AttributeError (msg : string)
| KeyError (column : string)
| ReError (pattern : string)
| SQLAlchemyError (msg : string).

Inductive result (A : Type) : Type :=
| Ok (a : A)
| Raise (e : exn).
Arguments Ok {A} a.
Arguments Raise {A} e.

Definition bind {A B} (r : result A) (k : A -> result B) : result B :=
  match r with
  | Ok a => k a
  | Raise e => Raise e
  end.

Declare Scope result_scope.
Delimit Scope result_scope with result.
Notation "x <- r ;; k" := (bind r (fun x => k))
  (at level 61, r at next level, right associativity) : result_scope.
Notation "r ;;; k" := (bind r (fun _ => k))
  (at level 61, right associativity) : result_scope.

Definition option_eqb {A} (eqb : A -> A -> bool) (x y : option A) : bool :=
  match x, y with
  | Some a, Some b => eqb a b
  | None, None => true
  | _, _ => false
  end.

(** [Series.fillna(v)] on one cell *)
Definition fillna {A} (v : A) (x : option A) : A :=
  match x with
  | Some a => a
  | None => v
  end.

Definition notna {A} (x : option A) : bool :=
  match x with
  | Some _ => true
  | None => false
  end.

Definition is_nil {A} (l : list A) : bool :=
  match l with
  | [] => true
  | _ :: _ => false
  end.

Module PyStr.

(** [str.isspace] on one character below 128: TAB, LF, VT, FF, CR, the
    four separators FS/GS/RS/US and the space.  The regular expression
    class [\s] on a [str] pattern is the same set. *)
Definition isspace (c : ascii) : bool :=
  let n := nat_of_ascii c in
  ((9 <=? n) && (n <=? 13)) || ((28 <=? n) && (n <=? 32)).

Definition is_empty (s : string) : bool :=
  match s with
  | EmptyString => true
  | String _ _ => false
  end.

Fixpoint lstrip (s : string) : string :=
  match s with
  | EmptyString => EmptyString
  | String c r => if isspace c then lstrip r else s
  end.

Fixpoint rstrip (s : string) : string :=
  match s with
  | EmptyString => EmptyString
  | String c r =>
      let r' := rstrip r in
      if isspace c && is_empty r' then EmptyString else String c r'
  end.

(** [s.strip()] *)
Definition strip (s : string) : string := rstrip (lstrip s).

Definition comma : ascii := ","%char.

(** [c.lower()] on one character below 128 *)
Definition lower_char (c : ascii) : ascii :=
  let n := nat_of_ascii c in
  if (65 <=? n) && (n <=? 90) then ascii_of_nat (n + 32) else c.

Fixpoint lower (s : string) : string :=
  match s with
  | EmptyString => EmptyString
  | String c r => String (lower_char c) (lower r)
  end.

Fixpoint contains_char (c : ascii) (s : string) : bool :=
  match s with
  | EmptyString => false
  | String x r => Ascii.eqb x c || contains_char c r
  end.

(** [s.split(",", 1)]: at most one split, at the first comma. *)
Fixpoint split_comma_1 (s : string) : list string :=
  match s with
  | EmptyString => [EmptyString]
  | String c r =>
      if Ascii.eqb c comma then [EmptyString; r]
      else match split_comma_1 r with
           | h :: t => String c h :: t
           | [] => [String c EmptyString]
           end
  end.

End PyStr.

(** ** src/sentiment/analyzer.py *)

Module Sentiment.

Record SentimentResult : Type := mkSentiment { label : string; score : Q }.

(** The float literals 0.05 and -0.05.  The double nearest to 0.05 lies
    just above 1/20 and its predecessor just below, so for a double [c]
    the float test [c >= 0.05] is the rational test [1/20 <= c]; the
    same holds, mirrored, for -0.05. *)
Definition POSITIVE_THRESHOLD : Q := 5 # 100.
Definition NEGATIVE_THRESHOLD : Q := - (5 # 100).

Section Analyzer.

(** [_vader().polarity_scores(text)["compound"]]: the lexicon scorer of
    the vaderSentiment package. *)
Variable polarity_compound : string -> Q.

(** [SentimentAnalyzer.analyze].  The second component is the list of
    texts handed to the scorer, in call order. *)
Definition analyze (text : option string) : SentimentResult * list string :=
  match text with
  | None => (mkSentiment "neutral" 0, [])
  | Some t =>
      if PyStr.is_empty t then (mkSentiment "neutral" 0, [])
      else
        let compound := polarity_compound t in
        let label :=
          if Qle_bool POSITIVE_THRESHOLD compound then "positive"
          else if Qle_bool compound NEGATIVE_THRESHOLD then "negative"
          else "neutral" in
        (mkSentiment label compound, [t])
  end.

End Analyzer.

End Sentiment.

(** ** src/scraper/redbus_scraper.py: route parsing *)

Module Scraper.

(** [RedBusScraper._parse_route]: the comprehension strips every part of
    [route.split(",", 1)]; unpacking into two names raises [ValueError]
    unless there are exactly two parts, and the handler re-raises a
    [ValueError] with the usage message. *)
Definition _parse_route (route : string) : result (string * string) :=
  match map PyStr.strip (PyStr.split_comma_1 route) with
  | [origin; destination] => Ok (origin, destination)
  | _ => Raise (ValueError "Route must be provided as 'Origin,Destination'")
  end.

End Scraper.

(** ** Calendar dates: [datetime.date], [strftime] and [strptime] *)

Module PyDate.

Record date : Type := mkDate { year : nat; month : nat; day : nat }.

Definition is_leap (y : nat) : bool :=
  (y mod 4 =? 0) && (negb (y mod 100 =? 0) || (y mod 400 =? 0)).

Definition days_in_month (y m : nat) : nat :=
  match m with
  | 2 => if is_leap y then 29 else 28
  | 4 | 6 | 9 | 11 => 30
  | _ => 31
  end.

Definition MINYEAR : nat := 1.
Definition MAXYEAR : nat := 9999.

(** The check of the [datetime.date(year, month, day)] constructor. *)
Definition valid_ymd (y m d : nat) : bool :=
  (MINYEAR <=? y) && (y <=? MAXYEAR) && (1 <=? m) && (m <=? 12)
  && (1 <=? d) && (d <=? days_in_month y m).

Definition valid (d : date) : bool := valid_ymd (year d) (month d) (day d).

Definition make_date (y m d : nat) : result date :=
  if valid_ymd y m d then Ok (mkDate y m d)
  else Raise (ValueError "date value out of range").

Definition digit_char (n : nat) : ascii := ascii_of_nat (48 + n).

Definition digit_val (c : ascii) : option nat :=
  let n := nat_of_ascii c in
  if (48 <=? n) && (n <=? 57) then Some (n - 48) else None.

Definition pad2 (n : nat) : string :=
  String (digit_char (n / 10 mod 10)) (String (digit_char (n mod 10)) "").

Definition pad4 (n : nat) : string :=
  String (digit_char (n / 1000 mod 10))
    (String (digit_char (n / 100 mod 10)) (pad2 n)).

(** Abbreviated month names of the C locale, as [strptime] holds them
    (lower case). *)
Definition month_abbrs : list string :=
  ["jan"; "feb"; "mar"; "apr"; "may"; "jun";
   "jul"; "aug"; "sep"; "oct"; "nov"; "dec"].

Definition capitalize (s : string) : string :=
  match s with
  | EmptyString => EmptyString
  | String c r => String (ascii_of_nat (nat_of_ascii c - 32)) r
  end.

(** The decimal digits of a number, the most significant first and none
    of them a padding zero. *)
Fixpoint digits_of (fuel n : nat) (acc : string) : string :=
  match fuel with
  | 0 => acc
  | S fuel' =>
      let acc' := String (digit_char (n mod 10)) acc in
      if n / 10 =? 0 then acc' else digits_of fuel' (n / 10) acc'
  end.

(** What [%Y] prints: the C library writes the year as a plain decimal
    number and does not pad it, so a year below 1000 comes out with fewer
    than four digits ("999"). *)
Definition year_digits (y : nat) : string := digits_of (S y) y "".

(** [d.strftime("%Y-%m-%d")] *)
Definition strftime_ymd (d : date) : string :=
  year_digits (year d) ++ "-" ++ pad2 (month d) ++ "-" ++ pad2 (day d).

(** *** [strptime]

    [_strptime] turns the format into a regular expression, one group per
    directive, and matches it against the start of the text with
    IGNORECASE; whatever is left over after the match is an error.  The
    groups are ordered alternations, so a directive offers its candidate
    matches in priority order and the first path through all directives
    is the match. *)

Inductive directive : Type :=
| Day        (* %d : 3[0-1]|[1-2]\d|0[1-9]|[1-9]| [1-9] *)
| Month      (* %m : 1[0-2]|0[1-9]|[1-9] *)
| Year4      (* %Y : \d\d\d\d *)
| MonthAbbr  (* %b : jan|feb|...|dec *)
| Spaces     (* white space in the format : \s+ *)
| Lit (c : ascii).

Definition fmt_dby : list directive := [Day; Spaces; MonthAbbr; Spaces; Year4].
Definition fmt_ymd : list directive := [Year4; Lit "-"; Month; Lit "-"; Day].
Definition fmt_dmy : list directive := [Day; Lit "-"; Month; Lit "-"; Year4].

Definition in_range (lo hi : nat) (c : ascii) : option nat :=
  match digit_val c with
  | Some v => if (lo <=? v) && (v <=? hi) then Some v else None
  | None => None
  end.

(** One alternative made of two character classes. *)
Definition alt2 (lo1 hi1 lo2 hi2 : nat) (s : string) : list (nat * string) :=
  match s with
  | String a (String b r) =>
      match in_range lo1 hi1 a, in_range lo2 hi2 b with
      | Some x, Some y => [(10 * x + y, r)]
      | _, _ => []
      end
  | _ => []
  end.

Definition alt1 (lo hi : nat) (s : string) : list (nat * string) :=
  match s with
  | String a r =>
      match in_range lo hi a with
      | Some x => [(x, r)]
      | None => []
      end
  | _ => []
  end.

Definition alt_space_digit (s : string) : list (nat * string) :=
  match s with
  | String " " r => alt1 1 9 r
  | _ => []
  end.

(** Match the lower-case word [p] at the start of [s], ignoring case. *)
Fixpoint match_word_ci (p s : string) : option string :=
  match p with
  | EmptyString => Some s
  | String pc p' =>
      match s with
      | String c r => if Ascii.eqb (PyStr.lower_char c) pc then match_word_ci p' r else None
      | EmptyString => None
      end
  end.

Fixpoint match_names (i : nat) (names : list string) (s : string)
  : list (nat * string) :=
  match names with
  | [] => []
  | n :: names' =>
      match match_word_ci n s with
      | Some r => (i, r) :: match_names (S i) names' s
      | None => match_names (S i) names' s
      end
  end.

(** The texts left after a greedy [\s+], longest match first. *)
Fixpoint ws_rests (s : string) : list string :=
  match s with
  | String c r => if PyStr.isspace c then ws_rests r ++ [r] else []
  | EmptyString => []
  end.

Definition year4 (s : string) : list (nat * string) :=
  match s with
  | String a (String b (String c (String d r))) =>
      match digit_val a, digit_val b, digit_val c, digit_val d with
      | Some x3, Some x2, Some x1, Some x0 =>
          [(1000 * x3 + 100 * x2 + 10 * x1 + x0, r)]
      | _, _, _, _ => []
      end
  | _ => []
  end.

Definition directive_matches (d : directive) (s : string) : list (nat * string) :=
  match d with
  | Day => alt2 3 3 0 1 s ++ alt2 1 2 0 9 s ++ alt2 0 0 1 9 s
           ++ alt1 1 9 s ++ alt_space_digit s
  | Month => alt2 1 1 0 2 s ++ alt2 0 0 1 9 s ++ alt1 1 9 s
  | Year4 => year4 s
  | MonthAbbr => match_names 1 month_abbrs s
  | Spaces => map (fun r => (0, r)) (ws_rests s)
  | Lit c =>
      match s with
      | String x r => if Ascii.eqb x c then [(0, r)] else []
      | EmptyString => []
      end
  end.

(** The values found so far; [strptime] starts from 1900-01-01. *)
Definition set_field (d : directive) (v : nat) (f : date) : date :=
  match d with
  | Day => mkDate (year f) (month f) v
  | Month | MonthAbbr => mkDate (year f) v (day f)
  | Year4 => mkDate v (month f) (day f)
  | Spaces | Lit _ => f
  end.

Fixpoint regex_paths (ds : list directive) (f : date) (s : string)
  : list (date * string) :=
  match ds with
  | [] => [(f, s)]
  | d :: ds' =>
      flat_map (fun vr => regex_paths ds' (set_field d (fst vr) f) (snd vr))
               (directive_matches d s)
  end.

(** [datetime.strptime(s, fmt).date()] *)
Definition strptime (s : string) (fmt : list directive) : result date :=
  match regex_paths fmt (mkDate 1900 1 1) s with
  | [] => Raise (ValueError "time data does not match format")
  | (f, rest) :: _ =>
      if PyStr.is_empty rest then make_date (year f) (month f) (day f)
      else Raise (ValueError "unconverted data remains")
  end.

End PyDate.

(** ** src/scraper/parsers.py: review dates *)

Module Parsers.

Definition review_date_formats : list (list PyDate.directive) :=
  [PyDate.fmt_dby; PyDate.fmt_ymd; PyDate.fmt_dmy].

(** The loop of [_format_review_date]: the first format whose [strptime]
    does not raise [ValueError] returns; any other exception would leave
    the loop. *)
Fixpoint try_formats (raw : string) (fmts : list (list PyDate.directive))
  : result (option string) :=
  match fmts with
  | [] => Ok None
  | fmt :: fmts' =>
      match PyDate.strptime raw fmt with
      | Ok d => Ok (Some (PyDate.strftime_ymd d))
      | Raise (ValueError _) => try_formats raw fmts'
      | Raise e => Raise e
      end
  end.

Definition _format_review_date (raw : option string) : result (option string) :=
  match raw with
  | None => Ok None
  | Some s =>
      if PyStr.is_empty s then Ok None
      else try_formats s review_date_formats
  end.

End Parsers.

(** ** Tables

    A [DataFrame] as the pipeline uses it: the column labels, which are
    what [to_csv] writes as the header, and the rows, one record per row
    with a missing cell for every column the row has no value in. *)

Module Table.

Record Frame (A : Type) : Type := mkFrame { columns : list string; rows : list A }.
Arguments mkFrame {A} columns rows.
Arguments columns {A} f.
Arguments rows {A} f.

(** [pd.DataFrame()] *)
Definition DataFrame {A} : Frame A := mkFrame [] [].

(** [df.empty]: some axis has length zero. *)
Definition empty {A} (df : Frame A) : bool :=
  is_nil (rows df) || is_nil (columns df).

Definition has_column (c : string) (cols : list string) : bool :=
  existsb (String.eqb c) cols.

(** [df[c]] raises [KeyError] when the label is not a column. *)
Definition require (c : string) (cols : list string) : result unit :=
  if has_column c cols then Ok tt else Raise (KeyError c).

(** [df[c] = values] appends the label unless it is a column already. *)
Definition set_column (c : string) (cols : list string) : list string :=
  if has_column c cols then cols else cols ++ [c].

(** Store a column of values, one per row. *)
Fixpoint assign {A V} (set : A -> option V -> A) (rs : list A) (vs : list (option V))
  : list A :=
  match rs with
  | [] => []
  | r :: rs' =>
      match vs with
      | v :: vs' => set r v :: assign set rs' vs'
      | [] => set r None :: assign set rs' []
      end
  end.

(** [drop_duplicates(subset=...)] with the default [keep="first"]: a row
    stays unless an earlier row has the same key. *)
Fixpoint drop_duplicates {A K} (eqb : K -> K -> bool) (key : A -> K) (l : list A)
  : list A :=
  match l with
  | [] => []
  | x :: l' =>
      x :: filter (fun y => negb (eqb (key x) (key y))) (drop_duplicates eqb key l')
  end.

Fixpoint insert_sorted {A} (key : A -> string) (a : A) (l : list A) : list A :=
  match l with
  | [] => [a]
  | x :: l' =>
      if String.leb (key a) (key x) then a :: l else x :: insert_sorted key a l'
  end.

(** [sorted(l, key=key)] *)
Definition sorted {A} (key : A -> string) (l : list A) : list A :=
  fold_right (insert_sorted key) [] l.

Definition csv_line (fields : list string) : string :=
  String.concat "," fields ++ String "010"%char "".

(** [df.to_csv(path, index=False)]: the header line, then one line per
    row.  [cell r c] is the text pandas writes for the cell of row [r] in
    column [c]. *)
Definition to_csv {A} (cell : A -> string -> string) (df : Frame A) : string :=
  csv_line (columns df)
  ++ String.concat "" (map (fun r => csv_line (map (cell r) (columns df))) (rows df)).

(** The column labels a CSV text starts with; a blank first line has none. *)
Fixpoint first_line (s : string) : string :=
  match s with
  | EmptyString => EmptyString
  | String c r => if Ascii.eqb c "010"%char then EmptyString else String c (first_line r)
  end.

Fixpoint split_commas (cur : string) (s : string) : list string :=
  match s with
  | EmptyString => [cur]
  | String c r =>
      if Ascii.eqb c PyStr.comma then cur :: split_commas EmptyString r
      else split_commas (cur ++ String c EmptyString) r
  end.

Definition csv_header (content : string) : list string :=
  let l := first_line content in
  if PyStr.is_empty l then [] else split_commas EmptyString l.

End Table.

(** ** src/etl/process_reviews.py *)

Module ETL.

Import Table.

(** One record of the working table: the fields the scraper writes
    (RawReviewRecord), the file tag and the columns the pipeline adds. *)
Record Review : Type := mkReview {
  bus_id : option string;
  operator_name : option string;
  bus_name : option string;
  bus_type : option string;
  route : option string;
  rating : option Q;
  rating_count : option Z;
  review_title : option string;
  review_text : option string;
  review_date : option string;
  journey_date : option string;
  scraped_at : option string;
  source_file : option string;
  review_length : option nat;
  review_word_count : option nat;
  sentiment : option string;
  sentiment_score : option Q
}.

Definition set_source_file (r : Review) (v : option string) : Review :=
  mkReview (bus_id r) (operator_name r) (bus_name r) (bus_type r) (route r)
    (rating r) (rating_count r) (review_title r) (review_text r)
    (review_date r) (journey_date r) (scraped_at r) v
    (review_length r) (review_word_count r) (sentiment r) (sentiment_score r).

Definition set_review_text (r : Review) (v : option string) : Review :=
  mkReview (bus_id r) (operator_name r) (bus_name r) (bus_type r) (route r)
    (rating r) (rating_count r) (review_title r) v
    (review_date r) (journey_date r) (scraped_at r) (source_file r)
    (review_length r) (review_word_count r) (sentiment r) (sentiment_score r).

Definition set_rating (r : Review) (v : option Q) : Review :=
  mkReview (bus_id r) (operator_name r) (bus_name r) (bus_type r) (route r)
    v (rating_count r) (review_title r) (review_text r)
    (review_date r) (journey_date r) (scraped_at r) (source_file r)
    (review_length r) (review_word_count r) (sentiment r) (sentiment_score r).

Definition set_review_date (r : Review) (v : option string) : Review :=
  mkReview (bus_id r) (operator_name r) (bus_name r) (bus_type r) (route r)
    (rating r) (rating_count r) (review_title r) (review_text r)
    v (journey_date r) (scraped_at r) (source_file r)
    (review_length r) (review_word_count r) (sentiment r) (sentiment_score r).

Definition set_journey_date (r : Review) (v : option string) : Review :=
  mkReview (bus_id r) (operator_name r) (bus_name r) (bus_type r) (route r)
    (rating r) (rating_count r) (review_title r) (review_text r)
    (review_date r) v (scraped_at r) (source_file r)
    (review_length r) (review_word_count r) (sentiment r) (sentiment_score r).

Definition set_text_metrics (r : Review) (len words : option nat) : Review :=
  mkReview (bus_id r) (operator_name r) (bus_name r) (bus_type r) (route r)
    (rating r) (rating_count r) (review_title r) (review_text r)
    (review_date r) (journey_date r) (scraped_at r) (source_file r)
    len words (sentiment r) (sentiment_score r).

Definition set_sentiment (r : Review) (lbl : option string) (sc : option Q) : Review :=
  mkReview (bus_id r) (operator_name r) (bus_name r) (bus_type r) (route r)
    (rating r) (rating_count r) (review_title r) (review_text r)
    (review_date r) (journey_date r) (scraped_at r) (source_file r)
    (review_length r) (review_word_count r) lbl sc.

(** [re.sub(r"\s+", " ", s)]: every maximal run of white space becomes one
    space.  [in_run] tells that the previous character was white space. *)
Fixpoint sub_ws (in_run : bool) (s : string) : string :=
  match s with
  | EmptyString => EmptyString
  | String c r =>
      if PyStr.isspace c
      then if in_run then sub_ws true r else String " " (sub_ws true r)
      else String c (sub_ws false r)
  end.

(** [.fillna("").str.replace(r"\s+", " ", regex=True).str.strip()] on one cell *)
Definition normalize_text (t : option string) : string :=
  PyStr.strip (sub_ws false (fillna "" t)).

(** [len(s.split())]: the number of maximal runs of non-space characters. *)
Fixpoint count_words (after_space : bool) (s : string) : nat :=
  match s with
  | EmptyString => 0
  | String c r =>
      if PyStr.isspace c then count_words true r
      else (if after_space then 1 else 0) + count_words false r
  end.

(** [pd.to_numeric(..., errors="coerce")] on a cell that is a float or
    missing: the float stays, the missing cell is NaN. *)
Definition to_numeric (x : option Q) : option Q := x.

(** The mask [df["rating"].fillna(0) >= min_rating] on one row. *)
Definition rating_mask (min_rating : Q) (r : Review) : bool :=
  Qle_bool min_rating (fillna 0%Q (rating r)).

Definition text_mask (r : Review) : bool :=
  negb (String.eqb (fillna "" (review_text r)) "").

Definition dedup_key (r : Review) : option string * option string * option string :=
  (bus_id r, review_text r, review_date r).

Definition key_eqb (k1 k2 : option string * option string * option string) : bool :=
  option_eqb String.eqb (fst (fst k1)) (fst (fst k2))
  && option_eqb String.eqb (snd (fst k1)) (snd (fst k2))
  && option_eqb String.eqb (snd k1) (snd k2).

Section Clean.

(** [pd.to_datetime(column, errors="coerce")]: one timestamp or NaT per
    cell.  It is a function of the whole column, since pandas may settle
    on one format for all of it. *)
Variable to_datetime : list (option string) -> list (option PyDate.date).

(** [pd.to_datetime(col, errors="coerce").dt.strftime("%Y-%m-%d")] *)
Definition normalize_dates (col : list (option string)) : list (option string) :=
  map (option_map PyDate.strftime_ymd) (to_datetime col).

Definition clean_dataframe (df : Frame Review) (min_rating : Q)
  : result (Frame Review) :=
  if empty df then Ok df
  else
    (require "review_text" (columns df) ;;;
     let rows1 :=
       map (fun r => set_review_text r (Some (normalize_text (review_text r))))
           (rows df) in
     let rows2 := filter text_mask rows1 in
     require "rating" (columns df) ;;;
     let rows3 := map (fun r => set_rating r (to_numeric (rating r))) rows2 in
     let rows4 := filter (rating_mask min_rating) rows3 in
     require "review_date" (columns df) ;;;
     let rows5 :=
       assign set_review_date rows4 (normalize_dates (map review_date rows4)) in
     require "bus_id" (columns df) ;;;
     let rows6 := drop_duplicates key_eqb dedup_key rows5 in
     let cols1 := set_column "review_length" (columns df) in
     let cols2 := set_column "review_word_count" cols1 in
     let rows7 :=
       map (fun r =>
              set_text_metrics r
                (option_map String.length (review_text r))
                (option_map (count_words true) (review_text r)))
           rows6 in
     require "journey_date" cols2 ;;;
     let rows8 :=
       assign set_journey_date rows7 (normalize_dates (map journey_date rows7)) in
     Ok (mkFrame cols2 rows8))%result.

End Clean.

Section Sentiment.

Variable polarity_compound : string -> Q.

(** The lambda handed to [Series.apply], on one cell.  A missing cell is
    NaN, a float, and NaN is true in a condition: the guard [if not text]
    of [analyze] lets it through to the scorer, whose loop over the
    characters of its argument raises [TypeError]. *)
Definition analyze_cell (text : option string) : result Sentiment.SentimentResult :=
  match text with
  | None => Raise (TypeError "'float' object is not iterable")
  | Some t => Ok (fst (Sentiment.analyze polarity_compound (Some t)))
  end.

(** [df["review_text"].apply(...)]: the cells in row order, up to the
    first one on which the lambda raises. *)
Fixpoint apply (col : list (option string))
  : result (list Sentiment.SentimentResult) :=
  match col with
  | [] => Ok []
  | text :: col' =>
      (s <- analyze_cell text ;;
       sentiments <- apply col' ;;
       Ok (s :: sentiments))%result
  end.

(** [apply_sentiment]: both new columns come from one call of the
    analyzer per row. *)
Definition apply_sentiment (df : Frame Review) : result (Frame Review) :=
  if empty df then Ok df
  else
    (require "review_text" (columns df) ;;;
     sentiments <- apply (map review_text (rows df)) ;;
     let rows1 :=
       assign (fun r l => set_sentiment r l (sentiment_score r)) (rows df)
         (map (fun s => Some (Sentiment.label s)) sentiments) in
     let rows2 :=
       assign (fun r x => set_sentiment r (sentiment r) x) rows1
         (map (fun s => Some (Sentiment.score s)) sentiments) in
     Ok (mkFrame
           (set_column "sentiment_score" (set_column "sentiment" (columns df)))
           rows2))%result.

End Sentiment.

(** One row of the per-bus table. *)
Record BusMetrics : Type := mkBusMetrics {
  bm_bus_id : string;
  bm_operator_name : option string;
  bm_bus_name : option string;
  bm_bus_type : option string;
  bm_route : option string;
  avg_rating : option Q;
  bm_rating_count : nat;
  sentiment_positive : Q;
  sentiment_negative : Q
}.

(** The group aggregation ["first"]: the first cell that is not missing. *)
Fixpoint first_notna {A} (col : list (option A)) : option A :=
  match col with
  | [] => None
  | Some a :: _ => Some a
  | None :: col' => first_notna col'
  end.

(** The cells of a column that are not missing. *)
Fixpoint present {A} (col : list (option A)) : list A :=
  match col with
  | [] => []
  | Some a :: col' => a :: present col'
  | None :: col' => present col'
  end.

Definition Qsum (l : list Q) : Q := fold_right Qplus 0%Q l.

(** The group aggregation ["count"]: missing cells are not counted. *)
Definition count {A} (col : list (option A)) : nat := List.length (present col).

Section Aggregate.

(** The arithmetic of the group aggregation ["mean"]: pandas adds up the
    floats of a group that are not NaN and divides by their number, in
    double precision, so its result is the double that this arithmetic
    gives and not always the exact quotient. *)
Variable float_mean : list Q -> Q.

(** The group aggregation ["mean"]: missing cells are skipped; a group with
    no value at all has a missing mean. *)
Definition mean (col : list (option Q)) : option Q :=
  match present col with
  | [] => None
  | q :: l => Some (float_mean (q :: l))
  end.

(** [(x == lbl).mean()] over the cells of a group: the quotient of the
    two counts, of which pandas stores the nearest double. *)
Definition share (lbl : string) (col : list (option string)) : Q :=
  (inject_Z (Z.of_nat (List.length
     (filter (fun x => option_eqb String.eqb x (Some lbl)) col)))
   / inject_Z (Z.of_nat (List.length col)))%Q.

Definition in_group (k : string) (r : Review) : bool :=
  option_eqb String.eqb (bus_id r) (Some k).

(** [groupby("bus_id")]: the keys that occur, without the missing ones, in
    sorted order. *)
Definition group_keys (rs : list Review) : list string :=
  sorted (fun k => k) (nodup string_dec (present (map bus_id rs))).

Definition agg_group (rs : list Review) (k : string) : BusMetrics :=
  let g := filter (in_group k) rs in
  mkBusMetrics k
    (first_notna (map operator_name g))
    (first_notna (map bus_name g))
    (first_notna (map bus_type g))
    (first_notna (map route g))
    (mean (map rating g))
    (count (map rating g))
    (share "positive" (map sentiment g))
    (share "negative" (map sentiment g)).

Definition bus_columns : list string :=
  ["bus_id"; "operator_name"; "bus_name"; "bus_type"; "route"; "avg_rating";
   "rating_count"; "sentiment_positive"; "sentiment_negative"].

Fixpoint require_all (cs : list string) (cols : list string) : result unit :=
  match cs with
  | [] => Ok tt
  | c :: cs' => (require c cols ;;; require_all cs' cols)%result
  end.

(** [aggregate_bus_metrics]: an empty table is handed back as it is, so the
    result is either that same review table or the per-bus table. *)
Definition aggregate_bus_metrics (df : Frame Review)
  : result (Frame Review + Frame BusMetrics) :=
  if empty df then Ok (inl df)
  else
    (require_all
       ["bus_id"; "operator_name"; "bus_name"; "bus_type"; "route"; "rating";
        "sentiment"] (columns df) ;;;
     Ok (inr (mkFrame bus_columns (map (agg_group (rows df)) (group_keys (rows df))))))%result.

End Aggregate.

(** *** Files and the log

    The pipeline reads a directory listing, writes files and logs; [World]
    holds what it has logged and written so far, and a step either returns
    or raises, with the world as it left it. *)

Inductive log_arg : Type :=
| ArgStr (s : string)
| ArgNat (n : nat).

Record log_record : Type := mkLog {
  level : string;
  template : string;
  log_args : list log_arg
}.

Record World : Type := mkWorld {
  logs : list log_record;
  written : list (string * string)
}.

Definition M (A : Type) : Type := World -> result A * World.

Definition ret {A} (a : A) : M A := fun w => (Ok a, w).

Definition mbind {A B} (m : M A) (k : A -> M B) : M B :=
  fun w =>
    match m w with
    | (Ok a, w') => k a w'
    | (Raise e, w') => (Raise e, w')
    end.

Definition lift {A} (r : result A) : M A := fun w => (r, w).

Definition log (lvl tmpl : string) (args : list log_arg) : M unit :=
  fun w => (Ok tt, mkWorld (logs w ++ [mkLog lvl tmpl args]) (written w)).

(** Writing a file adds it to what has been written; a write that the
    file system refuses is not modelled. *)
Definition write_file (path content : string) : M unit :=
  fun w => (Ok tt, mkWorld (logs w) (written w ++ [(path, content)])).

Declare Scope io_scope.
Delimit Scope io_scope with io.
Notation "x <- m ;; k" := (mbind m (fun x => k))
  (at level 61, m at next level, right associativity) : io_scope.
Notation "m ;;; k" := (mbind m (fun _ => k))
  (at level 61, right associativity) : io_scope.

Fixpoint ends_with_rev (suffix_rev s_rev : list ascii) : bool :=
  match suffix_rev, s_rev with
  | [], _ => true
  | a :: p, b :: q => Ascii.eqb a b && ends_with_rev p q
  | _ :: _, [] => false
  end.

(** The names [glob("*.json")] yields. *)
Definition is_json (name : string) : bool :=
  ends_with_rev (rev (list_ascii_of_string ".json"))
                (rev (list_ascii_of_string name)).

(** [pd.concat(records, ignore_index=True)]: the union of the labels in
    order of appearance, and all rows. *)
Definition concat (dfs : list (Frame Review)) : Frame Review :=
  mkFrame
    (fold_left (fun cols c => set_column c cols) (flat_map columns dfs) [])
    (flat_map rows dfs).

Definition path_join (dir name : string) : string := dir ++ "/" ++ name.

Record Args : Type := mkArgs {
  input : string;
  output : string;
  min_rating : Q;
  parquet : bool
}.

Section Pipeline.

(** [pd.read_json] on the text of a file. *)
Variable read_json : string -> result (Frame Review).
Variable to_datetime : list (option string) -> list (option PyDate.date).
Variable polarity_compound : string -> Q.
Variable float_mean : list Q -> Q.
(** What [to_csv] writes for one cell, and the bytes [to_parquet] writes
    for a table. *)
Variable review_cell : Review -> string -> string.
Variable bus_cell : BusMetrics -> string -> string.
Variable review_parquet : Frame Review -> string.
Variable bus_parquet : Frame BusMetrics -> string.

(** The loop of [load_raw_files] over the sorted files. *)
Fixpoint load_each (files : list (string * string)) (records : list (Frame Review))
  : M (list (Frame Review)) :=
  match files with
  | [] => ret records
  | (name, text) :: files' =>
      (log "INFO" "Loading %s" [ArgStr name] ;;;
       df <- lift (read_json text) ;;
       if empty df then load_each files' records
       else
         let tagged :=
           mkFrame (set_column "source_file" (columns df))
                   (map (fun r => set_source_file r (Some name)) (rows df)) in
         load_each files' (records ++ [tagged]))%io
  end.

(** [load_raw_files]; [dir] lists the files of [input_path] with their
    text. *)
Definition load_raw_files (input_path : string) (dir : list (string * string))
  : M (Frame Review) :=
  (records <- load_each (sorted fst (filter (fun f => is_json (fst f)) dir)) [] ;;
   if is_nil records
   then log "WARNING" "No raw JSON files found in %s" [ArgStr input_path] ;;;
        ret DataFrame
   else ret (concat records))%io.

Definition buses_csv (df : Frame Review + Frame BusMetrics) : string :=
  match df with
  | inl d => to_csv review_cell d
  | inr d => to_csv bus_cell d
  end.

Definition buses_parquet (df : Frame Review + Frame BusMetrics) : string :=
  match df with
  | inl d => review_parquet d
  | inr d => bus_parquet d
  end.

Definition len (df : Frame Review + Frame BusMetrics) : nat :=
  match df with
  | inl d => List.length (rows d)
  | inr d => List.length (rows d)
  end.

Definition persist (df_reviews : Frame Review)
  (df_buses : Frame Review + Frame BusMetrics) (output_dir : string)
  (parquet : bool) : M unit :=
  (let reviews_path := path_join output_dir "reviews.csv" in
   let buses_path := path_join output_dir "buses.csv" in
   write_file reviews_path (to_csv review_cell df_reviews) ;;;
   write_file buses_path (buses_csv df_buses) ;;;
   log "INFO" "Wrote reviews -> %s (%s rows)"
       [ArgStr reviews_path; ArgNat (List.length (rows df_reviews))] ;;;
   log "INFO" "Wrote buses -> %s (%s rows)"
       [ArgStr buses_path; ArgNat (len df_buses)] ;;;
   if parquet
   then write_file (path_join output_dir "reviews.parquet")
                   (review_parquet df_reviews) ;;;
        write_file (path_join output_dir "buses.parquet")
                   (buses_parquet df_buses)
   else ret tt)%io.

Definition main (args : Args) (dir : list (string * string)) : M unit :=
  (df_raw <- load_raw_files (input args) dir ;;
   cleaned <- lift (clean_dataframe to_datetime df_raw (min_rating args)) ;;
   enriched <- lift (apply_sentiment polarity_compound cleaned) ;;
   bus_metrics <- lift (aggregate_bus_metrics float_mean enriched) ;;
   persist enriched bus_metrics (output args) (parquet args))%io.

End Pipeline.

End ETL.

(** ** src/db/schema.py and src/db/load.py *)

Module Loader.

(** The [Bus] entity.  [last_scraped_at] is filled by its column default
    when the row is inserted and plays no part in the load. *)
Record Bus : Type := mkBus {
  bus_id : option string;
  operator_name : option string;
  bus_name : option string;
  bus_type : option string;
  route : option string;
  avg_rating : option Q;
  rating_count : option Z
}.

(** The [Review] entity; [review_id] is assigned by the database. *)
Record Review : Type := mkReview {
  review_id : option nat;
  r_bus_id : option string;
  rating : option Q;
  review_title : option string;
  review_text : option string;
  review_date : option PyDate.date;
  sentiment_label : option string;
  sentiment_score : option Q
}.

(** A cell of the [review_date] column as [parse_date] may meet it: NaN,
    a string, or a [datetime] object. *)
Inductive cell : Type :=
| NaN
| Str (s : string)
| Stamp (d : PyDate.date).

(** One row of buses.csv and of reviews.csv as [read_csv] yields them. *)
Record BusRow : Type := mkBusRow {
  row_bus_id : option string;
  row_operator_name : option string;
  row_bus_name : option string;
  row_bus_type : option string;
  row_route : option string;
  row_avg_rating : option Q;
  row_rating_count : option Q
}.

Record ReviewRow : Type := mkReviewRow {
  rr_bus_id : option string;
  rr_rating : option Q;
  rr_review_title : option string;
  rr_review_text : option string;
  rr_review_date : cell;
  rr_sentiment : option string;
  rr_sentiment_score : option Q
}.

(** [int(x)] on a float: truncation towards zero. *)
Definition int_of_float (q : Q) : Z := Z.quot (Qnum q) (Z.pos (Qden q)).

(** [parse_date], local to [load_reviews]. *)
Definition parse_date (value : cell) : result (option PyDate.date) :=
  match value with
  | NaN => Ok None
  | Str s =>
      if PyStr.is_empty s then Ok None
      else (d <- PyDate.strptime s PyDate.fmt_ymd ;; Ok (Some d))%result
  | Stamp d => Ok (Some d)
  end.

Definition bus_model (row : BusRow) : Bus :=
  mkBus (row_bus_id row) (row_operator_name row) (row_bus_name row)
    (row_bus_type row) (row_route row) (row_avg_rating row)
    (option_map int_of_float (row_rating_count row)).

Definition review_model (row : ReviewRow) : result Review :=
  (d <- parse_date (rr_review_date row) ;;
   Ok (mkReview None (rr_bus_id row) (rr_rating row) (rr_review_title row)
         (rr_review_text row) d (rr_sentiment row) (rr_sentiment_score row)))%result.

(** A list comprehension whose element expression may raise. *)
Fixpoint map_result {A B} (f : A -> result B) (l : list A) : result (list B) :=
  match l with
  | [] => Ok []
  | a :: l' => (b <- f a ;; bs <- map_result f l' ;; Ok (b :: bs))%result
  end.

(** *** The session

    [committed] is what the database holds; [working] is what the open
    transaction sees; the pending lists are the objects added to the
    session and not yet flushed (the session is built with
    [autoflush=False]).  [calls] records the session methods called. *)

Record DB : Type := mkDB { buses : list Bus; reviews : list Review }.

Inductive call : Type :=
| CallDeleteBuses
| CallDeleteReviews
| CallAddAll (n : nat)
| CallCommit
| CallRollback
| CallClose.

Record Session : Type := mkSession {
  committed : DB;
  working : DB;
  pending_buses : list Bus;
  pending_reviews : list Review;
  closed : bool;
  calls : list call
}.

Definition S (A : Type) : Type := Session -> result A * Session.

Definition sbind {A B} (m : S A) (k : A -> S B) : S B :=
  fun s =>
    match m s with
    | (Ok a, s') => k a s'
    | (Raise e, s') => (Raise e, s')
    end.

Definition sret {A} (a : A) : S A := fun s => (Ok a, s).

Definition slift {A} (r : result A) : S A := fun s => (r, s).

Declare Scope session_scope.
Delimit Scope session_scope with session.
Notation "x <- m ;; k" := (sbind m (fun x => k))
  (at level 61, m at next level, right associativity) : session_scope.
Notation "m ;;; k" := (sbind m (fun _ => k))
  (at level 61, right associativity) : session_scope.

Definition called (c : call) (s : Session) : Session :=
  mkSession (committed s) (working s) (pending_buses s) (pending_reviews s)
    (closed s) (calls s ++ [c]).

Definition next_review_id (rs : list Review) : nat :=
  1 + fold_right (fun r m => Nat.max (fillna 0 (review_id r)) m) 0 rs.

Section Database.

(** The verdict of the database on each statement of the transaction:
    constraints, locks, the state of the file.  A refused statement raises
    a [SQLAlchemyError]. *)
Variable accepts_delete_buses : DB -> bool.
Variable accepts_delete_reviews : DB -> bool.
Variable accepts_bus : DB -> Bus -> bool.
Variable accepts_review : DB -> Review -> bool.

(** [session.query(Bus).delete()] *)
Definition delete_buses : S unit :=
  fun s =>
    let s := called CallDeleteBuses s in
    if accepts_delete_buses (working s)
    then (Ok tt, mkSession (committed s) (mkDB [] (reviews (working s)))
                   (pending_buses s) (pending_reviews s) (closed s) (calls s))
    else (Raise (SQLAlchemyError "DELETE FROM buses"), s).

(** [session.query(Review).delete()] *)
Definition delete_reviews : S unit :=
  fun s =>
    let s := called CallDeleteReviews s in
    if accepts_delete_reviews (working s)
    then (Ok tt, mkSession (committed s) (mkDB (buses (working s)) [])
                   (pending_buses s) (pending_reviews s) (closed s) (calls s))
    else (Raise (SQLAlchemyError "DELETE FROM reviews"), s).

Definition add_all_buses (bs : list Bus) : S unit :=
  fun s =>
    let s := called (CallAddAll (List.length bs)) s in
    (Ok tt, mkSession (committed s) (working s) (pending_buses s ++ bs)
              (pending_reviews s) (closed s) (calls s)).

Definition add_all_reviews (rs : list Review) : S unit :=
  fun s =>
    let s := called (CallAddAll (List.length rs)) s in
    (Ok tt, mkSession (committed s) (working s) (pending_buses s)
              (pending_reviews s ++ rs) (closed s) (calls s)).

(** The INSERTs of a flush: parents first, then the reviews, each given the
    next key. *)
Fixpoint insert_buses (bs : list Bus) (db : DB) : result DB :=
  match bs with
  | [] => Ok db
  | b :: bs' =>
      if accepts_bus db b
      then insert_buses bs' (mkDB (buses db ++ [b]) (reviews db))
      else Raise (SQLAlchemyError "INSERT INTO buses")
  end.

Fixpoint insert_reviews (rs : list Review) (db : DB) : result DB :=
  match rs with
  | [] => Ok db
  | r :: rs' =>
      let r' := mkReview (Some (next_review_id (reviews db))) (r_bus_id r)
                  (rating r) (review_title r) (review_text r) (review_date r)
                  (sentiment_label r) (sentiment_score r) in
      if accepts_review db r'
      then insert_reviews rs' (mkDB (buses db) (reviews db ++ [r']))
      else Raise (SQLAlchemyError "INSERT INTO reviews")
  end.

(** [session.commit()]: flush, then COMMIT.  A flush that fails has the
    session roll its transaction back before the error leaves. *)
Definition commit : S unit :=
  fun s =>
    let s := called CallCommit s in
    match (db <- insert_buses (pending_buses s) (working s) ;;
           insert_reviews (pending_reviews s) db)%result with
    | Ok db => (Ok tt, mkSession db db [] [] (closed s) (calls s))
    | Raise e =>
        (Raise e, mkSession (committed s) (committed s) [] [] (closed s) (calls s))
    end.

(** [session.rollback()] *)
Definition rollback (s : Session) : Session :=
  let s := called CallRollback s in
  mkSession (committed s) (committed s) [] [] (closed s) (calls s).

(** [session.close()]: releases the connection, which ends a transaction
    still open without committing it. *)
Definition close (s : Session) : Session :=
  let s := called CallClose s in
  mkSession (committed s) (committed s) [] [] true (calls s).

Definition load_buses (buses_df : list BusRow) (replace : bool) : S unit :=
  ((if replace then delete_buses else sret tt) ;;;
   let bus_models := map bus_model buses_df in
   add_all_buses bus_models)%session.

Definition load_reviews (reviews_df : list ReviewRow) (replace : bool) : S unit :=
  ((if replace then delete_reviews else sret tt) ;;;
   review_models <- slift (map_result review_model reviews_df) ;;
   add_all_reviews review_models)%session.

(** [create_session]: a fresh session on the database. *)
Definition create_session (db : DB) : Session :=
  mkSession db db [] [] false [].

(** [load_dataframe]: a missing file raises before [read_csv] is tried. *)
Definition load_dataframe {A} (path : string) (file : option (result (list A)))
  : result (list A) :=
  match file with
  | None => Raise (FileNotFoundError path)
  | Some r => r
  end.

Record Args : Type := mkArgs { data : string; replace : bool }.

(** The body of the [try] statement of [main]. *)
Definition try_body (args : Args) (buses_df : list BusRow)
  (reviews_df : list ReviewRow) : S unit :=
  (load_buses buses_df (replace args) ;;;
   load_reviews reviews_df (replace args) ;;;
   commit)%session.

(** [try: ... except SQLAlchemyError: rollback; raise  finally: close] *)
Definition guarded (body : S unit) (session : Session) : result unit * Session :=
  match body session with
  | (Raise (SQLAlchemyError m), s) => (Raise (SQLAlchemyError m), close (rollback s))
  | (r, s) => (r, close s)
  end.

(** [main]; the two files are given as [read_csv] would find them: absent,
    unreadable, or a list of rows. *)
Definition main (args : Args) (buses_file : option (result (list BusRow)))
  (reviews_file : option (result (list ReviewRow))) (db : DB)
  : result unit * Session :=
  let session := create_session db in
  match load_dataframe (ETL.path_join (data args) "buses.csv") buses_file with
  | Raise e => (Raise e, session)
  | Ok buses_df =>
      match load_dataframe (ETL.path_join (data args) "reviews.csv") reviews_file with
      | Raise e => (Raise e, session)
      | Ok reviews_df => guarded (try_body args buses_df reviews_df) session
      end
  end.

End Database.

End Loader.

(** ** app.py: the dashboard filters *)

Module Dashboard.

Import Table.

Record Filters : Type := mkFilters {
  operator : list string;
  bus_type : list string;
  sentiment : list string;
  rating_range : Q * Q;
  route_keyword : string
}.

(** [Series.isin(values)] on one cell: a missing cell is in no list. *)
Definition isin (values : list string) (x : option string) : bool :=
  match x with
  | Some s => existsb (String.eqb s) values
  | None => false
  end.

(** [Series.between(low, high)] on one cell, both ends included: a
    missing cell is between nothing. *)
Definition between (low high : Q) (x : option Q) : bool :=
  match x with
  | Some q => Qle_bool low q && Qle_bool q high
  | None => false
  end.

(** The [.str] accessor exists on a column of strings only; a column read
    from a CSV holds strings when it has no row or some cell that is not
    missing. *)
Definition has_str_accessor (col : list (option string)) : bool :=
  is_nil col || existsb notna col.

Section Regex.

(** [re.compile(pattern)], giving [None] where it raises [re.error], and
    then [search(text) is not None]. *)
Variable re_compile : string -> option (string -> bool).

Definition apply_filters (reviews_df : Frame ETL.Review) (filters : Filters)
  : result (Frame ETL.Review) :=
  (let cols := columns reviews_df in
   let df := rows reviews_df in
   df <- (if is_nil (operator filters) then Ok df
          else require "operator_name" cols ;;;
               Ok (filter (fun r => isin (operator filters) (ETL.operator_name r)) df)) ;;
   df <- (if is_nil (bus_type filters) then Ok df
          else require "bus_type" cols ;;;
               Ok (filter (fun r => isin (bus_type filters) (ETL.bus_type r)) df)) ;;
   df <- (if is_nil (sentiment filters) then Ok df
          else require "sentiment" cols ;;;
               Ok (filter (fun r => isin (sentiment filters) (ETL.sentiment r)) df)) ;;
   let low := fst (rating_range filters) in
   let high := snd (rating_range filters) in
   require "rating" cols ;;;
   let df := filter (fun r => between low high (ETL.rating r)) df in
   if PyStr.is_empty (route_keyword filters) then Ok (mkFrame cols df)
   else
     let keyword := PyStr.lower (route_keyword filters) in
     require "route" cols ;;;
     if has_str_accessor (map ETL.route (rows reviews_df))
     then match re_compile keyword with
          | Some search =>
              Ok (mkFrame cols
                    (filter (fun r =>
                               match ETL.route r with
                               | Some s => search (PyStr.lower s)
                               | None => false
                               end) df))
          | None => Raise (ReError keyword)
          end
     else Raise (AttributeError "Can only use .str accessor with string values"))%result.

End Regex.

End Dashboard.

(** ** src/common/utils.py *)

Module Utils.

(** The indices [range(idx, stop, step)] walks through for a positive
    [step]; [fuel] bounds the number of indices. *)
Fixpoint range_from (fuel idx stop step : nat) : list nat :=
  match fuel with
  | 0 => []
  | Datatypes.S fuel' =>
      if idx <? stop then idx :: range_from fuel' (idx + step) stop step else []
  end.

(** [range(0, stop, step)] for [stop >= 0]: a zero step raises, a negative
    step walks down from 0 and meets nothing. *)
Definition range (stop : nat) (step : Z) : result (list nat) :=
  if (step =? 0)%Z then Raise (ValueError "range() arg 3 must not be zero")
  else if (step <? 0)%Z then Ok []
  else Ok (range_from stop 0 stop (Z.to_nat step)).

(** [seq[idx : idx + size]] for [idx >= 0] and [size > 0] *)
Definition slice {A} (seq : list A) (idx size : nat) : list A :=
  firstn size (skipn idx seq).

(** [chunked], as the list of everything the generator yields; an error is
    the one its first step raises. *)
Definition chunked {A} (seq : list A) (size : Z) : result (list (list A)) :=
  (idxs <- range (List.length seq) size ;;
   Ok (map (fun idx => slice seq idx (Z.to_nat size)) idxs))%result.

End Utils.

(** ** src/scraper/parsers.py: numbers in card texts *)

Module ParsersText.

(** [ch.isdigit()] on one character below 128 *)
Definition isdigit (c : ascii) : bool :=
  let n := nat_of_ascii c in (48 <=? n) && (n <=? 57).

(** ["".join(ch for ch in value if ch.isdigit())] *)
Fixpoint keep_digits (value : string) : string :=
  match value with
  | EmptyString => EmptyString
  | String c r => if isdigit c then String c (keep_digits r) else keep_digits r
  end.

(** [_safe_digits]: [digits or None] turns the empty text into [None]. *)
Definition _safe_digits (value : option string) : option string :=
  match value with
  | None => None
  | Some v =>
      let digits := keep_digits v in
      if PyStr.is_empty digits then None else Some digits
  end.

(** The digits of a decimal literal, where single underscores may stand
    between digits; [after_digit] tells that the previous character was a
    digit. *)
Fixpoint literal_value (acc : Z) (after_digit : bool) (s : string) : option Z :=
  match s with
  | EmptyString => if after_digit then Some acc else None
  | String c r =>
      match PyDate.digit_val c with
      | Some d => literal_value (10 * acc + Z.of_nat d) true r
      | None =>
          if Ascii.eqb c "_" && after_digit then literal_value acc false r
          else None
      end
  end.

Section Int.

(** Whether the interpreter accepts a literal of this length; releases
    that limit the digits of a decimal literal refuse the ones beyond the
    limit with a [ValueError]. *)
Variable within_digit_limit : string -> bool.

(** The white space [int] skips around a literal: TAB, LF, VT, FF, CR and
    the space, but not the separators FS/GS/RS/US that [str.strip]
    removes. *)
Definition int_space (c : ascii) : bool :=
  let n := nat_of_ascii c in ((9 <=? n) && (n <=? 13)) || (n =? 32).

Fixpoint int_lstrip (s : string) : string :=
  match s with
  | EmptyString => EmptyString
  | String c r => if int_space c then int_lstrip r else s
  end.

Fixpoint int_rstrip (s : string) : string :=
  match s with
  | EmptyString => EmptyString
  | String c r =>
      let r' := int_rstrip r in
      if int_space c && PyStr.is_empty r' then EmptyString else String c r'
  end.

(** [int(s)] on a [str]: white space around the literal is skipped, one
    sign may lead it. *)
Definition int_of_str (s : string) : result Z :=
  let t := int_rstrip (int_lstrip s) in
  let parsed :=
    match t with
    | String "+" r => literal_value 0 false r
    | String "-" r => option_map Z.opp (literal_value 0 false r)
    | _ => literal_value 0 false t
    end in
  match parsed with
  | Some z =>
      if within_digit_limit t then Ok z
      else Raise (ValueError "Exceeds the limit for integer string conversion")
  | None => Raise (ValueError "invalid literal for int() with base 10")
  end.

(** [_safe_int]: [int(None)] raises [TypeError], which is caught like the
    [ValueError] of a bad literal. *)
Definition _safe_int (value : option string) : option Z :=
  match value with
  | None => None
  | Some s =>
      match int_of_str s with
      | Ok z => Some z
      | Raise _ => None
      end
  end.

(** The [rating_count] of [parse_bus_card], from the text of the votes
    element when there is one. *)
Definition rating_count_of (votes : option string) : option Z :=
  match votes with
  | Some text => _safe_int (_safe_digits (Some text))
  | None => None
  end.

End Int.

End ParsersText.

(** ** src/scraper/redbus_scraper.py: scrolling *)

Module Browser.

(** The loop of [_scroll_to_bottom].  [height_at k] is what
    [document.body.scrollHeight] reads after [k] scrolls; the pauses play
    no part.  The result is the number of scrolls made, or [None] when
    [fuel] scrolls were not enough to leave the loop. *)
Fixpoint scroll_loop (fuel : nat) (max_scroll_attempts : Z) (height_at : nat -> Z)
  (scrolls : nat) (attempts last_height : Z) : option nat :=
  if (attempts <? max_scroll_attempts)%Z
  then match fuel with
       | 0 => None
       | Datatypes.S fuel' =>
           let new_height := height_at (Datatypes.S scrolls) in
           if (new_height =? last_height)%Z
           then scroll_loop fuel' max_scroll_attempts height_at
                  (Datatypes.S scrolls) (attempts + 1) last_height
           else scroll_loop fuel' max_scroll_attempts height_at
                  (Datatypes.S scrolls) 0 new_height
       end
  else Some scrolls.

Definition _scroll_to_bottom (fuel : nat) (max_scroll_attempts : Z)
  (height_at : nat -> Z) : option nat :=
  scroll_loop fuel max_scroll_attempts height_at 0 0 (height_at 0).

End Browser.

(** ** src/common/logging_utils.py *)

Module Logging.

Inductive handler : Type :=
| RotatingFileHandler (file : string) (maxBytes backupCount : nat) (format datefmt : string)
| StreamHandler (format datefmt : string).

Record Logger : Type := mkLogger {
  handlers : list handler;
  level : nat;
  propagate : bool
}.

Definition NOTSET : nat := 0.
Definition INFO : nat := 20.

(** The loggers of the [logging] module, by name. *)
Definition registry : Type := list (string * Logger).

Fixpoint lookup (name : string) (reg : registry) : option Logger :=
  match reg with
  | [] => None
  | (n, l) :: reg' => if String.eqb n name then Some l else lookup name reg'
  end.

Fixpoint store (name : string) (l : Logger) (reg : registry) : registry :=
  match reg with
  | [] => [(name, l)]
  | (n, l0) :: reg' =>
      if String.eqb n name then (n, l) :: reg' else (n, l0) :: store name l reg'
  end.

(** [logging.getLogger(name)]: the logger of that name, made on first
    use with no handler. *)
Definition getLogger (name : string) (reg : registry) : Logger * registry :=
  match lookup name reg with
  | Some l => (l, reg)
  | None =>
      let l := mkLogger [] NOTSET true in
      (l, store name l reg)
  end.

Definition log_format : string := "%(asctime)s | %(levelname)s | %(name)s | %(message)s".
Definition log_datefmt : string := "%Y-%m-%d %H:%M:%S".

(** [get_logger]; [log_dir] is [LOG_DIR]. *)
Definition get_logger (log_dir name : string) (reg : registry) : Logger * registry :=
  let (logger, reg) := getLogger name reg in
  if negb (is_nil (handlers logger)) then (logger, reg)
  else
    let file_handler :=
      RotatingFileHandler (ETL.path_join log_dir "redbus.log") 2000000 3
        log_format log_datefmt in
    let console_handler := StreamHandler log_format log_datefmt in
    let logger :=
      mkLogger (handlers logger ++ [file_handler] ++ [console_handler]) INFO false in
    (logger, store name logger reg).

End Logging.

(** ** src/scraper/parsers.py and the records of a scrape *)

Module Cards.

(** A node of the parsed page: the text of the first element a selector
    finds, stripped or as it stands, and the attributes of the node. *)
Record Node : Type := mkNode {
  select_text : string -> option string;
  select_raw_text : string -> option string;
  attr : string -> option string
}.

(** [node.select_one(a) or node.select_one(b)], then the stripped text *)
Definition select_or (n : Node) (a b : string) : option string :=
  match select_text n a with
  | Some t => Some t
  | None => select_text n b
  end.

(** [a or b] on two attribute values: an empty text counts as missing. *)
Definition attr_or (a b : option string) : option string :=
  match a with
  | Some s => if PyStr.is_empty s then b else Some s
  | None => b
  end.

(** What leaves the loop of [scrape]: an exception of the driver, or one
    of the parsers. *)
Inductive error : Type :=
| WebDriverException
| ParserError (e : exn).

Inductive attempt (A : Type) : Type :=
| Got (a : A)
| Lost (e : error).

Arguments Got {A} a.
Arguments Lost {A} e.

(** What the driver finds when the rating button of a bus is asked for:
    no button or no modal in time (the [try] block raises), a page whose
    source cannot be read, or a modal with its review cards, whose close
    button can be clicked or not. *)
Inductive widget : Type :=
| NoWidget
| Unreadable
| Modal (review_nodes : list Node) (closes : bool).

Section Parse.

(** A Python [float]. *)
Variable float : Type.

(** The values of a parsed card, and a [dict] with its keys in insertion
    order. *)
Inductive value : Type :=
| VNone
| VStr (s : string)
| VFloat (x : float)
| VInt (z : Z).

Definition dict : Type := list (string * value).

Fixpoint get (key : string) (d : dict) : option value :=
  match d with
  | [] => None
  | (k, v) :: d' => if String.eqb k key then Some v else get key d'
  end.

(** [d[key] = v]: a key that is there keeps its place. *)
Fixpoint set (key : string) (v : value) (d : dict) : dict :=
  match d with
  | [] => [(key, v)]
  | (k, v0) :: d' =>
      if String.eqb k key then (k, v) :: d' else (k, v0) :: set key v d'
  end.

(** [{**d1, **d2}] *)
Definition merge (d1 d2 : dict) : dict :=
  fold_left (fun d kv => set (fst kv) (snd kv) d) d2 d1.

Definition str_or_none (x : option string) : value :=
  match x with
  | Some s => VStr s
  | None => VNone
  end.

(** [float(s)] on a text: the number, or [None] where it raises
    [ValueError]. *)
Variable float_of_str : string -> option float.
Variable within_digit_limit : string -> bool.

(** [_safe_float(x.get_text(strip=True)) if x else None] *)
Definition float_value (x : option string) : value :=
  match x with
  | Some t =>
      match float_of_str t with
      | Some q => VFloat q
      | None => VNone
      end
  | None => VNone
  end.

Definition int_value (x : option Z) : value :=
  match x with
  | Some z => VInt z
  | None => VNone
  end.

Definition parse_bus_card (card : Node) : dict :=
  [("bus_id", str_or_none (attr_or (attr card "data-busid") (attr card "id")));
   ("operator_name", str_or_none (select_or card ".travels .name" ".travels"));
   ("bus_name", str_or_none (select_or card ".bus-name" ".busType"));
   ("bus_type", str_or_none (select_or card ".bus-type" ".busType"));
   ("rating", float_value (select_or card ".rating-sec .rating" ".rating"));
   ("rating_count",
    int_value (ParsersText.rating_count_of within_digit_limit
                 (select_raw_text card ".rating-sec .votes")));
   ("route", str_or_none (select_or card ".route-info" ".route"))].

Definition parse_review (review_node : Node) : result dict :=
  (date <- match select_or review_node ".review-date" ".date" with
           | Some t => Parsers._format_review_date (Some t)
           | None => Ok None
           end ;;
   Ok [("rating", float_value (select_or review_node ".rating" ".score"));
       ("review_title", str_or_none (select_text review_node ".title"));
       ("review_text", str_or_none (select_or review_node ".comment" ".desc"));
       ("review_date", str_or_none date)])%result.

(** [[parse_bus_card(card) for card in cards]] *)
Definition _collect_bus_cards (cards : list Node) : list dict :=
  map parse_bus_card cards.

(** [[parse_review(node) for node in review_nodes]] *)
Fixpoint parse_reviews (review_nodes : list Node) : result (list dict) :=
  match review_nodes with
  | [] => Ok []
  | node :: review_nodes' =>
      (review <- parse_review node ;;
       reviews <- parse_reviews review_nodes' ;;
       Ok (review :: reviews))%result
  end.

Definition _collect_reviews (w : widget) : attempt (list dict) :=
  match w with
  | NoWidget => Got []
  | Unreadable => Lost WebDriverException
  | Modal review_nodes closes =>
      match parse_reviews review_nodes with
      | Raise e => Lost (ParserError e)
      | Ok reviews => if closes then Got reviews else Lost WebDriverException
      end
  end.

(** [bus.get("bus_id") or ""], on a card of [parse_bus_card], which holds
    a text or [None] there. *)
Definition bus_id_of (bus : dict) : string :=
  match get "bus_id" bus with
  | Some (VStr s) => s
  | _ => EmptyString
  end.

(** [timestamp()] at its k-th call of the run; [scrape] calls it once for
    every record it appends. *)
Variable timestamp : nat -> string.

(** The loop over the reviews of one bus. *)
Fixpoint add_reviews (bus : dict) (reviews : list dict) (journey_date : string)
  (payload : list dict) : list dict :=
  match reviews with
  | [] => payload
  | review :: reviews' =>
      let record :=
        set "scraped_at" (VStr (timestamp (List.length payload)))
          (set "journey_date" (VStr journey_date) (merge bus review)) in
      add_reviews bus reviews' journey_date (payload ++ [record])
  end.

(** The loop of [scrape] over the buses of one page: a bus without an id
    is skipped, every other bus has its review widget read.
    [widget_of seen bus_id] is what the driver finds for the bus at
    place [seen] of the page. *)
Fixpoint add_buses (buses : list dict) (widget_of : nat -> string -> widget)
  (seen : nat) (journey_date : string) (payload : list dict)
  : attempt (list dict) :=
  match buses with
  | [] => Got payload
  | bus :: buses' =>
      let bus_id := bus_id_of bus in
      if PyStr.is_empty bus_id
      then add_buses buses' widget_of (Datatypes.S seen) journey_date payload
      else
        match _collect_reviews (widget_of seen bus_id) with
        | Lost e => Lost e
        | Got reviews =>
            add_buses buses' widget_of (Datatypes.S seen) journey_date
              (add_reviews bus reviews journey_date payload)
        end
  end.

(** One page of [scrape]: the cards are parsed, then the buses are gone
    through. *)
Definition scrape_page (cards : list Node) (widget_of : nat -> string -> widget)
  (journey_date : string) (payload : list dict) : attempt (list dict) :=
  add_buses (_collect_bus_cards cards) widget_of 0 journey_date payload.

End Parse.

Arguments VNone {float}.
Arguments VStr {float} s.
Arguments VFloat {float} x.
Arguments VInt {float} z.
Arguments get {float} key d.
Arguments set {float} key v d.
Arguments merge {float} d1 d2.
Arguments bus_id_of {float} bus.

End Cards.

(** * Properties *)

(** ** Sentiment thresholds *)

Module SentimentFacts.

Import Sentiment.

(** C1.  [analyze] labels a text by the compound score of the scorer:
    "positive" from 0.05 upwards, "negative" from -0.05 downwards,
    "neutral" strictly in between, and the score returned is that compound
    value, obtained in one call.  An absent or empty text gives exactly
    [{label: "neutral", score: 0.0}] and the scorer is not called. *)
Theorem analyze_thresholds (polarity_compound : string -> Q) (text : option string) :
  ((text = None \/ text = Some "") ->
   analyze polarity_compound text = (mkSentiment "neutral" 0, [])) /\
  (forall t, text = Some t -> t <> "" ->
   let c := polarity_compound t in
   let r := analyze polarity_compound text in
   score (fst r) = c /\ snd r = [t] /\
   ((5 # 100 <= c)%Q -> label (fst r) = "positive") /\
   ((c <= - (5 # 100))%Q -> label (fst r) = "negative") /\
   ((- (5 # 100) < c)%Q /\ (c < 5 # 100)%Q -> label (fst r) = "neutral")).
Proof.
  split.
  - intros [-> | ->]; reflexivity.
  - intros t -> Ht. cbv zeta. unfold analyze.
    destruct t as [|a t']; [congruence|]. cbn [PyStr.is_empty].
    cbn [fst snd score label].
    repeat split.
    + intros H. apply Qle_bool_iff in H.
      unfold POSITIVE_THRESHOLD. now rewrite H.
    + intros H.
      destruct (Qle_bool POSITIVE_THRESHOLD (polarity_compound (String a t'))) eqn:E.
      * apply Qle_bool_iff in E. unfold POSITIVE_THRESHOLD in E.
        exfalso. assert (5 # 100 <= - (5 # 100))%Q as X by (eapply Qle_trans; eauto).
        now compute in X.
      * apply Qle_bool_iff in H. unfold NEGATIVE_THRESHOLD. now rewrite H.
    + intros [Hlo Hhi].
      destruct (Qle_bool POSITIVE_THRESHOLD (polarity_compound (String a t'))) eqn:E.
      * apply Qle_bool_iff in E. unfold POSITIVE_THRESHOLD in E.
        exfalso. exact (Qlt_not_le _ _ Hhi E).
      * destruct (Qle_bool (polarity_compound (String a t')) NEGATIVE_THRESHOLD) eqn:E'.
        -- apply Qle_bool_iff in E'. unfold NEGATIVE_THRESHOLD in E'.
           exfalso. exact (Qlt_not_le _ _ Hlo E').
        -- reflexivity.
Qed.

Lemma analyze_thresholds_witness :
  analyze (fun _ => 6 # 10)%Q None = (mkSentiment "neutral" 0, [])
  /\ label (fst (analyze (fun _ => 6 # 10)%Q (Some "great bus"))) = "positive"
  /\ label (fst (analyze (fun _ => - (5 # 100))%Q (Some "late"))) = "negative"
  /\ label (fst (analyze (fun _ => 4 # 100)%Q (Some "a bus"))) = "neutral".
Proof.
  split; [|split; [|split]].
  - apply (analyze_thresholds (fun _ => 6 # 10)%Q None). now left.
  - apply (analyze_thresholds (fun _ => 6 # 10)%Q (Some "great bus") : _ /\ _)
      with (t := "great bus"); [reflexivity | discriminate | ].
    cbv. discriminate.
  - apply (analyze_thresholds (fun _ => - (5 # 100))%Q (Some "late") : _ /\ _)
      with (t := "late"); [reflexivity | discriminate | ].
    cbv. discriminate.
  - apply (analyze_thresholds (fun _ => 4 # 100)%Q (Some "a bus") : _ /\ _)
      with (t := "a bus"); [reflexivity | discriminate | ].
    split; reflexivity.
Defined.

End SentimentFacts.

(** ** Route parsing *)

Module ScraperFacts.

Import PyStr Scraper.

Lemma split_comma_1_no_comma (s : string) :
  contains_char comma s = false -> split_comma_1 s = [s].
Proof.
  induction s as [|c r IH]; cbn; [reflexivity|].
  intros H. apply orb_false_iff in H as [Hc Hr].
  rewrite Hc, (IH Hr). reflexivity.
Qed.

Lemma split_comma_1_first (o d : string) :
  contains_char comma o = false ->
  split_comma_1 (o ++ String comma d) = [o; d].
Proof.
  induction o as [|c r IH]; cbn; intros H.
  - reflexivity.
  - apply orb_false_iff in H as [Hc Hr].
    rewrite Hc, (IH Hr). reflexivity.
Qed.

Lemma split_comma_1_two (s : string) :
  contains_char comma s = true ->
  exists o d, split_comma_1 s = [o; d].
Proof.
  induction s as [|c r IH]; cbn; [discriminate|].
  destruct (Ascii.eqb c comma) eqn:E; cbn.
  - intros _. now exists "", r.
  - intros H. destruct (IH H) as (o & d & ->). now exists (String c o), d.
Qed.

(** *** Trimming, said without [strip]

    [t] is [s] without the white space at its two ends: [s] is [t]
    between two runs of white space, and [t] neither begins nor ends with
    white space. *)

Fixpoint blank (s : string) : Prop :=
  match s with
  | EmptyString => True
  | String c r => isspace c = true /\ blank r
  end.

Fixpoint last_char (s : string) : option ascii :=
  match s with
  | EmptyString => None
  | String c r =>
      match last_char r with
      | Some x => Some x
      | None => Some c
      end
  end.

Definition first_char (s : string) : option ascii :=
  match s with
  | EmptyString => None
  | String c _ => Some c
  end.

Definition not_space (x : option ascii) : Prop :=
  match x with
  | Some c => isspace c = false
  | None => True
  end.

Definition trimmed (s t : string) : Prop :=
  exists l r,
    s = l ++ t ++ r /\ blank l /\ blank r
    /\ not_space (first_char t) /\ not_space (last_char t).

Lemma last_char_None (s : string) : last_char s = None -> s = "".
Proof.
  destruct s as [|c r]; [reflexivity|]. cbn. destruct (last_char r); discriminate.
Qed.

Lemma lstrip_split (s : string) :
  exists l, s = l ++ lstrip s /\ blank l /\ not_space (first_char (lstrip s)).
Proof.
  induction s as [|c r (l & E & Hl & Hf)]; cbn [lstrip].
  - exists "". repeat split.
  - destruct (isspace c) eqn:Ec.
    + exists (String c l). cbn [append blank]. rewrite <- E. repeat split; assumption.
    + exists "". cbn. repeat split. exact Ec.
Qed.

Lemma rstrip_split (s : string) :
  exists r, s = rstrip s ++ r /\ blank r /\ not_space (last_char (rstrip s)).
Proof.
  induction s as [|c s (r & E & Hr & Hl)]; cbn [rstrip].
  - exists "". repeat split.
  - destruct (isspace c) eqn:Ec; cbn [andb].
    + destruct (rstrip s) as [|x u] eqn:Eu; cbn [is_empty].
      * cbn [append] in E. subst r. exists (String c s).
        cbn [append blank last_char not_space]. repeat split; assumption.
      * exists r. cbn [append] in *. split; [now f_equal|].
        split; [assumption|].
        cbn [last_char]. cbn [last_char] in Hl.
        destruct (last_char u); exact Hl.
    + exists r. cbn [append]. rewrite <- E. repeat split; [assumption|].
      cbn [last_char]. destruct (last_char (rstrip s)); [exact Hl | exact Ec].
Qed.

Lemma rstrip_first_char (s : string) :
  not_space (first_char s) -> not_space (first_char (rstrip s)).
Proof.
  destruct s as [|c r]; cbn; [auto|]. intros E. now rewrite E.
Qed.

Lemma strip_trimmed (s : string) : trimmed s (strip s).
Proof.
  unfold strip.
  destruct (lstrip_split s) as (l & El & Hl & Hf).
  destruct (rstrip_split (lstrip s)) as (r & Er & Hr & Hlast).
  exists l, r. split; [now rewrite <- Er|].
  split; [exact Hl|]. split; [exact Hr|].
  split; [now apply rstrip_first_char | exact Hlast].
Qed.

(** C9.  The route is split at its first comma and both parts are
    trimmed: a text [origin ++ "," ++ destination] whose [origin] has no
    comma yields the origin and the destination, each without the white
    space at its two ends (which is what [strip] returns); the call
    raises, with a [ValueError], exactly when the route has no comma. *)
Theorem parse_route_spec (route : string) :
  (forall origin destination,
     contains_char comma origin = false ->
     route = origin ++ "," ++ destination ->
     exists o d,
       _parse_route route = Ok (o, d)
       /\ trimmed origin o /\ trimmed destination d
       /\ o = strip origin /\ d = strip destination) /\
  ((exists e, _parse_route route = Raise e) <-> contains_char comma route = false) /\
  (forall e, _parse_route route = Raise e -> exists msg, e = ValueError msg).
Proof.
  unfold _parse_route. repeat split.
  - intros o d Ho ->. change ("," ++ d) with (String comma d).
    rewrite (split_comma_1_first o d Ho). cbn [map].
    exists (strip o), (strip d).
    split; [reflexivity|]. split; [apply strip_trimmed|].
    split; [apply strip_trimmed|]. split; reflexivity.
  - intros [e He]. destruct (contains_char comma route) eqn:E; [|reflexivity].
    destruct (split_comma_1_two route E) as (o & d & Hs).
    rewrite Hs in He. cbn in He. discriminate.
  - intros H. rewrite (split_comma_1_no_comma route H). cbn. eauto.
  - intros e He.
    destruct (map strip (split_comma_1 route)) as [|a [|b [|c l]]];
      inversion He; eauto.
Qed.

Lemma parse_route_spec_witness :
  _parse_route "Chennai, Bangalore" = Ok ("Chennai", "Bangalore")
  /\ _parse_route "  Chennai , Bangalore  " = Ok ("Chennai", "Bangalore")
  /\ trimmed " Bangalore  " "Bangalore"
  /\ contains_char comma "Chennai" = false.
Proof.
  destruct (proj1 (parse_route_spec "Chennai, Bangalore") "Chennai" " Bangalore"
              eq_refl eq_refl) as (o1 & d1 & E1 & _ & _ & -> & ->).
  destruct (proj1 (parse_route_spec "  Chennai , Bangalore  ") "  Chennai "
              " Bangalore  " eq_refl eq_refl) as (o2 & d2 & E2 & _ & T & -> & ->).
  split; [exact E1|]. split; [exact E2|]. split.
  - exact T.
  - apply (parse_route_spec "Chennai").
    exists (ValueError "Route must be provided as 'Origin,Destination'").
    reflexivity.
Defined.

End ScraperFacts.

(** ** Dashboard filters *)

Module DashboardFacts.

Import Table Dashboard.

Lemma between_present (low high : Q) (x : option Q) :
  between low high x = true ->
  exists q, x = Some q /\ (low <= q)%Q /\ (q <= high)%Q.
Proof.
  destruct x as [q|]; cbn; [|discriminate].
  intros H. apply andb_true_iff in H as [H1 H2].
  exists q. repeat split; now apply Qle_bool_iff.
Qed.

Lemma bind_ok {A B} (r : result A) (k : A -> result B) (b : B) :
  bind r k = Ok b -> exists a, r = Ok a /\ k a = Ok b.
Proof. destruct r as [a|e]; cbn; [eauto | discriminate]. Qed.

(** A selection step: nothing, or a filter guarded by a column lookup. *)
Lemma selection_incl (sel : list string) (c : string) (cols : list string)
  (p : ETL.Review -> bool) (df out : list ETL.Review) :
  (if is_nil sel then Ok df
   else bind (require c cols) (fun _ => Ok (filter p df))) = Ok out ->
  incl out df.
Proof.
  destruct (is_nil sel).
  - intros [= <-]. apply incl_refl.
  - intros H. apply bind_ok in H as (_ & _ & [= <-]).
    intros r Hr. now apply filter_In in Hr.
Qed.

Definition permissive : Filters := mkFilters [] [] [] (0, 5)%Q "".

(** C10.  The rating condition of [apply_filters] is applied whatever the
    selections are, and a missing rating never satisfies it: every row of
    a filtered table is a row of the input with a rating inside the
    chosen range.  With nothing selected, no keyword and the full range
    [0.0, 5.0] the result is the rows whose rating is present and in
    range, so a row with a missing rating is not among them. *)
Theorem apply_filters_excludes_missing_rating
  (re_compile : string -> option (string -> bool))
  (reviews_df : Frame ETL.Review) :
  (forall filters out,
     apply_filters re_compile reviews_df filters = Ok out ->
     forall r, In r (rows out) ->
       In r (rows reviews_df) /\
       exists q, ETL.rating r = Some q /\
                 (fst (rating_range filters) <= q)%Q /\
                 (q <= snd (rating_range filters))%Q) /\
  (has_column "rating" (columns reviews_df) = true ->
   apply_filters re_compile reviews_df permissive
   = Ok (mkFrame (columns reviews_df)
           (filter (fun r => between 0 5 (ETL.rating r)) (rows reviews_df)))
   /\ forall r out, ETL.rating r = None ->
        apply_filters re_compile reviews_df permissive = Ok out ->
        ~ In r (rows out)).
Proof.
  split.
  - intros filters out H r Hr. unfold apply_filters in H.
    apply bind_ok in H as (d1 & H1 & H).
    apply bind_ok in H as (d2 & H2 & H).
    apply bind_ok in H as (d3 & H3 & H).
    apply bind_ok in H as (_ & _ & H).
    apply selection_incl in H1, H2, H3.
    assert (In r (filter (fun r => between (fst (rating_range filters))
                                     (snd (rating_range filters)) (ETL.rating r)) d3))
      as Hin.
    { destruct (PyStr.is_empty (route_keyword filters)).
      - injection H as <-. exact Hr.
      - apply bind_ok in H as (_ & _ & H).
        destruct (has_str_accessor _); [|discriminate].
        destruct (re_compile _) as [search|]; [|discriminate].
        injection H as <-. cbn in Hr. now apply filter_In in Hr. }
    apply filter_In in Hin as [Hin Hb]. split.
    + apply H1, H2, H3, Hin.
    + now apply between_present.
  - intros Hcol.
    assert (apply_filters re_compile reviews_df permissive
            = Ok (mkFrame (columns reviews_df)
                    (filter (fun r => between 0 5 (ETL.rating r)) (rows reviews_df))))
      as E.
    { unfold apply_filters, permissive, require. cbn. now rewrite Hcol. }
    split; [exact E|].
    intros r out Hr Hout Hin. rewrite E in Hout. injection Hout as <-.
    cbn in Hin. apply filter_In in Hin as [_ Hb]. rewrite Hr in Hb. discriminate.
Qed.

Definition sample_review (rating : option Q) : ETL.Review :=
  ETL.mkReview (Some "B1") (Some "Acme Travels") (Some "Night Rider")
    (Some "AC Sleeper") (Some "Chennai to Bangalore") rating None None
    (Some "Clean bus") (Some "2024-01-12") (Some "2024-01-10") None None
    (Some 9) (Some 2) (Some "positive") (Some (4 # 10)%Q).

Definition sample_table : Frame ETL.Review :=
  mkFrame ["bus_id"; "operator_name"; "route"; "rating"; "sentiment"]
    [sample_review (Some 4%Q); sample_review None].

Lemma apply_filters_excludes_missing_rating_witness :
  ~ In (sample_review None)
      (filter (fun r => between 0 5 (ETL.rating r)) (rows sample_table)).
Proof.
  refine (proj2 (proj2 (apply_filters_excludes_missing_rating (fun _ => None)
                          sample_table) eq_refl)
            (sample_review None)
            (mkFrame (columns sample_table)
               (filter (fun r => between 0 5 (ETL.rating r)) (rows sample_table)))
            eq_refl _).
  exact (proj1 (proj2 (apply_filters_excludes_missing_rating (fun _ => None)
                         sample_table) eq_refl)).
Defined.

End DashboardFacts.

(** ** Dates: printing and parsing *)

Module DateFacts.

Import PyDate.

(** The three spellings of a date that the parser reads, each with the
    year in four digits: "2024-01-12", "12-01-2024" and "12 Jan 2024". *)
Definition iso_text (d : date) : string :=
  pad4 (year d) ++ "-" ++ pad2 (month d) ++ "-" ++ pad2 (day d).

Definition dmy_text (d : date) : string :=
  pad2 (day d) ++ "-" ++ pad2 (month d) ++ "-" ++ pad4 (year d).

Definition dby_text (d : date) : string :=
  pad2 (day d) ++ " " ++ capitalize (nth (month d - 1) month_abbrs "")
  ++ " " ++ pad4 (year d).

Lemma MAXYEAR_eq : MAXYEAR = 9 * 1111.
Proof. reflexivity. Qed.

Lemma digits4 (y : nat) :
  y <= MAXYEAR ->
  1000 * (y / 1000 mod 10) + 100 * (y / 100 mod 10) + 10 * (y / 10 mod 10)
  + y mod 10 = y.
Proof.
  intros H. rewrite MAXYEAR_eq in H.
  pose proof (Nat.div_mod_eq y 10) as E0.
  pose proof (Nat.div_mod_eq (y / 10) 10) as E1.
  pose proof (Nat.div_mod_eq (y / 100) 10) as E2.
  replace (y / 10 / 10) with (y / 100) in E1 by (now rewrite Nat.Div0.div_div).
  replace (y / 100 / 10) with (y / 1000) in E2 by (now rewrite Nat.Div0.div_div).
  assert (y / 1000 < 10) as Hc by (apply Nat.Div0.div_lt_upper_bound; lia).
  rewrite (Nat.mod_small (y / 1000) 10 Hc). lia.
Qed.

Ltac below_ten k :=
  do 10 (destruct k as [|k]; [reflexivity|]); lia.

Lemma digit_val_char (k : nat) : k < 10 -> digit_val (digit_char k) = Some k.
Proof. intros H. below_ten k. Qed.

Lemma digit_not_space (k : nat) : k < 10 -> PyStr.isspace (digit_char k) = false.
Proof. intros H. below_ten k. Qed.

Lemma mod10_lt (n : nat) : n mod 10 < 10.
Proof. apply Nat.mod_upper_bound. discriminate. Qed.

#[local] Hint Resolve mod10_lt : core.

Lemma year4_pad4 (y : nat) (rest : string) :
  y <= MAXYEAR -> year4 (pad4 y ++ rest) = [(y, rest)].
Proof.
  intros H. unfold pad4, pad2. cbn [append]. unfold year4.
  rewrite !digit_val_char by auto. now rewrite (digits4 y H).
Qed.

Lemma day_pad2 (d : nat) (rest : string) :
  1 <= d <= 31 ->
  exists tl, directive_matches Day (pad2 d ++ rest) = (d, rest) :: tl.
Proof.
  intros [H1 H2].
  do 32 (destruct d as [|d]; [try lia; eexists; vm_compute; reflexivity|]).
  lia.
Qed.

Lemma month_pad2 (m : nat) (rest : string) :
  1 <= m <= 12 ->
  exists tl, directive_matches Month (pad2 m ++ rest) = (m, rest) :: tl.
Proof.
  intros [H1 H2].
  do 13 (destruct m as [|m]; [try lia; eexists; vm_compute; reflexivity|]).
  lia.
Qed.



Lemma days_in_month_le (y m : nat) : days_in_month y m <= 31.
Proof.
  unfold days_in_month.
  do 12 (destruct m as [|m]; [try destruct (is_leap y); lia|]). lia.
Qed.

Lemma valid_bounds (d : date) :
  valid d = true ->
  1 <= year d /\ year d <= MAXYEAR /\ 1 <= month d <= 12 /\ 1 <= day d <= 31.
Proof.
  unfold valid, valid_ymd, MINYEAR. intros H.
  repeat (apply andb_true_iff in H as [H ?]).
  repeat match goal with
         | X : (_ <=? _) = true |- _ => apply Nat.leb_le in X
         end.
  pose proof (days_in_month_le (year d) (month d)). lia.
Qed.

(** The match [strptime] finds: the first path through the directives. *)
Definition first_path (ds : list directive) (f : date) (s : string)
  : option (date * string) :=
  hd_error (regex_paths ds f s).

Lemma first_path_nil (f : date) (s : string) : first_path [] f s = Some (f, s).
Proof. reflexivity. Qed.

Lemma first_path_cons (d : directive) (ds : list directive) (f : date)
  (s : string) (v : nat) (r : string) (tl : list (nat * string))
  (x : date * string) :
  directive_matches d s = (v, r) :: tl ->
  first_path ds (set_field d v f) r = Some x ->
  first_path (d :: ds) f s = Some x.
Proof.
  unfold first_path. cbn [regex_paths]. intros -> H. cbn [flat_map fst snd].
  destruct (regex_paths ds (set_field d v f) r); [discriminate|].
  exact H.
Qed.

Lemma strptime_first_path (s : string) (fmt : list directive) (f : date) :
  first_path fmt (mkDate 1900 1 1) s = Some (f, "") ->
  strptime s fmt = make_date (year f) (month f) (day f).
Proof.
  unfold first_path, strptime.
  destruct (regex_paths fmt (mkDate 1900 1 1) s) as [|[f' r] l]; [discriminate|].
  now intros [= -> ->].
Qed.

Lemma strptime_no_path (s : string) (fmt : list directive) :
  regex_paths fmt (mkDate 1900 1 1) s = [] ->
  strptime s fmt = Raise (ValueError "time data does not match format").
Proof. unfold strptime. now intros ->. Qed.

Lemma make_date_valid (d : date) :
  valid d = true -> make_date (year d) (month d) (day d) = Ok d.
Proof. unfold make_date, valid. intros ->. now destruct d. Qed.

Lemma lit_match (c : ascii) (r : string) :
  directive_matches (Lit c) (String c r) = [(0, r)].
Proof. cbn. now rewrite Ascii.eqb_refl. Qed.



(** Reading a valid date in each of its spellings. *)

Lemma strptime_iso_text (d : date) :
  valid d = true -> strptime (iso_text d) fmt_ymd = Ok d.
Proof.
  intros Hv. pose proof (valid_bounds d Hv) as (Hy1 & Hy2 & Hm & Hd).
  rewrite <- (make_date_valid d Hv). apply strptime_first_path.
  unfold iso_text, fmt_ymd. cbn ["++"%string].
  destruct (month_pad2 (month d) (String "-" (pad2 (day d))) Hm) as [tl1 E1].
  destruct (day_pad2 (day d) "" Hd) as [tl2 E2].
  eapply first_path_cons; [apply (year4_pad4 _ _ Hy2)|].
  eapply first_path_cons; [apply lit_match|].
  eapply first_path_cons; [apply E1|].
  eapply first_path_cons; [apply lit_match|].
  eapply first_path_cons; [apply E2|].
  now destruct d.
Qed.



(** Texts the day-month-year format with spaces cannot start: the day
    takes one or two characters and white space must follow. *)

Lemma alt2_rest lo1 hi1 lo2 hi2 (s : string) (v : nat) (r : string) :
  In (v, r) (alt2 lo1 hi1 lo2 hi2 s) -> exists c c', s = String c (String c' r).
Proof.
  unfold alt2. destruct s as [|c [|c' r']]; try contradiction.
  destruct (in_range lo1 hi1 c), (in_range lo2 hi2 c'); try contradiction.
  intros [[= _ <-]|[]]. eauto.
Qed.

Lemma alt1_rest lo hi (s : string) (v : nat) (r : string) :
  In (v, r) (alt1 lo hi s) -> exists c, s = String c r.
Proof.
  unfold alt1. destruct s as [|c r']; try contradiction.
  destruct (in_range lo hi c); try contradiction.
  intros [[= _ <-]|[]]. eauto.
Qed.

Lemma day_rests (s : string) (v : nat) (r : string) :
  In (v, r) (directive_matches Day s) ->
  (exists c, s = String c r) \/ (exists c c', s = String c (String c' r)).
Proof.
  cbn [directive_matches]. rewrite !in_app_iff.
  intros [H|[H|[H|[H|H]]]];
    try (right; eapply alt2_rest; eassumption);
    try (left; eapply alt1_rest; eassumption).
  unfold alt_space_digit in H.
  destruct s as [|c s']; [contradiction|].
  destruct (Ascii.ascii_dec c " ") as [->|Hc].
  - apply alt1_rest in H as [c' ->]. right. eauto.
  - destruct c as [[] [] [] [] [] [] [] []]; contradiction.
Qed.

Lemma flat_map_nil {A B} (g : A -> list B) (l : list A) :
  (forall a, In a l -> g a = []) -> flat_map g l = [].
Proof.
  induction l as [|a l IH]; cbn; intros H; [reflexivity|].
  rewrite (H a) by now left. apply IH. intros; apply H; now right.
Qed.

Lemma dby_no_match (f : date) (c0 c1 c2 : ascii) (r : string) :
  PyStr.isspace c1 = false -> PyStr.isspace c2 = false ->
  regex_paths fmt_dby f (String c0 (String c1 (String c2 r))) = [].
Proof.
  intros H1 H2. unfold fmt_dby. cbn [regex_paths].
  apply flat_map_nil. intros [v r'] Hin. cbn [fst snd].
  apply day_rests in Hin as [[c E]|[c [c' E]]]; inversion E; subst;
    cbn [regex_paths directive_matches ws_rests]; rewrite ?H1, ?H2; reflexivity.
Qed.


Lemma strptime_dby_of_iso (d : date) :
  exists msg, strptime (iso_text d) fmt_dby = Raise (ValueError msg).
Proof.
  eexists. apply strptime_no_path. unfold iso_text, pad4, pad2.
  cbn [append]. apply dby_no_match; apply digit_not_space; auto.
Qed.



(** [strptime] raises nothing but [ValueError]. *)
Lemma strptime_raises (s : string) (fmt : list directive) (e : exn) :
  strptime s fmt = Raise e -> exists msg, e = ValueError msg.
Proof.
  unfold strptime, make_date.
  destruct (regex_paths fmt _ s) as [|[f r] l]; [intros [= <-]; eauto|].
  destruct (PyStr.is_empty r); [|intros [= <-]; eauto].
  destruct (valid_ymd _ _ _); [discriminate | intros [= <-]; eauto].
Qed.

Lemma spellings_nonempty (d : date) :
  PyStr.is_empty (iso_text d) = false
  /\ PyStr.is_empty (dmy_text d) = false
  /\ PyStr.is_empty (dby_text d) = false.
Proof. repeat split; reflexivity. Qed.

(** *** What [strftime] prints *)

Lemma digits_of_nonempty (fuel n : nat) (acc : string) :
  PyStr.is_empty acc = false -> PyStr.is_empty (digits_of fuel n acc) = false.
Proof.
  revert n acc. induction fuel as [|fuel IH]; intros n acc H; cbn [digits_of];
    [exact H|].
  destruct (n / 10 =? 0); [reflexivity | now apply IH].
Qed.

Lemma strftime_ymd_nonempty (d : date) : PyStr.is_empty (strftime_ymd d) = false.
Proof.
  unfold strftime_ymd, year_digits.
  pose proof (digits_of_nonempty (year d) (year d / 10)
                (String (digit_char (year d mod 10)) "") eq_refl) as H.
  cbn [digits_of]. destruct (year d / 10 =? 0); [reflexivity|].
  destruct (digits_of _ _ _); [discriminate H | reflexivity].
Qed.

Lemma div_zero (n k : nat) : n < k -> (n / k =? 0) = true.
Proof. intros H. apply Nat.eqb_eq. now apply Nat.div_small. Qed.

Lemma div_nonzero (n k : nat) : 0 < k -> k <= n -> (n / k =? 0) = false.
Proof.
  intros Hk H. apply Nat.eqb_neq. intros E.
  apply Nat.div_small_iff in E; lia.
Qed.

(** A year of four digits is printed with all four. *)
Lemma year_digits_four (y : nat) :
  1000 <= y <= MAXYEAR -> year_digits y = pad4 y.
Proof.
  rewrite MAXYEAR_eq. intros [H1 H2]. unfold year_digits.
  destruct y as [|[|[|y]]]; try lia.
  remember (S (S (S y))) as n eqn:En.
  replace (S n) with (S (S (S (S y)))) by lia.
  cbn [digits_of]. rewrite !Nat.Div0.div_div.
  rewrite (div_nonzero n 10), (div_nonzero n (10 * 10)),
    (div_nonzero n (10 * 10 * 10)), (div_zero n (10 * 10 * 10 * 10))
    by (cbn; lia).
  reflexivity.
Qed.

Lemma strftime_ymd_iso (d : date) :
  valid d = true -> 1000 <= year d -> strftime_ymd d = iso_text d.
Proof.
  intros Hv Hy. pose proof (valid_bounds d Hv) as (_ & Hmax & _).
  unfold strftime_ymd, iso_text. now rewrite year_digits_four.
Qed.

(** One, two or three digits. *)
Definition short (s : string) : Prop :=
  exists a b c,
    a < 10 /\ b < 10 /\ c < 10 /\
    (s = String (digit_char a) ""
     \/ s = String (digit_char a) (String (digit_char b) "")
     \/ s = String (digit_char a) (String (digit_char b) (String (digit_char c) ""))).

(** A year below 1000 is printed with fewer than four digits. *)
Lemma year_digits_short (y : nat) : y < 1000 -> short (year_digits y).
Proof.
  intros H. unfold year_digits, short.
  destruct (Nat.lt_ge_cases y 10) as [H10|H10].
  { exists (y mod 10), 0, 0. repeat (split; [first [apply mod10_lt | lia]|]). left.
    cbn [digits_of]. now rewrite (div_zero y 10 H10). }
  destruct (Nat.lt_ge_cases y 100) as [H100|H100].
  { exists (y / 10 mod 10), (y mod 10), 0.
    repeat (split; [first [apply mod10_lt | lia]|]). right. left.
    destruct y as [|y]; [lia|]. remember (S y) as n eqn:En.
    replace (S n) with (S (S y)) by lia.
    cbn [digits_of]. rewrite !Nat.Div0.div_div.
    now rewrite (div_nonzero n 10), (div_zero n (10 * 10)) by (cbn; lia). }
  exists (y / (10 * 10) mod 10), (y / 10 mod 10), (y mod 10).
  repeat (split; [first [apply mod10_lt | lia]|]). right. right.
  destruct y as [|[|y]]; try lia. remember (S (S y)) as n eqn:En.
  replace (S n) with (S (S (S y))) by lia.
  cbn [digits_of]. rewrite !Nat.Div0.div_div.
  now rewrite (div_nonzero n 10), (div_nonzero n (10 * 10)),
    (div_zero n (10 * 10 * 10)) by (cbn; lia).
Qed.

(** *** A short year is read back by no format

    The text printed for a year below 1000 has its first hyphen within
    the first four characters and ends in the two digits of the day. *)

Lemma digit_not_dash (k : nat) : k < 10 -> Ascii.eqb (digit_char k) "-" = false.
Proof. intros H. below_ten k. Qed.

Lemma month_rests (s : string) (v : nat) (r : string) :
  In (v, r) (directive_matches Month s) ->
  (exists c, s = String c r) \/ (exists c c', s = String c (String c' r)).
Proof.
  cbn [directive_matches]. rewrite !in_app_iff.
  intros [H|[H|H]];
    try (right; eapply alt2_rest; eassumption);
    try (left; eapply alt1_rest; eassumption).
Qed.

Lemma regex_paths_cons (d : directive) (ds : list directive) (f : date) (s : string) :
  regex_paths (d :: ds) f s
  = flat_map (fun vr => regex_paths ds (set_field d (fst vr) f) (snd vr))
             (directive_matches d s).
Proof. reflexivity. Qed.

Lemma lit_no_match (c x : ascii) (ds : list directive) (f : date) (r : string) :
  Ascii.eqb x c = false -> regex_paths (Lit c :: ds) f (String x r) = [].
Proof.
  intros H. rewrite regex_paths_cons. cbn [directive_matches]. now rewrite H.
Qed.

Lemma lit_step (c : ascii) (ds : list directive) (f : date) (r : string) :
  regex_paths (Lit c :: ds) f (String c r) = regex_paths ds f r.
Proof.
  rewrite regex_paths_cons, lit_match. cbn [flat_map fst snd set_field].
  apply app_nil_r.
Qed.

(** After the year: "-MM-DD" leaves two characters where [%Y] wants
    four. *)
Lemma dmy_tail_no_match (f : date) (m1 m2 d1 d2 : ascii) :
  Ascii.eqb m2 "-" = false ->
  regex_paths [Lit "-"; Month; Lit "-"; Year4] f
    (String "-" (String m1 (String m2 (String "-" (String d1 (String d2 ""))))))
  = [].
Proof.
  intros H2. rewrite lit_step, regex_paths_cons.
  apply flat_map_nil. intros [v r] Hin. cbn [fst snd].
  apply month_rests in Hin as [[c E]|[c [c' E]]]; inversion E; subst.
  - now apply lit_no_match.
  - rewrite lit_step. reflexivity.
Qed.

Lemma short_dmy_no_match (f : date) (y : string) (m1 m2 d1 d2 : ascii) :
  short y -> Ascii.eqb m1 "-" = false -> Ascii.eqb m2 "-" = false ->
  regex_paths fmt_dmy f
    (y ++ String "-" (String m1 (String m2 (String "-" (String d1 (String d2 ""))))))
  = [].
Proof.
  intros (a & b & c & Ha & Hb & Hc & Hy) H1 H2.
  pose proof (digit_not_dash a Ha) as Da.
  pose proof (digit_not_dash b Hb) as Db.
  pose proof (digit_not_dash c Hc) as Dc.
  unfold fmt_dmy. rewrite regex_paths_cons.
  apply flat_map_nil. intros [v r] Hin. cbn [fst snd].
  destruct Hy as [-> | [-> | ->]]; cbn [append] in Hin;
    apply day_rests in Hin as [[x E]|[x [x' E]]]; inversion E; subst;
    first [ apply dmy_tail_no_match; assumption
          | apply lit_no_match; assumption ].
Qed.

Lemma short_ymd_no_match (f : date) (y : string) (m1 m2 d1 d2 : ascii) :
  short y ->
  regex_paths fmt_ymd f
    (y ++ String "-" (String m1 (String m2 (String "-" (String d1 (String d2 ""))))))
  = [].
Proof.
  intros (a & b & c & Ha & Hb & Hc & Hy).
  unfold fmt_ymd. rewrite regex_paths_cons. cbn [directive_matches].
  destruct Hy as [-> | [-> | ->]]; cbn [append year4];
    rewrite ?digit_val_char by assumption;
    change (digit_val "-") with (@None nat);
    destruct (digit_val m1), (digit_val m2); reflexivity.
Qed.

Lemma short_dby_no_match (f : date) (y : string) (m1 m2 d1 d2 : ascii) :
  short y -> PyStr.isspace m1 = false ->
  regex_paths fmt_dby f
    (y ++ String "-" (String m1 (String m2 (String "-" (String d1 (String d2 ""))))))
  = [].
Proof.
  intros (a & b & c & Ha & Hb & Hc & Hy) H1.
  pose proof (digit_not_space b Hb) as Sb.
  pose proof (digit_not_space c Hc) as Sc.
  destruct Hy as [-> | [-> | ->]]; cbn [append]; apply dby_no_match;
    first [assumption | reflexivity].
Qed.

(** No format reads the text that [strftime] prints for a date before
    the year 1000. *)
Lemma strptime_short_year (d : date) (fmt : list directive) :
  year d < 1000 -> In fmt [fmt_dby; fmt_ymd; fmt_dmy] ->
  strptime (strftime_ymd d) fmt
  = Raise (ValueError "time data does not match format").
Proof.
  intros Hy Hfmt. apply strptime_no_path.
  pose proof (year_digits_short (year d) Hy) as Hs.
  unfold strftime_ymd, pad2. cbn [append].
  destruct Hfmt as [<-|[<-|[<-|[]]]].
  - apply short_dby_no_match; [exact Hs | apply digit_not_space; auto].
  - apply short_ymd_no_match; exact Hs.
  - apply short_dmy_no_match; [exact Hs | |]; apply digit_not_dash; auto.
Qed.

End DateFacts.

(** ** Review dates in the scraper *)

Module ParsersFacts.

Import PyDate Parsers DateFacts.

(** The date of the first of the three formats that parses [s]. *)
Definition first_parse (s : string) : option date :=
  match strptime s fmt_dby with
  | Ok d => Some d
  | Raise _ =>
      match strptime s fmt_ymd with
      | Ok d => Some d
      | Raise _ =>
          match strptime s fmt_dmy with
          | Ok d => Some d
          | Raise _ => None
          end
      end
  end.

Lemma try_formats_raise (s : string) (fmt : list directive)
  (fmts : list (list directive)) (e : exn) :
  strptime s fmt = Raise e -> try_formats s (fmt :: fmts) = try_formats s fmts.
Proof.
  intros H. cbn [try_formats]. rewrite H.
  now destruct (strptime_raises s fmt e H) as [msg ->].
Qed.

Lemma try_formats_ok (s : string) (fmt : list directive)
  (fmts : list (list directive)) (d : date) :
  strptime s fmt = Ok d -> try_formats s (fmt :: fmts) = Ok (Some (strftime_ymd d)).
Proof. intros H. cbn [try_formats]. now rewrite H. Qed.

Lemma try_formats_first_parse (s : string) :
  try_formats s review_date_formats = Ok (option_map strftime_ymd (first_parse s)).
Proof.
  unfold review_date_formats, first_parse.
  destruct (strptime s fmt_dby) as [d|e] eqn:E1.
  { now rewrite (try_formats_ok _ _ _ _ E1). }
  rewrite (try_formats_raise _ _ _ _ E1).
  destruct (strptime s fmt_ymd) as [d|e'] eqn:E2.
  { now rewrite (try_formats_ok _ _ _ _ E2). }
  rewrite (try_formats_raise _ _ _ _ E2).
  destruct (strptime s fmt_dmy) as [d|e''] eqn:E3.
  { now rewrite (try_formats_ok _ _ _ _ E3). }
  now rewrite (try_formats_raise _ _ _ _ E3).
Qed.




End ParsersFacts.

(** ** The loader *)

Module LoaderFacts.

Import PyDate DateFacts Loader.

Definition sample_db : DB := mkDB [] [].

Definition sample_row (date : cell) : ReviewRow :=
  mkReviewRow (Some "B1") (Some 4%Q) (Some "Good") (Some "Clean bus") date
    (Some "positive") (Some (4 # 10)%Q).

Lemma map_result_raises {A B} (f : A -> result B) (l : list A) (a : A) (e : exn) :
  In a l -> f a = Raise e -> exists e', map_result f l = Raise e'.
Proof.
  induction l as [|x l IH]; [contradiction|].
  intros [->|Hin] He; cbn [map_result].
  - rewrite He. cbn. eauto.
  - destruct (f x) as [b|e0]; cbn; [|eauto].
    destruct (IH Hin He) as [e' ->]. cbn. eauto.
Qed.

(** C7, as the code has it.  A blank [review_date] (NaN or the empty
    string) is stored as an absent date and raises nothing; the text of a
    valid date as YYYY-MM-DD is stored as that date.  A text that is not
    blank and that [strptime] rejects for "%Y-%m-%d" is not stored as an
    absent date: [parse_date] raises the [ValueError] of [strptime], no
    [Review] is built for the row and [load_reviews] raises for any table
    that holds such a row. *)
Theorem parse_date_spec :
  (forall row, rr_review_date row = NaN \/ rr_review_date row = Str "" ->
     exists r, review_model row = Ok r /\ review_date r = None) /\
  (forall row d, valid d = true -> rr_review_date row = Str (iso_text d) ->
     exists r, review_model row = Ok r /\ review_date r = Some d) /\
  (forall row s e, s <> "" -> rr_review_date row = Str s ->
     strptime s fmt_ymd = Raise e ->
     (exists msg, e = ValueError msg) /\
     parse_date (Str s) = Raise e /\
     review_model row = Raise e /\
     forall accepts_delete reviews_df replace session,
       In row reviews_df ->
       exists e',
         fst (load_reviews accepts_delete reviews_df replace session) = Raise e').
Proof.
  repeat split.
  - intros row [H|H]; unfold review_model; rewrite H; cbn; eauto.
  - intros row d Hv H. unfold review_model. rewrite H. unfold parse_date.
    destruct (spellings_nonempty d) as (-> & _ & _).
    rewrite (strptime_iso_text d Hv). cbn. eauto.
  - eapply strptime_raises; eassumption.
  - destruct s; [congruence|]. cbn. now rewrite H1.
  - unfold review_model. rewrite H0.
    destruct s; [congruence|]. cbn. now rewrite H1.
  - intros v reviews_df replace session Hin.
    assert (review_model row = Raise e) as Hrow.
    { unfold review_model. rewrite H0.
      destruct s; [congruence|]. cbn. now rewrite H1. }
    destruct (map_result_raises review_model reviews_df row e Hin Hrow) as [e' He'].
    unfold load_reviews, sbind, slift. rewrite He'.
    destruct replace; [|cbn; eauto].
    destruct (delete_reviews v session) as [[u|e0] s']; cbn; eauto.
Qed.

Lemma parse_date_spec_witness :
  (exists r, review_model (sample_row NaN) = Ok r /\ review_date r = None) /\
  (exists r, review_model (sample_row (Str "2024-01-12")) = Ok r
             /\ review_date r = Some (mkDate 2024 1 12)) /\
  parse_date (Str "not-a-date")
  = Raise (ValueError "time data does not match format").
Proof.
  split; [|split].
  - apply (proj1 parse_date_spec (sample_row NaN)). now left.
  - exact (proj1 (proj2 parse_date_spec) (sample_row (Str "2024-01-12"))
             (mkDate 2024 1 12) eq_refl eq_refl).
  - refine (proj1 (proj2 (proj2 (proj2 parse_date_spec)
              (sample_row (Str "not-a-date")) "not-a-date" _ _ eq_refl eq_refl))).
    discriminate.
Defined.

(** C7 as the specification words it fails on the code: a date text that
    does not parse is an error, not an absent date. *)
Lemma parse_date_unparseable_raises :
  (exists e, strptime "not-a-date" fmt_ymd = Raise e) /\
  parse_date (Str "not-a-date") <> Ok None /\
  ~ (exists r, review_model (sample_row (Str "not-a-date")) = Ok r) /\
  fst (load_reviews (fun _ => true)
         [sample_row (Str "not-a-date")] false (create_session sample_db))
  = Raise (ValueError "time data does not match format").
Proof.
  repeat split.
  - eexists. vm_compute. reflexivity.
  - vm_compute. discriminate.
  - intros [r H]. vm_compute in H. discriminate.
Qed.

(** *** The transaction *)

#[local] Open Scope list_scope.

Definition is_commit (c : call) : bool :=
  match c with
  | CallCommit => true
  | _ => false
  end.

Definition count_commits (cs : list call) : nat :=
  List.length (filter is_commit cs).

Section Transaction.

Variable accepts_delete_buses : DB -> bool.
Variable accepts_delete_reviews : DB -> bool.
Variable accepts_bus : DB -> Bus -> bool.
Variable accepts_review : DB -> Review -> bool.

#[local] Abbreviation run_main :=
  (main accepts_delete_buses accepts_delete_reviews accepts_bus accepts_review).
#[local] Abbreviation run_body :=
  (try_body accepts_delete_buses accepts_delete_reviews accepts_bus accepts_review).





End Transaction.

(** A store that holds bus B0, and a batch whose reviews the database
    refuses: primary keys are unique, and no review is accepted. *)

Definition old_db : DB :=
  mkDB [mkBus (Some "B0") (Some "Acme Travels") None None None None None] [].

Definition primary_key_free (db : DB) (b : Bus) : bool :=
  negb (existsb (fun x => option_eqb String.eqb (bus_id x) (bus_id b)) (buses db)).

Definition new_bus : BusRow :=
  mkBusRow (Some "B1") (Some "Orange Travels") None None None
    (Some (9 # 2)%Q) (Some 2%Q).



End LoaderFacts.

(** ** Text normalisation *)

Module TextFacts.

Import PyStr ETL.

(** A text in which white space occurs only as single spaces; with
    [in_run] it moreover does not begin with white space. *)
Fixpoint collapsed (in_run : bool) (s : string) : Prop :=
  match s with
  | EmptyString => True
  | String c r =>
      if isspace c then in_run = false /\ c = " "%char /\ collapsed true r
      else collapsed false r
  end.

Definition starts_clean (s : string) : Prop :=
  match s with
  | EmptyString => True
  | String c _ => isspace c = false
  end.

Lemma sub_ws_collapsed (b : bool) (s : string) : collapsed b (sub_ws b s).
Proof.
  revert b. induction s as [|c r IH]; intros b; cbn; [exact I|].
  destruct (isspace c) eqn:E.
  - destruct b; [apply IH|].
    change (false = false /\ " "%char = " "%char /\ collapsed true (sub_ws true r)).
    repeat split. apply IH.
  - cbn. rewrite E. apply IH.
Qed.

Lemma collapsed_fixed (b : bool) (s : string) : collapsed b s -> sub_ws b s = s.
Proof.
  revert b. induction s as [|c r IH]; intros b; cbn; [reflexivity|].
  destruct (isspace c) eqn:E.
  - intros (-> & -> & H). now rewrite (IH true H).
  - intros H. now rewrite (IH false H).
Qed.

Lemma collapsed_true_false (s : string) : collapsed true s -> collapsed false s.
Proof.
  destruct s as [|c r]; cbn; [auto|].
  destruct (isspace c); [intros (H & _); discriminate | auto].
Qed.

Lemma collapsed_true_starts (s : string) : collapsed true s -> starts_clean s.
Proof.
  destruct s as [|c r]; cbn; [auto|].
  destruct (isspace c); [intros (H & _); discriminate | auto].
Qed.

Lemma lstrip_starts_clean (s : string) : starts_clean (lstrip s).
Proof.
  induction s as [|c r IH]; cbn; [exact I|].
  destruct (isspace c) eqn:E; [exact IH | exact E].
Qed.

Lemma starts_clean_lstrip (s : string) : starts_clean s -> lstrip s = s.
Proof. destruct s as [|c r]; cbn; [reflexivity|]. now intros ->. Qed.

Lemma lstrip_collapsed (b : bool) (s : string) :
  collapsed b s -> collapsed false (lstrip s).
Proof.
  destruct s as [|c r]; cbn; [auto|].
  destruct (isspace c) eqn:E.
  - intros (_ & _ & H).
    rewrite (starts_clean_lstrip r (collapsed_true_starts r H)).
    now apply collapsed_true_false.
  - intros H. cbn. now rewrite E.
Qed.

Lemma rstrip_collapsed (b : bool) (s : string) :
  collapsed b s -> collapsed b (rstrip s).
Proof.
  revert b. induction s as [|c r IH]; intros b; [auto|].
  cbn [rstrip collapsed]. destruct (isspace c) eqn:E.
  - intros (-> & -> & H). cbn [andb].
    destruct (is_empty (rstrip r)); [exact I|].
    cbn [collapsed]. rewrite E. repeat split. now apply IH.
  - intros H. cbn [andb collapsed]. rewrite E. now apply IH.
Qed.

Lemma rstrip_starts_clean (s : string) : starts_clean s -> starts_clean (rstrip s).
Proof. destruct s as [|c r]; cbn; [auto|]. intros E. now rewrite E. Qed.

Lemma rstrip_idempotent (s : string) : rstrip (rstrip s) = rstrip s.
Proof.
  induction s as [|c r IH]; cbn; [reflexivity|].
  destruct (isspace c && is_empty (rstrip r)) eqn:E; [reflexivity|].
  cbn. now rewrite IH, E.
Qed.

Lemma strip_idempotent (s : string) : strip (strip s) = strip s.
Proof.
  unfold strip.
  rewrite (starts_clean_lstrip (rstrip (lstrip s))).
  - apply rstrip_idempotent.
  - apply rstrip_starts_clean, lstrip_starts_clean.
Qed.

(** Normalising a normalised text changes nothing. *)
Lemma normalize_text_idempotent (t : option string) :
  normalize_text (Some (normalize_text t)) = normalize_text t.
Proof.
  unfold normalize_text. cbn [fillna].
  set (u := sub_ws false (fillna "" t)).
  assert (collapsed false (strip u)) as H.
  { unfold strip. apply rstrip_collapsed, (lstrip_collapsed false), sub_ws_collapsed. }
  rewrite (collapsed_fixed false _ H). apply strip_idempotent.
Qed.

End TextFacts.

(** ** Tables: duplicates, column assignment, sorting *)

Module TableFacts.

Import Table.

#[local] Open Scope list_scope.

Lemma filter_all {A} (p : A -> bool) (l : list A) :
  Forall (fun a => p a = true) l -> filter p l = l.
Proof.
  induction 1 as [|a l Ha _ IH]; cbn; [reflexivity|]. now rewrite Ha, IH.
Qed.

Lemma map_fixed {A} (f : A -> A) (l : list A) :
  Forall (fun a => f a = a) l -> map f l = l.
Proof.
  induction 1 as [|a l Ha _ IH]; cbn; [reflexivity|]. now rewrite Ha, IH.
Qed.

Lemma Forall_filter {A} (P : A -> Prop) (p : A -> bool) (l : list A) :
  Forall P l -> Forall P (filter p l).
Proof.
  rewrite !Forall_forall. intros H a Ha. apply filter_In in Ha. now apply H.
Qed.

Lemma Forall_filter_mask {A} (p : A -> bool) (l : list A) :
  Forall (fun a => p a = true) (filter p l).
Proof. apply Forall_forall. intros a Ha. now apply filter_In in Ha. Qed.

(** Selecting rows keeps keys distinct. *)
Lemma filter_keeps_NoDup {A K} (key : A -> K) (keep : A -> bool) :
  forall rows, NoDup (map key rows) -> NoDup (map key (filter keep rows)).
Proof.
  intros rows. induction rows as [|a rows IH]; cbn; [auto|].
  intros H. inversion H as [|? ? Hnin Hnd]; subst.
  destruct (keep a); [|now apply IH].
  cbn. constructor; [|now apply IH].
  intros Hin. apply Hnin. apply in_map_iff in Hin as (y & Hy & Hin).
  apply filter_In in Hin as [Hin _]. apply in_map_iff. eauto.
Qed.

Section Duplicates.

Context {A K : Type}.
Variable eqb : K -> K -> bool.
Variable key : A -> K.
Hypothesis eqb_eq : forall x y, eqb x y = true <-> x = y.

#[local] Abbreviation dd := (drop_duplicates eqb key).

Lemma other_key (x y : A) : negb (eqb (key x) (key y)) = true <-> key x <> key y.
Proof.
  rewrite negb_true_iff. split.
  - intros H E. apply eqb_eq in E. congruence.
  - intros H. destruct (eqb (key x) (key y)) eqn:E; [|reflexivity].
    apply eqb_eq in E. contradiction.
Qed.

Lemma drop_duplicates_In (l : list A) (x : A) : In x (dd l) -> In x l.
Proof.
  induction l as [|a l IH]; cbn; [auto|].
  intros [->|H]; [now left|]. right. apply IH. now apply filter_In in H.
Qed.

Lemma drop_duplicates_Forall (P : A -> Prop) (l : list A) :
  Forall P l -> Forall P (dd l).
Proof.
  rewrite !Forall_forall. intros H x Hx. apply H. now apply drop_duplicates_In.
Qed.

Lemma drop_duplicates_NoDup (l : list A) : NoDup (map key (dd l)).
Proof.
  induction l as [|a l IH]; cbn; [constructor|].
  constructor; [|now apply filter_keeps_NoDup].
  intros Hin. apply in_map_iff in Hin as (y & Hy & Hin).
  apply filter_In in Hin as [_ Hne]. apply other_key in Hne. congruence.
Qed.

Lemma drop_duplicates_fixed (l : list A) : NoDup (map key l) -> dd l = l.
Proof.
  induction l as [|a l IH]; cbn; [reflexivity|].
  intros H. inversion H as [|? ? Hnin Hnd]; subst.
  rewrite (IH Hnd). f_equal. apply filter_all, Forall_forall.
  intros y Hy. apply other_key. intros E. apply Hnin. rewrite E.
  now apply in_map.
Qed.

(** The first row of each key stays. *)
Lemma drop_duplicates_first (l1 l2 : list A) (x : A) :
  ~ In (key x) (map key l1) -> In x (dd (l1 ++ x :: l2)).
Proof.
  induction l1 as [|a l1 IH]; cbn; [now left|].
  intros H. right. apply filter_In. split.
  - apply IH. tauto.
  - apply other_key. tauto.
Qed.

(** Only first rows stay. *)
Lemma drop_duplicates_only_first (l : list A) (x : A) :
  In x (dd l) ->
  exists l1 l2, l = l1 ++ x :: l2 /\ ~ In (key x) (map key l1).
Proof.
  induction l as [|a l IH]; cbn; [contradiction|].
  intros [->|H].
  - exists [], l. split; [reflexivity | auto].
  - apply filter_In in H as [H Hne]. apply other_key in Hne.
    destruct (IH H) as (l1 & l2 & -> & Hnin).
    exists (a :: l1), l2. split; [reflexivity|].
    cbn. intros [E|E]; [congruence | contradiction].
Qed.

(** Every key stays. *)
Lemma drop_duplicates_key (l : list A) (x : A) :
  In x l -> exists y, In y (dd l) /\ key y = key x.
Proof.
  induction l as [|a l IH]; cbn; [contradiction|].
  intros [->|H]; [exists x; auto|].
  destruct (IH H) as (y & Hy & E).
  destruct (eqb (key a) (key y)) eqn:Ea.
  - apply eqb_eq in Ea. exists a. split; [now left | congruence].
  - exists y. split; [|exact E]. right. apply filter_In. split; [exact Hy|].
    now rewrite Ea.
Qed.

End Duplicates.

(** A column cut or padded to the number of rows. *)
Fixpoint fit {V} (n : nat) (vs : list (option V)) : list (option V) :=
  match n with
  | 0 => []
  | Datatypes.S n' =>
      match vs with
      | v :: vs' => v :: fit n' vs'
      | [] => None :: fit n' []
      end
  end.

Lemma fit_map {V W} (f : V -> W) (n : nat) (vs : list (option V)) :
  fit n (map (option_map f) vs) = map (option_map f) (fit n vs).
Proof.
  revert vs. induction n as [|n IH]; intros vs; cbn; [reflexivity|].
  destruct vs as [|v vs]; cbn.
  - f_equal. apply (IH []).
  - f_equal. apply IH.
Qed.

Lemma fit_In {V} (n : nat) (vs : list (option V)) (v : V) :
  In (Some v) (fit n vs) -> In (Some v) vs.
Proof.
  revert vs. induction n as [|n IH]; intros vs; cbn; [contradiction|].
  destruct vs as [|x vs]; cbn.
  - intros [H|H]; [discriminate | exact (IH [] H)].
  - intros [H|H]; [now left | right; now apply IH].
Qed.

Lemma fit_length {V} (vs : list (option V)) : fit (List.length vs) vs = vs.
Proof. induction vs as [|v vs IH]; cbn; [reflexivity | now rewrite IH]. Qed.

Section Assign.

Context {A V : Type}.
Variable set : A -> option V -> A.

Lemma assign_kept {B} (p : A -> B) (rs : list A) (vs : list (option V)) :
  (forall r v, p (set r v) = p r) -> map p (assign set rs vs) = map p rs.
Proof.
  intros H. revert vs. induction rs as [|r rs IH]; intros vs; cbn; [reflexivity|].
  destruct vs as [|v vs]; cbn; now rewrite H, IH.
Qed.

Lemma assign_stored (get : A -> option V) (rs : list A) (vs : list (option V)) :
  (forall r v, get (set r v) = v) ->
  map get (assign set rs vs) = fit (List.length rs) vs.
Proof.
  intros H. revert vs. induction rs as [|r rs IH]; intros vs; cbn; [reflexivity|].
  destruct vs as [|v vs]; cbn; now rewrite H, IH.
Qed.

Lemma assign_same (get : A -> option V) (rs : list A) :
  (forall r, set r (get r) = r) -> assign set rs (map get rs) = rs.
Proof.
  intros H. induction rs as [|r rs IH]; cbn; [reflexivity | now rewrite H, IH].
Qed.

Lemma assign_In (rs : list A) (vs : list (option V)) (r : A) :
  In r rs -> exists v, In (set r v) (assign set rs vs).
Proof.
  revert vs. induction rs as [|a rs IH]; intros vs; cbn; [contradiction|].
  intros [->|H].
  - destruct vs as [|v vs]; eexists; left; reflexivity.
  - destruct vs as [|v vs].
    + destruct (IH [] H) as [w Hw]. exists w. now right.
    + destruct (IH vs H) as [w Hw]. exists w. now right.
Qed.

Lemma assign_Forall (P : A -> Prop) (rs : list A) (vs : list (option V)) :
  Forall P rs -> (forall r v, P r -> P (set r v)) -> Forall P (assign set rs vs).
Proof.
  intros H Hset. revert vs.
  induction H as [|r rs Hr _ IH]; intros vs; cbn; [constructor|].
  destruct vs as [|v vs]; constructor; auto.
Qed.

End Assign.

Lemma insert_sorted_In {A} (key : A -> string) (a x : A) (l : list A) :
  In x (insert_sorted key a l) <-> x = a \/ In x l.
Proof.
  induction l as [|b l IH]; cbn.
  - intuition.
  - destruct (String.leb (key a) (key b)); cbn; [intuition|].
    rewrite IH. intuition.
Qed.

Lemma sorted_In {A} (key : A -> string) (x : A) (l : list A) :
  In x (sorted key l) <-> In x l.
Proof.
  unfold sorted. induction l as [|a l IH]; cbn; [tauto|].
  rewrite insert_sorted_In, IH. intuition.
Qed.

Lemma has_column_In (c : string) (cols : list string) :
  has_column c cols = true <-> In c cols.
Proof.
  unfold has_column. rewrite existsb_exists. split.
  - intros (x & Hx & E). apply String.eqb_eq in E. now subst.
  - intros H. exists c. split; [exact H | apply String.eqb_refl].
Qed.

Lemma has_column_set (c c' : string) (cols : list string) :
  has_column c cols = true -> has_column c (set_column c' cols) = true.
Proof.
  unfold set_column. destruct (has_column c' cols); [auto|].
  rewrite !has_column_In, in_app_iff. auto.
Qed.

Lemma has_column_set_same (c : string) (cols : list string) :
  has_column c (set_column c cols) = true.
Proof.
  unfold set_column. destruct (has_column c cols) eqn:E; [exact E|].
  rewrite has_column_In, in_app_iff. right. now left.
Qed.

Lemma set_column_present (c : string) (cols : list string) :
  has_column c cols = true -> set_column c cols = cols.
Proof. unfold set_column. now intros ->. Qed.

End TableFacts.

(** ** The clean step *)

Module CleanFacts.

Import Table ETL TableFacts TextFacts.

#[local] Open Scope list_scope.

Lemma option_eqb_eq (x y : option string) :
  option_eqb String.eqb x y = true <-> x = y.
Proof.
  destruct x as [a|], y as [b|]; cbn; try (split; congruence).
  rewrite String.eqb_eq. split; congruence.
Qed.

Lemma key_eqb_eq (k1 k2 : option string * option string * option string) :
  key_eqb k1 k2 = true <-> k1 = k2.
Proof.
  destruct k1 as [[a1 b1] c1], k2 as [[a2 b2] c2]. unfold key_eqb. cbn.
  rewrite !andb_true_iff, !option_eqb_eq. split.
  - intros [[-> ->] ->]. reflexivity.
  - intros [= -> -> ->]. auto.
Qed.

(** The stages of [clean_dataframe] on the rows. *)

Definition masked (min_rating : Q) (rs : list Review) : list Review :=
  filter (rating_mask min_rating)
    (map (fun r => set_rating r (to_numeric (rating r)))
       (filter text_mask
          (map (fun r => set_review_text r (Some (normalize_text (review_text r))))
             rs))).

Definition with_metrics (r : Review) : Review :=
  set_text_metrics r (option_map String.length (review_text r))
    (option_map (count_words true) (review_text r)).

Section Stages.

Variable to_datetime : list (option string) -> list (option PyDate.date).

(** The table as [drop_duplicates] receives it. *)
Definition keyed (min_rating : Q) (rs : list Review) : list Review :=
  let rows4 := masked min_rating rs in
  assign set_review_date rows4 (normalize_dates to_datetime (map review_date rows4)).

Definition clean_rows (min_rating : Q) (rs : list Review) : list Review :=
  let rows7 := map with_metrics (drop_duplicates key_eqb dedup_key (keyed min_rating rs)) in
  assign set_journey_date rows7 (normalize_dates to_datetime (map journey_date rows7)).

Definition clean_columns (cols : list string) : list string :=
  set_column "review_word_count" (set_column "review_length" cols).

Definition key_columns : list string :=
  ["review_text"; "rating"; "review_date"; "bus_id"].

Lemma require_ok (c : string) (cols : list string) :
  require c cols = Ok tt <-> has_column c cols = true.
Proof.
  unfold require. destruct (has_column c cols); split; congruence.
Qed.

Lemma require_bind {B} (c : string) (cols : list string) (k : unit -> result B) (b : B) :
  bind (require c cols) k = Ok b <-> has_column c cols = true /\ k tt = Ok b.
Proof.
  unfold require. destruct (has_column c cols); cbn; split;
    try tauto; try (intros [? ?]; congruence); congruence.
Qed.

Lemma clean_dataframe_inv (df out : Frame Review) (m : Q) :
  clean_dataframe to_datetime df m = Ok out ->
  (empty df = true /\ out = df) \/
  (empty df = false /\
   Forall (fun c => has_column c (columns df) = true) key_columns /\
   has_column "journey_date" (clean_columns (columns df)) = true /\
   out = mkFrame (clean_columns (columns df)) (clean_rows m (rows df))).
Proof.
  unfold clean_dataframe. destruct (empty df); [intros [= <-]; now left|].
  intros H. right.
  apply require_bind in H as [H1 H]. apply require_bind in H as [H2 H].
  apply require_bind in H as [H3 H]. apply require_bind in H as [H4 H].
  apply require_bind in H as [H5 H]. injection H as <-.
  split; [reflexivity|]. split; [repeat constructor; assumption|].
  split; [exact H5 | reflexivity].
Qed.

Lemma clean_dataframe_run (df : Frame Review) (m : Q) :
  empty df = false ->
  Forall (fun c => has_column c (columns df) = true) key_columns ->
  has_column "journey_date" (clean_columns (columns df)) = true ->
  clean_dataframe to_datetime df m
  = Ok (mkFrame (clean_columns (columns df)) (clean_rows m (rows df))).
Proof.
  intros He Hk Hj. unfold clean_dataframe. rewrite He.
  inversion Hk as [|? ? H1 Hk1]; subst. inversion Hk1 as [|? ? H2 Hk2]; subst.
  inversion Hk2 as [|? ? H3 Hk3]; subst. inversion Hk3 as [|? ? H4 _]; subst.
  unfold require. rewrite H1, H2, H3, H4. cbn [bind].
  fold (clean_columns (columns df)). rewrite Hj. reflexivity.
Qed.

(** *** What holds of a cleaned row *)

Definition text_clean (r : Review) : Prop :=
  exists t, review_text r = Some t /\ normalize_text (Some t) = t /\ t <> "".

Definition metrics_set (r : Review) : Prop :=
  review_length r = option_map String.length (review_text r)
  /\ review_word_count r = option_map (count_words true) (review_text r).

Lemma masked_text (m : Q) (rs : list Review) : Forall text_clean (masked m rs).
Proof.
  unfold masked. apply Forall_filter. apply Forall_forall.
  intros r Hr. apply in_map_iff in Hr as (r1 & <- & Hr1).
  apply filter_In in Hr1 as [Hr1 Hmask].
  apply in_map_iff in Hr1 as (r0 & <- & _).
  unfold text_mask in Hmask. cbn in Hmask.
  exists (normalize_text (review_text r0)). cbn. repeat split.
  - apply normalize_text_idempotent.
  - intros E. rewrite E in Hmask. discriminate.
Qed.

Lemma masked_rating (m : Q) (rs : list Review) :
  Forall (fun r => rating_mask m r = true) (masked m rs).
Proof. apply Forall_filter_mask. Qed.

Lemma masked_In (m : Q) (rs : list Review) (r : Review) :
  In r rs -> rating_mask m r = true -> normalize_text (review_text r) <> "" ->
  In (set_rating
        (set_review_text r (Some (normalize_text (review_text r))))
        (rating r))
     (masked m rs).
Proof.
  intros Hin Hm Ht. unfold masked. apply filter_In. split; [|exact Hm].
  apply in_map_iff.
  exists (set_review_text r (Some (normalize_text (review_text r)))).
  split; [reflexivity|]. apply filter_In. split.
  - apply in_map_iff. eauto.
  - unfold text_mask. cbn. apply negb_true_iff.
    destruct (String.eqb_spec (normalize_text (review_text r)) ""); congruence.
Qed.

End Stages.

Lemma assign_from {A V} (set : A -> option V -> A) (rs : list A)
  (vs : list (option V)) (x : A) :
  In x (assign set rs vs) -> exists r v, In r rs /\ x = set r v.
Proof.
  revert vs. induction rs as [|a rs IH]; intros vs; cbn; [contradiction|].
  destruct vs as [|v vs]; intros [<-|H]; eauto;
    apply IH in H as (r & w & Hr & ->); eauto.
Qed.

Lemma Forall_map_to {A B} (P : B -> Prop) (f : A -> B) (l : list A) :
  Forall (fun a => P (f a)) l <-> Forall P (map f l).
Proof. symmetry. apply Forall_map. Qed.

(** Two rows that are one review: the same key and the same cells in the
    columns the clean step does not touch. *)
Definition same_record (r x : Review) : Prop :=
  dedup_key r = dedup_key x /\ rating r = rating x
  /\ review_title r = review_title x /\ scraped_at r = scraped_at x
  /\ source_file r = source_file x.

Section Invariants.

Variable to_datetime : list (option string) -> list (option PyDate.date).

(** The dates the installed pandas can hold as a timestamp. *)
Variable representable : PyDate.date -> bool.

(** [to_datetime] yields dates it can hold, and reads a column of such
    dates written as YYYY-MM-DD back as it is. *)
Hypothesis to_datetime_range :
  forall col d, In (Some d) (to_datetime col) -> representable d = true.
Hypothesis to_datetime_iso :
  forall ds : list (option PyDate.date),
    (forall d, In (Some d) ds -> representable d = true) ->
    to_datetime (map (option_map PyDate.strftime_ymd) ds) = ds.

Definition date_ok (x : option string) : Prop :=
  exists od, x = option_map PyDate.strftime_ymd od
             /\ forall d, od = Some d -> representable d = true.

Lemma date_ok_None : date_ok None.
Proof. exists None. split; [reflexivity | discriminate]. Qed.

Lemma normalize_dates_ok (col : list (option string)) :
  Forall date_ok (normalize_dates to_datetime col).
Proof.
  unfold normalize_dates. apply Forall_map, Forall_forall.
  intros od Hod. exists od. split; [reflexivity|].
  intros d ->. eapply to_datetime_range; eassumption.
Qed.

Lemma fit_ok (n : nat) (vs : list (option string)) :
  Forall date_ok vs -> Forall date_ok (fit n vs).
Proof.
  revert vs. induction n as [|n IH]; intros vs H; cbn; [constructor|].
  destruct H as [|v vs Hv Hvs]; constructor; auto using date_ok_None.
Qed.

Lemma dates_fixed (col : list (option string)) :
  Forall date_ok col -> normalize_dates to_datetime col = col.
Proof.
  intros H.
  assert (exists ds, col = map (option_map PyDate.strftime_ymd) ds
                     /\ forall d, In (Some d) ds -> representable d = true)
    as (ds & -> & Hds).
  { induction H as [|x col (od & -> & Hod) _ (ds & -> & Hds)].
    - exists []. split; [reflexivity | contradiction].
    - exists (od :: ds). split; [reflexivity|].
      intros d [E|Hin]; [now apply Hod | now apply Hds]. }
  unfold normalize_dates. now rewrite (to_datetime_iso ds Hds).
Qed.

Definition cleaned (m : Q) (r : Review) : Prop :=
  text_clean r /\ rating_mask m r = true /\ date_ok (review_date r)
  /\ metrics_set r /\ date_ok (journey_date r).

Lemma keyed_invariant (m : Q) (rs : list Review) :
  Forall (fun r => text_clean r /\ rating_mask m r = true
                   /\ date_ok (review_date r))
         (keyed to_datetime m rs).
Proof.
  unfold keyed. cbv zeta. set (rows4 := masked m rs).
  set (vs := normalize_dates to_datetime (map review_date rows4)).
  assert (Forall (fun r => date_ok (review_date r)) (assign set_review_date rows4 vs))
    as Hd.
  { apply Forall_map_to.
    rewrite (assign_stored set_review_date review_date) by reflexivity.
    apply fit_ok, normalize_dates_ok. }
  assert (Forall (fun r => text_clean r /\ rating_mask m r = true)
                 (assign set_review_date rows4 vs)) as Ht.
  { apply assign_Forall; [|intros r v H; exact H].
    apply Forall_forall. intros r Hr. split.
    - exact (proj1 (Forall_forall _ _) (masked_text m rs) r Hr).
    - exact (proj1 (Forall_forall _ _) (masked_rating m rs) r Hr). }
  rewrite Forall_forall in *. intros r Hr.
  destruct (Ht r Hr). auto.
Qed.

Lemma clean_rows_invariant (m : Q) (rs : list Review) :
  Forall (cleaned m) (clean_rows to_datetime m rs).
Proof.
  unfold clean_rows. cbv zeta.
  set (rows6 := drop_duplicates key_eqb dedup_key (keyed to_datetime m rs)).
  set (rows7 := map with_metrics rows6).
  set (vs := normalize_dates to_datetime (map journey_date rows7)).
  assert (Forall (fun r => date_ok (journey_date r))
                 (assign set_journey_date rows7 vs)) as Hj.
  { apply Forall_map_to.
    rewrite (assign_stored set_journey_date journey_date) by reflexivity.
    apply fit_ok, normalize_dates_ok. }
  assert (Forall (fun r => text_clean r /\ rating_mask m r = true
                           /\ date_ok (review_date r) /\ metrics_set r)
                 (assign set_journey_date rows7 vs)) as Hr.
  { apply assign_Forall; [|intros r v H; exact H].
    apply Forall_map. apply Forall_forall. intros r Hr.
    pose proof (proj1 (Forall_forall _ _)
                  (drop_duplicates_Forall key_eqb dedup_key _ _
                     (keyed_invariant m rs)) r Hr) as (H1 & H2 & H3).
    split; [exact H1|]. split; [exact H2|]. split; [exact H3|].
    split; reflexivity. }
  rewrite Forall_forall in *. intros r Hin.
  destruct (Hr r Hin) as (H1 & H2 & H3 & H4). unfold cleaned.
  repeat split; try assumption; try apply H4. now apply Hj.
Qed.

Lemma clean_rows_keys (m : Q) (rs : list Review) :
  map dedup_key (clean_rows to_datetime m rs)
  = map dedup_key (drop_duplicates key_eqb dedup_key (keyed to_datetime m rs)).
Proof.
  unfold clean_rows. cbv zeta.
  rewrite (assign_kept set_journey_date dedup_key) by reflexivity.
  rewrite map_map. reflexivity.
Qed.

Lemma clean_rows_NoDup (m : Q) (rs : list Review) :
  NoDup (map dedup_key (clean_rows to_datetime m rs)).
Proof. rewrite clean_rows_keys. apply drop_duplicates_NoDup, key_eqb_eq. Qed.

Lemma set_review_text_same (r : Review) : set_review_text r (review_text r) = r.
Proof. now destruct r. Qed.

Lemma set_rating_same (r : Review) : set_rating r (rating r) = r.
Proof. now destruct r. Qed.

Lemma set_review_date_same (r : Review) : set_review_date r (review_date r) = r.
Proof. now destruct r. Qed.

Lemma set_journey_date_same (r : Review) : set_journey_date r (journey_date r) = r.
Proof. now destruct r. Qed.

Lemma with_metrics_same (r : Review) : metrics_set r -> with_metrics r = r.
Proof.
  unfold metrics_set, with_metrics. destruct r; cbn. now intros [-> ->].
Qed.

(** A cleaned table without duplicate keys is left as it is. *)
Lemma clean_rows_fixed (m : Q) (rs : list Review) :
  Forall (cleaned m) rs -> NoDup (map dedup_key rs) ->
  clean_rows to_datetime m rs = rs.
Proof.
  intros H Hnd.
  assert (masked m rs = rs) as E4.
  { unfold masked.
    rewrite (map_fixed (fun r => set_review_text r _) rs).
    2:{ eapply Forall_impl; [|exact H]. intros r ((t & Et & En & _) & _).
        cbn beta. rewrite Et, En, <- Et. apply set_review_text_same. }
    rewrite (filter_all text_mask rs).
    2:{ eapply Forall_impl; [|exact H]. intros r ((t & Et & _ & Hne) & _).
        unfold text_mask. rewrite Et. cbn. apply negb_true_iff.
        destruct (String.eqb_spec t ""); congruence. }
    rewrite (map_fixed (fun r => set_rating r _) rs).
    2:{ apply Forall_forall. intros r _. apply set_rating_same. }
    apply filter_all. eapply Forall_impl; [|exact H]. now intros r (_ & Hm & _). }
  assert (keyed to_datetime m rs = rs) as E5.
  { unfold keyed. cbv zeta. rewrite E4, dates_fixed.
    - apply assign_same, set_review_date_same.
    - apply Forall_map. eapply Forall_impl; [|exact H].
      now intros r (_ & _ & Hd & _). }
  unfold clean_rows. cbv zeta. rewrite E5.
  rewrite (drop_duplicates_fixed key_eqb dedup_key key_eqb_eq rs Hnd).
  rewrite (map_fixed with_metrics rs).
  2:{ eapply Forall_impl; [|exact H]. intros r (_ & _ & _ & Hm & _).
      now apply with_metrics_same. }
  rewrite dates_fixed.
  - apply assign_same, set_journey_date_same.
  - apply Forall_map. eapply Forall_impl; [|exact H].
    now intros r (_ & _ & _ & _ & Hj).
Qed.

Lemma clean_columns_idempotent (cols : list string) :
  clean_columns (clean_columns cols) = clean_columns cols.
Proof.
  unfold clean_columns at 1.
  rewrite (set_column_present "review_length" (clean_columns cols)).
  - apply set_column_present, has_column_set_same.
  - apply has_column_set, has_column_set_same.
Qed.

Lemma clean_columns_keeps (c : string) (cols : list string) :
  has_column c cols = true -> has_column c (clean_columns cols) = true.
Proof. intros H. now apply has_column_set, has_column_set. Qed.

End Invariants.

Section Masks.

Variable to_datetime : list (option string) -> list (option PyDate.date).

Lemma clean_rows_rating (m : Q) (rs : list Review) :
  Forall (fun r => rating_mask m r = true) (clean_rows to_datetime m rs).
Proof.
  unfold clean_rows, keyed. cbv zeta.
  apply assign_Forall; [|intros r v H; exact H].
  apply Forall_map. apply (drop_duplicates_Forall key_eqb dedup_key).
  apply assign_Forall; [|intros r v H; exact H].
  apply masked_rating.
Qed.

Lemma clean_rows_keeps (m : Q) (rs : list Review) (r : Review) :
  In r rs -> rating_mask m r = true -> normalize_text (review_text r) <> "" ->
  exists r', In r' (clean_rows to_datetime m rs)
             /\ bus_id r' = bus_id r
             /\ review_text r' = Some (normalize_text (review_text r)).
Proof.
  intros Hin Hm Ht.
  pose proof (masked_In m rs r Hin Hm Ht) as H4.
  destruct (assign_In set_review_date _
              (normalize_dates to_datetime (map review_date (masked m rs))) _ H4)
    as [v H5].
  fold (keyed to_datetime m rs) in H5.
  destruct (drop_duplicates_key key_eqb dedup_key key_eqb_eq _ _ H5)
    as (y & Hy & Ekey).
  set (rows7 := map with_metrics
                  (drop_duplicates key_eqb dedup_key (keyed to_datetime m rs))).
  assert (In (with_metrics y) rows7) as H7 by (apply in_map; exact Hy).
  destruct (assign_In set_journey_date rows7
              (normalize_dates to_datetime (map journey_date rows7)) _ H7)
    as [w H8].
  exists (set_journey_date (with_metrics y) w). split; [exact H8|].
  unfold dedup_key in Ekey. cbn in Ekey. injection Ekey as E1 E2 _.
  split; [exact E1 | exact E2].
Qed.

(** C2.  The clean step keeps a record when its rating, with a missing
    rating counted as 0, is at least the threshold, and drops it
    otherwise: a rating [q >= m] passes and [q < m] does not, a missing
    rating passes exactly when [m <= 0].  In the table [clean_dataframe]
    returns every row passes this test, and a record that passes it (and
    whose text is not blank) is in the result, as the row of its key. *)
Theorem min_rating_filter (m : Q) :
  (forall r q, rating r = Some q ->
     ((m <= q)%Q -> rating_mask m r = true) /\
     ((q < m)%Q -> rating_mask m r = false)) /\
  (forall r, rating r = None ->
     ((0 < m)%Q -> rating_mask m r = false) /\
     ((m <= 0)%Q -> rating_mask m r = true)) /\
  (forall df out,
     clean_dataframe to_datetime df m = Ok out -> columns df <> [] ->
     (forall r', In r' (rows out) -> rating_mask m r' = true) /\
     (forall r, In r (rows df) -> rating_mask m r = true ->
        normalize_text (review_text r) <> "" ->
        exists r', In r' (rows out) /\ bus_id r' = bus_id r /\
                   review_text r' = Some (normalize_text (review_text r)))).
Proof.
  assert (forall x, ((m <= x)%Q -> Qle_bool m x = true)
                    /\ ((x < m)%Q -> Qle_bool m x = false)) as Hq.
  { intros x. split.
    - apply Qle_bool_iff.
    - intros H. destruct (Qle_bool m x) eqn:E; [|reflexivity].
      apply Qle_bool_iff in E. exfalso. exact (Qlt_not_le _ _ H E). }
  split; [|split].
  - intros r q Hr. unfold rating_mask. rewrite Hr. apply Hq.
  - intros r Hr. unfold rating_mask. rewrite Hr. cbn [fillna].
    destruct (Hq 0%Q). auto.
  - intros df out H Hcols.
    apply clean_dataframe_inv in H as [[He ->]|(He & _ & _ & ->)].
    + unfold empty in He. destruct (rows df); [|destruct (columns df); [congruence|discriminate]].
      split; intros ? [].
    + cbn [rows]. split.
      * apply Forall_forall, clean_rows_rating.
      * apply clean_rows_keeps.
Qed.

End Masks.

Section Idempotence.

Variable to_datetime : list (option string) -> list (option PyDate.date).
Variable representable : PyDate.date -> bool.

Hypothesis to_datetime_range :
  forall col d, In (Some d) (to_datetime col) -> representable d = true.
Hypothesis to_datetime_iso :
  forall ds : list (option PyDate.date),
    (forall d, In (Some d) ds -> representable d = true) ->
    to_datetime (map (option_map PyDate.strftime_ymd) ds) = ds.

Lemma same_record_finished (y : Review) (w : option string) :
  same_record (set_journey_date (with_metrics y) w) y.
Proof. repeat split. Qed.

(** C3.  Cleaning a cleaned table gives the same table: for every input
    and threshold, [clean_dataframe] applied to its own result returns
    that result, columns and rows.  In the result no two rows have the
    same [(bus_id, review_text, review_date)], and the row of each key is
    the first row with that key in the table [drop_duplicates] received. *)
Theorem clean_dataframe_idempotent (df out : Frame Review) (m : Q) :
  clean_dataframe to_datetime df m = Ok out ->
  clean_dataframe to_datetime out m = Ok out /\
  (columns df <> [] ->
   NoDup (map dedup_key (rows out)) /\
   (forall l1 x l2,
      keyed to_datetime m (rows df) = l1 ++ x :: l2 ->
      ~ In (dedup_key x) (map dedup_key l1) ->
      exists r, In r (rows out) /\ same_record r x) /\
   (forall r, In r (rows out) ->
      exists l1 x l2,
        keyed to_datetime m (rows df) = l1 ++ x :: l2 /\
        ~ In (dedup_key x) (map dedup_key l1) /\ same_record r x)).
Proof.
  intros H. pose proof H as H0.
  apply clean_dataframe_inv in H as [[He ->]|(He & Hk & Hj & ->)].
  - split; [exact H0|]. intros Hcols.
    assert (rows df = []) as Hrows.
    { unfold empty in He. destruct (rows df); [reflexivity|].
      destruct (columns df); [congruence | discriminate]. }
    rewrite Hrows. cbn. split; [constructor|]. split.
    + intros l1 x l2 E. now destruct l1.
    + intros r [].
  - set (cols := clean_columns (columns df)).
    set (R := clean_rows to_datetime m (rows df)). split.
    + destruct (empty (mkFrame cols R)) eqn:E.
      * unfold clean_dataframe. now rewrite E.
      * rewrite (clean_dataframe_run to_datetime (mkFrame cols R) m E).
        -- cbn [columns rows]. unfold cols. rewrite clean_columns_idempotent.
           unfold R at 1.
           rewrite (clean_rows_fixed to_datetime representable to_datetime_iso m
                      (clean_rows to_datetime m (rows df))).
           ++ reflexivity.
           ++ apply (clean_rows_invariant to_datetime representable to_datetime_range).
           ++ apply clean_rows_NoDup.
        -- cbn [columns]. eapply Forall_impl; [|exact Hk].
           intros c Hc. now apply clean_columns_keeps.
        -- cbn [columns]. now apply clean_columns_keeps.
    + intros _. cbn [rows]. split; [apply clean_rows_NoDup|]. split.
      * intros l1 x l2 E Hnin.
        pose proof (drop_duplicates_first key_eqb dedup_key key_eqb_eq l1 l2 x Hnin)
          as Hx.
        rewrite <- E in Hx.
        set (rows7 := map with_metrics
                        (drop_duplicates key_eqb dedup_key
                           (keyed to_datetime m (rows df)))).
        assert (In (with_metrics x) rows7) as H7 by (apply in_map; exact Hx).
        destruct (assign_In set_journey_date rows7
                    (normalize_dates to_datetime (map journey_date rows7)) _ H7)
          as [w H8].
        exists (set_journey_date (with_metrics x) w).
        split; [exact H8 | apply same_record_finished].
      * intros r Hr. unfold R, clean_rows in Hr. cbv zeta in Hr.
        apply assign_from in Hr as (r7 & w & H7 & ->).
        apply in_map_iff in H7 as (y & <- & Hy).
        destruct (drop_duplicates_only_first key_eqb dedup_key key_eqb_eq _ _ Hy)
          as (l1 & l2 & E & Hnin).
        exists l1, y, l2. split; [exact E|]. split; [exact Hnin|].
        apply same_record_finished.
Qed.

End Idempotence.

(** *** A run of the clean step

    A [to_datetime] that reads the ISO format cell by cell and keeps the
    dates a timestamp of nanosecond resolution can hold, and a table with
    a blank text, a low rating and a repeated key. *)

(** Timestamps range from 1677-09-21 to 2262-04-11; the whole years in
    between. *)
Definition in_bounds (d : PyDate.date) : bool :=
  PyDate.valid d && (1678 <=? PyDate.year d) && (PyDate.year d <=? 2261).

Definition iso_to_datetime (col : list (option string)) : list (option PyDate.date) :=
  map (fun x =>
         match x with
         | Some s =>
             match PyDate.strptime s PyDate.fmt_ymd with
             | Ok d => if in_bounds d then Some d else None
             | Raise _ => None
             end
         | None => None
         end) col.

Lemma strptime_valid (s : string) (fmt : list PyDate.directive) (d : PyDate.date) :
  PyDate.strptime s fmt = Ok d -> PyDate.valid d = true.
Proof.
  unfold PyDate.strptime, PyDate.make_date.
  destruct (PyDate.regex_paths fmt _ s) as [|[f r] l]; [discriminate|].
  destruct (PyStr.is_empty r); [|discriminate].
  destruct (PyDate.valid_ymd _ _ _) eqn:E; [|discriminate].
  intros [= <-]. exact E.
Qed.

Lemma in_bounds_four (d : PyDate.date) :
  in_bounds d = true -> PyDate.valid d = true /\ 1000 <= PyDate.year d.
Proof.
  unfold in_bounds. intros H.
  apply andb_prop in H as [H H2]. apply andb_prop in H as [Hv H1].
  apply Nat.leb_le in H1. split; [exact Hv | lia].
Qed.

Lemma iso_to_datetime_range (col : list (option string)) (d : PyDate.date) :
  In (Some d) (iso_to_datetime col) -> in_bounds d = true.
Proof.
  unfold iso_to_datetime. intros H. apply in_map_iff in H as ([s|] & E & _);
    [|discriminate].
  destruct (PyDate.strptime s PyDate.fmt_ymd) as [d'|e]; [|discriminate].
  destruct (in_bounds d') eqn:Eb; [|discriminate].
  now injection E as <-.
Qed.

Lemma iso_to_datetime_iso (ds : list (option PyDate.date)) :
  (forall d, In (Some d) ds -> in_bounds d = true) ->
  iso_to_datetime (map (option_map PyDate.strftime_ymd) ds) = ds.
Proof.
  unfold iso_to_datetime. rewrite map_map.
  induction ds as [|[d|] ds IH]; intros H; cbn [map option_map].
  - reflexivity.
  - assert (in_bounds d = true) as Hb by (apply H; now left).
    destruct (in_bounds_four d Hb) as [Hv Hy].
    rewrite (DateFacts.strftime_ymd_iso d Hv Hy), (DateFacts.strptime_iso_text d Hv), Hb.
    f_equal. apply IH. intros; apply H; now right.
  - f_equal. apply IH. intros; apply H; now right.
Qed.

Definition rated (bus text : string) (rating : option Q) (date : option string)
  : Review :=
  mkReview (Some bus) (Some "Acme Travels") None None None rating None None
    (Some text) date (Some "2024-01-20") None (Some "redbus_a.json")
    None None None None.

Definition raw_table : Frame Review :=
  mkFrame
    ["bus_id"; "operator_name"; "rating"; "review_text"; "review_date";
     "journey_date"; "source_file"]
    [rated "B1" "  Good   bus " (Some 3%Q) (Some "2024-01-12");
     rated "B1" "Good bus" (Some 5%Q) (Some "2024-01-12");
     rated "B1" "   " (Some 5%Q) (Some "2024-01-13");
     rated "B2" "Late" (Some (29 # 10)%Q) (Some "2024-01-14");
     rated "B2" "Dirty seats" None None].

Definition cleaned_table : Frame Review :=
  Eval vm_compute in
    match clean_dataframe iso_to_datetime raw_table 3 with
    | Ok out => out
    | Raise _ => DataFrame
    end.

Lemma clean_dataframe_idempotent_witness :
  clean_dataframe iso_to_datetime raw_table 3 = Ok cleaned_table
  /\ clean_dataframe iso_to_datetime cleaned_table 3 = Ok cleaned_table
  /\ NoDup (map dedup_key (rows cleaned_table))
  /\ map rating (rows cleaned_table) = [Some 3%Q].
Proof.
  assert (clean_dataframe iso_to_datetime raw_table 3 = Ok cleaned_table) as E
    by (vm_compute; reflexivity).
  destruct (clean_dataframe_idempotent iso_to_datetime in_bounds
              iso_to_datetime_range iso_to_datetime_iso raw_table cleaned_table 3 E)
    as [H1 H2].
  split; [exact E|]. split; [exact H1|]. split; [|reflexivity].
  apply H2. discriminate.
Defined.

Lemma min_rating_filter_witness :
  (rating_mask 3 (rated "B1" "Good" (Some 3%Q) None) = true
   /\ rating_mask 3 (rated "B1" "Good" (Some (29 # 10)%Q) None) = false
   /\ rating_mask (1 # 10) (rated "B1" "Good" None None) = false
   /\ rating_mask 0 (rated "B1" "Good" None None) = true)
  /\ (forall r', In r' (rows cleaned_table) -> rating_mask 3 r' = true)
  /\ exists r', In r' (rows cleaned_table) /\ bus_id r' = Some "B1"
                /\ review_text r' = Some "Good bus".
Proof.
  pose proof (min_rating_filter iso_to_datetime) as T.
  assert (clean_dataframe iso_to_datetime raw_table 3 = Ok cleaned_table) as E
    by (vm_compute; reflexivity).
  split; [split; [|split; [|split]]|].
  - apply (proj1 (proj1 (T 3%Q) (rated "B1" "Good" (Some 3%Q) None) 3%Q eq_refl)).
    discriminate.
  - apply (proj2 (proj1 (T 3%Q) (rated "B1" "Good" (Some (29 # 10)%Q) None)
                    (29 # 10)%Q eq_refl)).
    reflexivity.
  - apply (proj1 (proj1 (proj2 (T (1 # 10)%Q)) (rated "B1" "Good" None None) eq_refl)).
    reflexivity.
  - apply (proj2 (proj1 (proj2 (T 0%Q)) (rated "B1" "Good" None None) eq_refl)).
    discriminate.
  - destruct (proj2 (proj2 (T 3%Q)) raw_table cleaned_table E) as [Hall Hkeep];
      [discriminate|].
    split; [exact Hall|].
    apply (Hkeep (rated "B1" "Good bus" (Some 5%Q) (Some "2024-01-12"))).
    + cbn. auto.
    + reflexivity.
    + vm_compute. discriminate.
Defined.

End CleanFacts.

(** ** The per-bus aggregates *)

Module AggregateFacts.

Import Table ETL TableFacts.

#[local] Open Scope list_scope.

Lemma present_In {A} (col : list (option A)) (a : A) :
  In a (present col) <-> In (Some a) col.
Proof.
  induction col as [|[x|] col IH]; cbn; [tauto| |].
  - rewrite IH. split; intros [H|H]; auto; left; congruence.
  - rewrite IH. split; [auto|]. intros [H|H]; [discriminate | exact H].
Qed.

Lemma group_keys_In (rs : list Review) (k : string) :
  In k (group_keys rs) <-> In (Some k) (map bus_id rs).
Proof.
  unfold group_keys. now rewrite sorted_In, nodup_In, present_In.
Qed.

Lemma require_all_bind {B} (cs cols : list string) (k : unit -> result B) (b : B) :
  bind (require_all cs cols) k = Ok b -> k tt = Ok b.
Proof.
  destruct (require_all cs cols) as [[]|e]; cbn; [auto | discriminate].
Qed.

Lemma aggregate_rows (float_mean : list Q -> Q) (df : Frame Review)
  (out : Frame BusMetrics) :
  aggregate_bus_metrics float_mean df = Ok (inr out) ->
  out = mkFrame bus_columns
          (map (agg_group float_mean (rows df)) (group_keys (rows df))).
Proof.
  unfold aggregate_bus_metrics. destruct (empty df); [discriminate|].
  intros H. apply require_all_bind in H. now injection H as <-.
Qed.

(** A whole multiple of 2^-k that fits in 53 bits: such a number is a
    double, and a sum or quotient that stays among these numbers needs no
    rounding. *)
Definition dyadic (k : nat) (q : Q) : Prop :=
  exists m : Z,
    (Z.abs m < 2 ^ 53)%Z /\ (q == inject_Z m / inject_Z (2 ^ Z.of_nat k))%Q.

(** The exact mean. *)
Definition exact_mean (ps : list Q) : Q :=
  (Qsum ps / inject_Z (Z.of_nat (List.length ps)))%Q.

Lemma exact_mean_sum (ps : list Q) :
  ps <> [] ->
  (exact_mean ps * inject_Z (Z.of_nat (List.length ps)) == Qsum ps)%Q.
Proof.
  intros Hne. unfold exact_mean. rewrite Qmult_comm. apply Qmult_div_r.
  intros H. unfold Qeq in H. cbn in H. destruct ps; [congruence | cbn in H; lia].
Qed.

Section Mean.

Variable float_mean : list Q -> Q.

(** Double arithmetic is exact where nothing has to be rounded: when the
    values are multiples of one 2^-k, the sum of their sizes still fits
    in 53 bits, so that every partial sum is a double, and their mean is
    such a multiple as well, the computed mean is the mean. *)
Hypothesis float_mean_exact :
  forall (k : nat) (ps : list Q),
    k <= 1000 -> ps <> [] ->
    Forall (dyadic k) ps -> dyadic k (Qsum (map Qabs ps)) ->
    dyadic k (exact_mean ps) ->
    (float_mean ps == exact_mean ps)%Q.

Lemma mean_spec (col : list (option Q)) :
  (present col = [] -> mean float_mean col = None) /\
  (present col <> [] -> mean float_mean col = Some (float_mean (present col))).
Proof.
  unfold mean. destruct (present col) as [|q l]; split; congruence.
Qed.

(** C4.  The aggregate step has one row for each bus id that occurs.  In
    that row [avg_rating] is the mean of the ratings of the bus that are
    present, as pandas computes it in double arithmetic (missing when
    there is none), and [rating_count] is the number of those same
    ratings, so both leave the missing ones out.  The computed mean is
    the arithmetic mean whenever the sum and the quotient need no
    rounding, as for ratings in whole and half stars.  A bus whose
    ratings are 4, 5 and missing gets the average 4.5 and the count 2. *)
Theorem aggregate_rating_metrics (df : Frame Review) (out : Frame BusMetrics) :
  aggregate_bus_metrics float_mean df = Ok (inr out) ->
  (forall k, In (Some k) (map bus_id (rows df))
             <-> exists b, In b (rows out) /\ bm_bus_id b = k) /\
  (forall b, In b (rows out) ->
     let group := filter (in_group (bm_bus_id b)) (rows df) in
     let ratings := present (map rating group) in
     bm_rating_count b = List.length ratings /\
     (ratings = [] -> avg_rating b = None) /\
     (ratings <> [] -> avg_rating b = Some (float_mean ratings)) /\
     (forall k, k <= 1000 -> ratings <> [] ->
        Forall (dyadic k) ratings -> dyadic k (Qsum (map Qabs ratings)) ->
        dyadic k (exact_mean ratings) ->
        exists a,
          avg_rating b = Some a
          /\ (a * inject_Z (Z.of_nat (List.length ratings)) == Qsum ratings)%Q) /\
     (map rating group = [Some 4%Q; Some 5%Q; None] ->
      bm_rating_count b = 2
      /\ exists a, avg_rating b = Some a /\ (a == 45 # 10)%Q)).
Proof.
  intros H. apply aggregate_rows in H. subst out. cbn [rows]. split.
  - intros k. rewrite <- group_keys_In. split.
    + intros Hk. exists (agg_group float_mean (rows df) k). split; [|reflexivity].
      now apply in_map.
    + intros (b & Hb & <-). apply in_map_iff in Hb as (k & <- & Hk). exact Hk.
  - intros b Hb. apply in_map_iff in Hb as (k & <- & _). cbv zeta.
    cbn [bm_bus_id bm_rating_count avg_rating agg_group].
    set (col := map rating (filter (in_group k) (rows df))).
    destruct (mean_spec col) as [Hnone Hsome].
    split; [reflexivity|]. split; [exact Hnone|]. split; [exact Hsome|]. split.
    + intros j Hj Hne Hall Hsum Hmean.
      exists (float_mean (present col)). split; [now apply Hsome|].
      rewrite (float_mean_exact j (present col) Hj Hne Hall Hsum Hmean).
      now apply exact_mean_sum.
    + intros E. rewrite E. cbn [present List.length]. split; [reflexivity|].
      eexists. split; [reflexivity|].
      rewrite (float_mean_exact 1 [4%Q; 5%Q]); [reflexivity|lia|discriminate| | |].
      * repeat constructor; [exists 8%Z | exists 10%Z]; split; reflexivity.
      * exists 18%Z. split; reflexivity.
      * exists 9%Z. split; reflexivity.
Qed.

End Mean.

Definition scored (bus : string) (rating : option Q) (label : string) : Review :=
  mkReview (Some bus) (Some "Acme Travels") (Some "Night Rider") None None
    rating None None (Some "Good bus") (Some "2024-01-12") (Some "2024-01-20")
    None (Some "redbus_a.json") (Some 8) (Some 2) (Some label) (Some (4 # 10)%Q).

Definition scored_table : Frame Review :=
  mkFrame
    ["bus_id"; "operator_name"; "bus_name"; "bus_type"; "route"; "rating";
     "review_text"; "sentiment"; "sentiment_score"]
    [scored "B1" (Some 4%Q) "positive"; scored "B2" (Some 2%Q) "negative";
     scored "B1" (Some 5%Q) "positive"; scored "B1" None "neutral"].

Definition bus_table : Frame BusMetrics :=
  Eval vm_compute in
    match aggregate_bus_metrics exact_mean scored_table with
    | Ok (inr out) => out
    | _ => DataFrame
    end.

Lemma aggregate_rating_metrics_witness :
  exists b, In b (rows bus_table) /\ bm_bus_id b = "B1"
            /\ bm_rating_count b = 2
            /\ exists a, avg_rating b = Some a /\ (a == 45 # 10)%Q.
Proof.
  destruct (aggregate_rating_metrics exact_mean
              (fun k ps _ _ _ _ _ => Qeq_refl (exact_mean ps))
              scored_table bus_table eq_refl) as [Hk Hb].
  destruct (proj1 (Hk "B1")) as (b & Hin & E); [cbn; auto|].
  exists b. split; [exact Hin|]. split; [exact E|].
  apply (Hb b Hin). rewrite E. reflexivity.
Defined.

End AggregateFacts.

(** ** The pipeline on an input without records *)

Module PipelineFacts.

Import Table ETL TableFacts.

#[local] Open Scope list_scope.

Definition newline : string := String "010"%char "".

Definition loading (f : string * string) : log_record :=
  mkLog "INFO" "Loading %s" [ArgStr (fst f)].

Section EmptyInput.

Variable read_json : string -> result (Frame Review).
Variable to_datetime : list (option string) -> list (option PyDate.date).
Variable polarity_compound : string -> Q.
Variable float_mean : list Q -> Q.
Variable review_cell : Review -> string -> string.
Variable bus_cell : BusMetrics -> string -> string.
Variable review_parquet : Frame Review -> string.
Variable bus_parquet : Frame BusMetrics -> string.

#[local] Abbreviation run_main :=
  (main read_json to_datetime polarity_compound float_mean review_cell bus_cell
     review_parquet bus_parquet).

(** Every file reads as a table without records. *)
Definition all_empty (files : list (string * string)) : Prop :=
  forall name text, In (name, text) files ->
    exists df, read_json text = Ok df /\ empty df = true.

Lemma load_each_all_empty (files : list (string * string))
  (records : list (Frame Review)) (w : World) :
  all_empty files ->
  load_each read_json files records w
  = (Ok records, mkWorld (logs w ++ map loading files) (written w)).
Proof.
  revert w. induction files as [|[name text] files IH]; intros w H.
  - cbn. rewrite app_nil_r. now destruct w.
  - destruct (H name text) as (df & Hdf & He); [now left|].
    cbn [load_each]. unfold mbind, log, lift. cbn. rewrite Hdf, He.
    rewrite IH by (intros n t Hin; apply (H n t); now right).
    cbn. now rewrite <- app_assoc.
Qed.

Definition json_files (dir : list (string * string)) : list (string * string) :=
  sorted fst (filter (fun f => is_json (fst f)) dir).

Lemma json_files_all_empty (dir : list (string * string)) :
  (forall name text, In (name, text) dir -> is_json name = true ->
     exists df, read_json text = Ok df /\ empty df = true) ->
  all_empty (json_files dir).
Proof.
  intros H name text Hin. unfold json_files in Hin.
  apply sorted_In, filter_In in Hin as [Hin Hj]. exact (H name text Hin Hj).
Qed.

Definition no_files_warning (input_path : string) : log_record :=
  mkLog "WARNING" "No raw JSON files found in %s" [ArgStr input_path].

Definition empty_outputs (args : Args) : list (string * string) :=
  [(path_join (output args) "reviews.csv", newline);
   (path_join (output args) "buses.csv", newline)]
  ++ (if parquet args
      then [(path_join (output args) "reviews.parquet", review_parquet DataFrame);
            (path_join (output args) "buses.parquet", review_parquet DataFrame)]
      else []).

(** C8, as the code has it.  When the input directory has no raw JSON
    file, or only files that read as tables without records, the pipeline
    does not raise: it logs the warning, its working table is the empty
    [DataFrame()], and it writes reviews.csv and buses.csv, each of them
    a single empty line: no data row, and no column label either, since
    the empty table has no columns. *)
Theorem empty_input_run (args : Args) (dir : list (string * string)) (w : World) :
  (forall name text, In (name, text) dir -> is_json name = true ->
     exists df, read_json text = Ok df /\ empty df = true) ->
  let loaded := load_raw_files read_json (input args) dir w in
  let out := run_main args dir w in
  fst loaded = Ok DataFrame /\
  fst out = Ok tt /\
  In (no_files_warning (input args)) (logs (snd out)) /\
  written (snd out) = written w ++ empty_outputs args /\
  csv_header newline = [] /\
  to_csv review_cell DataFrame = newline.
Proof.
  intros H. cbv zeta.
  pose proof (load_each_all_empty (json_files dir) [] w (json_files_all_empty dir H))
    as Hload.
  assert (load_raw_files read_json (input args) dir w
          = (Ok DataFrame,
             mkWorld ((logs w ++ map loading (json_files dir))
                      ++ [no_files_warning (input args)]) (written w))) as Hraw.
  { unfold load_raw_files, mbind. fold (json_files dir). rewrite Hload.
    reflexivity. }
  split; [now rewrite Hraw|].
  unfold main, mbind. rewrite Hraw. unfold empty_outputs.
  destruct (parquet args) eqn:Ep; cbn;
    (split; [reflexivity|]; split;
     [rewrite !in_app_iff; cbn; auto 10 |];
     split; [now rewrite <- !app_assoc | split; reflexivity]).
Qed.

End EmptyInput.

Definition blank_cell {A} (r : A) (column : string) : string := "".

Definition no_bytes {A} (df : A) : string := "".

Definition default_args : ETL.Args := mkArgs "data/raw" "data/curated" 0 false.

Lemma empty_input_run_witness :
  let out :=
    main (fun _ => Ok DataFrame) CleanFacts.iso_to_datetime (fun _ => 0%Q)
      AggregateFacts.exact_mean blank_cell blank_cell no_bytes no_bytes default_args
      [("redbus_Chennai_Bangalore_2024-01-12T08-00-00Z.json", "[]");
       ("notes.txt", "scratch")]
      (mkWorld [] []) in
  fst out = Ok tt
  /\ written (snd out)
     = [("data/curated/reviews.csv", newline); ("data/curated/buses.csv", newline)].
Proof.
  cbv zeta.
  pose proof (empty_input_run (fun _ => Ok DataFrame) CleanFacts.iso_to_datetime
                (fun _ => 0%Q) AggregateFacts.exact_mean blank_cell blank_cell
                no_bytes no_bytes default_args
                [("redbus_Chennai_Bangalore_2024-01-12T08-00-00Z.json", "[]");
                 ("notes.txt", "scratch")]
                (mkWorld [] [])) as T.
  destruct T as (_ & Hok & _ & Hw & _).
  - intros name text _ _. exists DataFrame. split; reflexivity.
  - split; [exact Hok | exact Hw].
Defined.

(** C8 as the specification words it fails on the code: the files written
    for an empty raw directory carry no column label. *)
Lemma empty_run_writes_no_header :
  let out :=
    main (fun _ => Ok DataFrame) CleanFacts.iso_to_datetime (fun _ => 0%Q)
      AggregateFacts.exact_mean blank_cell blank_cell no_bytes no_bytes default_args
      [] (mkWorld [] []) in
  fst out = Ok tt
  /\ written (snd out)
     = [("data/curated/reviews.csv", newline); ("data/curated/buses.csv", newline)]
  /\ (forall path content, In (path, content) (written (snd out)) ->
        csv_header content = [] /\ ~ In "bus_id" (csv_header content)).
Proof.
  cbv zeta. split; [reflexivity|]. split; [reflexivity|].
  intros path content [[= _ <-]|[[= _ <-]|[]]]; split; try reflexivity; intros [].
Qed.

End PipelineFacts.

(** ** Chunks *)

Module UtilsFacts.

Import Utils.

#[local] Open Scope list_scope.

Lemma range_from_done (fuel idx stop step : nat) :
  stop <= idx -> range_from fuel idx stop step = [].
Proof.
  intros H. destruct fuel; [reflexivity|]. cbn [range_from].
  destruct (Nat.ltb_spec idx stop); [lia | reflexivity].
Qed.

Lemma chunks_concat {A} (seq : list A) (step : nat) :
  0 < step ->
  forall fuel idx, List.length seq - idx <= fuel ->
    List.concat (map (fun i => slice seq i step)
                   (range_from fuel idx (List.length seq) step))
    = skipn idx seq.
Proof.
  intros Hstep fuel. induction fuel as [|fuel IH]; intros idx Hfuel.
  - cbn. symmetry. apply skipn_all2. lia.
  - cbn [range_from]. destruct (Nat.ltb_spec idx (List.length seq)) as [Hlt|Hge].
    + cbn [map List.concat]. rewrite IH by lia. unfold slice.
      rewrite Nat.add_comm, <- skipn_skipn. apply firstn_skipn.
    + cbn. symmetry. apply skipn_all2. lia.
Qed.

Lemma chunks_shape {A} (seq : list A) (step : nat) :
  0 < step ->
  forall fuel idx, List.length seq - idx <= fuel ->
    exists full last,
      map (fun i => slice seq i step) (range_from fuel idx (List.length seq) step)
      = full ++ last
      /\ Forall (fun c => List.length c = step) full
      /\ (last = []
          \/ exists c, last = [c] /\ 0 < List.length c <= step).
Proof.
  intros Hstep fuel. induction fuel as [|fuel IH]; intros idx Hfuel.
  - exists [], []. cbn. auto.
  - cbn [range_from]. destruct (Nat.ltb_spec idx (List.length seq)) as [Hlt|Hge].
    2:{ exists [], []. cbn. auto. }
    cbn [map].
    assert (List.length (slice seq idx step)
            = Nat.min step (List.length seq - idx)) as Hlen.
    { unfold slice. now rewrite length_firstn, length_skipn. }
    destruct (Nat.le_gt_cases (idx + step) (List.length seq)) as [Hfull|Hlast].
    + destruct (IH (idx + step)) as (full & last & E & Hf & Hl); [lia|].
      exists (slice seq idx step :: full), last. rewrite E. split; [reflexivity|].
      split; [|exact Hl]. constructor; [lia | exact Hf].
    + rewrite range_from_done by lia.
      exists [], [slice seq idx step]. split; [reflexivity|].
      split; [constructor|]. right. eexists. split; [reflexivity|]. lia.
Qed.

(** X1.  For a positive size the chunks, put end to end, are the sequence:
    nothing is lost, repeated or reordered. *)
Theorem chunked_concat {A} (seq : list A) (size : Z) :
  (0 < size)%Z ->
  exists chunks, chunked seq size = Ok chunks /\ List.concat chunks = seq.
Proof.
  intros H. unfold chunked, range.
  destruct (Z.eqb_spec size 0); [lia|]. destruct (Z.ltb_spec size 0); [lia|].
  cbn [bind]. eexists. split; [reflexivity|].
  rewrite (chunks_concat seq (Z.to_nat size)) by lia. reflexivity.
Qed.

Lemma chunked_concat_witness :
  exists chunks, chunked [1; 2; 3; 4; 5] 2 = Ok chunks
                 /\ List.concat chunks = [1; 2; 3; 4; 5].
Proof. apply (chunked_concat [1; 2; 3; 4; 5] 2). reflexivity. Defined.

(** X2.  For a positive size no chunk is empty or longer than the size,
    and every chunk but the last has exactly that many elements. *)
Theorem chunked_sizes {A} (seq : list A) (size : Z) (chunks : list (list A)) :
  (0 < size)%Z -> chunked seq size = Ok chunks ->
  exists full last,
    chunks = full ++ last
    /\ Forall (fun c => Z.of_nat (List.length c) = size) full
    /\ (last = []
        \/ exists c, last = [c]
                     /\ (0 < Z.of_nat (List.length c) <= size)%Z).
Proof.
  intros H. unfold chunked, range.
  destruct (Z.eqb_spec size 0); [lia|]. destruct (Z.ltb_spec size 0); [lia|].
  cbn [bind]. intros [= <-].
  destruct (chunks_shape seq (Z.to_nat size)) with (fuel := List.length seq) (idx := 0)
    as (full & last & E & Hf & Hl); [lia | lia |].
  exists full, last. split; [exact E|]. split.
  - eapply Forall_impl; [|exact Hf]. cbn beta. intros c Hc. lia.
  - destruct Hl as [->|(c & -> & Hc)]; [now left|].
    right. exists c. split; [reflexivity | lia].
Qed.

Lemma chunked_sizes_witness :
  exists full last,
    [[1; 2]; [3; 4]; [5]] = full ++ last
    /\ Forall (fun c => Z.of_nat (List.length c) = 2%Z) full
    /\ (last = []
        \/ exists c, last = [c] /\ (0 < Z.of_nat (List.length c) <= 2)%Z).
Proof.
  apply (chunked_sizes [1; 2; 3; 4; 5] 2 [[1; 2]; [3; 4]; [5]]); reflexivity.
Defined.

(** X3.  The sizes that are not positive: size 0 raises a [ValueError]
    whatever the sequence is, and a negative size raises nothing and
    yields no chunk at all, so the elements of the sequence are dropped
    silently.  An empty sequence yields no chunk for every non-zero
    size. *)
Theorem chunked_degenerate {A} (seq : list A) (size : Z) :
  (size = 0%Z -> exists msg, chunked seq size = Raise (ValueError msg)) /\
  ((size < 0)%Z -> chunked seq size = Ok []) /\
  (size <> 0%Z -> chunked (@nil A) size = Ok []).
Proof.
  unfold chunked, range. repeat split.
  - intros ->. cbn. eauto.
  - intros H. destruct (Z.eqb_spec size 0); [lia|].
    destruct (Z.ltb_spec size 0); [reflexivity | lia].
  - intros H. destruct (Z.eqb_spec size 0); [contradiction|].
    destruct (size <? 0)%Z; reflexivity.
Qed.

Lemma chunked_degenerate_witness :
  (exists msg, chunked [1; 2; 3] 0 = Raise (ValueError msg))
  /\ chunked [1; 2; 3] (-2) = Ok []
  /\ chunked (@nil nat) 4 = Ok [].
Proof.
  split; [|split].
  - exact (proj1 (chunked_degenerate [1; 2; 3] 0) eq_refl).
  - exact (proj1 (proj2 (chunked_degenerate [1; 2; 3] (-2))) eq_refl).
  - apply (proj2 (proj2 (chunked_degenerate (@nil nat) 4))). discriminate.
Defined.

End UtilsFacts.

(** ** Numbers in card texts *)

Module ParsersTextFacts.

Import PyStr ParsersText.

Fixpoint all_chars (p : ascii -> bool) (s : string) : bool :=
  match s with
  | EmptyString => true
  | String c r => p c && all_chars p r
  end.

(** The number a text of digits denotes in base ten. *)
Fixpoint decimal (acc : Z) (s : string) : Z :=
  match s with
  | EmptyString => acc
  | String c r => decimal (10 * acc + Z.of_nat (nat_of_ascii c - 48)) r
  end.

Lemma keep_digits_all (v : string) : all_chars isdigit (keep_digits v) = true.
Proof.
  induction v as [|c r IH]; cbn; [reflexivity|].
  destruct (isdigit c) eqn:E; cbn; [now rewrite E | exact IH].
Qed.

Lemma keep_digits_fixed (d : string) :
  all_chars isdigit d = true -> keep_digits d = d.
Proof.
  induction d as [|c r IH]; cbn; [reflexivity|].
  intros H. apply andb_true_iff in H as [Hc Hr]. now rewrite Hc, (IH Hr).
Qed.

Lemma keep_digits_none (v : string) :
  keep_digits v = "" <-> all_chars (fun c => negb (isdigit c)) v = true.
Proof.
  induction v as [|c r IH]; cbn; [tauto|].
  destruct (isdigit c); cbn; [split; discriminate | exact IH].
Qed.

(** X4.  [_safe_digits] keeps the digits of a text in their order and
    nothing else: a result is never empty and holds digits only, it is
    absent exactly when the text is absent or has no digit, and applying
    the function to its own result changes nothing. *)
Theorem safe_digits_spec (value : option string) :
  match _safe_digits value with
  | Some d =>
      d <> "" /\ all_chars isdigit d = true
      /\ exists v, value = Some v /\ d = keep_digits v
  | None =>
      value = None
      \/ exists v, value = Some v
                   /\ all_chars (fun c => negb (isdigit c)) v = true
  end
  /\ _safe_digits (_safe_digits value) = _safe_digits value.
Proof.
  destruct value as [v|]; [|cbn; auto].
  unfold _safe_digits. cbv zeta.
  destruct (keep_digits v) as [|c r] eqn:E; cbn [is_empty].
  - split; [|reflexivity]. right. exists v. split; [reflexivity|].
    now apply keep_digits_none.
  - split.
    + split; [discriminate|]. split; [|eauto].
      rewrite <- E. apply keep_digits_all.
    + rewrite <- E, (keep_digits_fixed (keep_digits v) (keep_digits_all v)), E.
      reflexivity.
Qed.

Lemma isdigit_not_space (c : ascii) : isdigit c = true -> int_space c = false.
Proof.
  unfold isdigit, int_space. intros H. apply andb_true_iff in H as [H1 H2].
  apply Nat.leb_le in H1, H2.
  destruct (Nat.leb_spec 9 (nat_of_ascii c)), (Nat.leb_spec (nat_of_ascii c) 13),
    (Nat.eqb_spec (nat_of_ascii c) 32);
    cbn; try reflexivity; lia.
Qed.

Lemma digits_rstrip (d : string) : all_chars isdigit d = true -> int_rstrip d = d.
Proof.
  induction d as [|c r IH]; cbn; [reflexivity|].
  intros H. apply andb_true_iff in H as [Hc Hr].
  now rewrite (IH Hr), (isdigit_not_space c Hc).
Qed.

Lemma digits_strip (d : string) :
  all_chars isdigit d = true -> int_rstrip (int_lstrip d) = d.
Proof.
  intros H.
  assert (int_lstrip d = d) as ->.
  { destruct d as [|c r]; [reflexivity|]. cbn in H |- *.
    apply andb_true_iff in H as [Hc _]. now rewrite (isdigit_not_space c Hc). }
  now apply digits_rstrip.
Qed.

Lemma digit_val_isdigit (c : ascii) :
  isdigit c = true -> PyDate.digit_val c = Some (nat_of_ascii c - 48).
Proof. unfold isdigit, PyDate.digit_val. now intros ->. Qed.

Lemma literal_value_digits (d : string) (acc : Z) (after_digit : bool) :
  all_chars isdigit d = true -> (d <> "" \/ after_digit = true) ->
  literal_value acc after_digit d = Some (decimal acc d).
Proof.
  revert acc after_digit. induction d as [|c r IH]; intros acc b H Hne.
  - destruct Hne as [Hne| ->]; [congruence | reflexivity].
  - cbn in H. apply andb_true_iff in H as [Hc Hr]. cbn [literal_value decimal].
    rewrite (digit_val_isdigit c Hc). apply IH; auto.
Qed.

Lemma decimal_nonneg (d : string) (acc : Z) : (0 <= acc)%Z -> (0 <= decimal acc d)%Z.
Proof.
  revert acc. induction d as [|c r IH]; intros acc H; cbn [decimal]; [exact H|].
  apply IH. lia.
Qed.

Lemma parsed_digits (c : ascii) (r : string) :
  isdigit c = true ->
  match String c r with
  | String "+" r' => literal_value 0 false r'
  | String "-" r' => option_map Z.opp (literal_value 0 false r')
  | _ => literal_value 0 false (String c r)
  end = literal_value 0 false (String c r).
Proof.
  intros H.
  destruct c as [[] [] [] [] [] [] [] []]; try reflexivity;
    vm_compute in H; discriminate H.
Qed.

Section Count.

Variable within_digit_limit : string -> bool.

(** X5.  The rating count read off a votes text never raises and is never
    negative.  It is absent when there is no votes element or the text
    has no digit; otherwise, for digits the interpreter accepts, it is
    the number those digits spell, everything else in the text (commas,
    words, signs) being ignored. *)
Theorem rating_count_of_spec (votes : option string) :
  (votes = None -> rating_count_of within_digit_limit votes = None) /\
  (forall text, votes = Some text -> keep_digits text = "" ->
     rating_count_of within_digit_limit votes = None) /\
  (forall text, votes = Some text -> keep_digits text <> "" ->
     within_digit_limit (keep_digits text) = true ->
     rating_count_of within_digit_limit votes = Some (decimal 0 (keep_digits text))
     /\ (0 <= decimal 0 (keep_digits text))%Z).
Proof.
  split; [now intros ->|]. split.
  - intros text -> E. cbn. now rewrite E.
  - intros text -> Hne Hlim. split; [|now apply decimal_nonneg].
    unfold rating_count_of, _safe_digits. cbv zeta.
    pose proof (keep_digits_all text) as Hall.
    destruct (keep_digits text) as [|c r] eqn:E; [congruence|].
    cbn [is_empty _safe_int]. unfold int_of_str.
    rewrite (digits_strip _ Hall). cbv zeta. rewrite Hlim.
    assert (isdigit c = true) as Hc
      by (cbn in Hall; now apply andb_true_iff in Hall).
    rewrite (parsed_digits c r Hc).
    rewrite (literal_value_digits (String c r) 0 false Hall);
      [reflexivity | left; discriminate].
Qed.

End Count.

Lemma rating_count_of_spec_witness :
  rating_count_of (fun s => String.length s <=? 4300) (Some "1,234 votes")
  = Some 1234%Z
  /\ rating_count_of (fun s => String.length s <=? 4300) (Some "No votes yet")
     = None.
Proof.
  split.
  - exact (proj1 (proj2 (proj2 (rating_count_of_spec
                                  (fun s => String.length s <=? 4300)
                                  (Some "1,234 votes")))
                   "1,234 votes" eq_refl ltac:(discriminate) eq_refl)).
  - exact (proj1 (proj2 (rating_count_of_spec (fun s => String.length s <=? 4300)
                           (Some "No votes yet")))
             "No votes yet" eq_refl eq_refl).
Defined.

End ParsersTextFacts.

(** ** Review dates, once more *)

Module ParsersDateFacts.

Import PyDate Parsers DateFacts ParsersFacts.

Lemma first_parse_valid (s : string) (d : date) :
  first_parse s = Some d -> valid d = true.
Proof.
  unfold first_parse.
  destruct (strptime s fmt_dby) as [d1|e1] eqn:E1.
  { intros [= <-]. eapply CleanFacts.strptime_valid; eassumption. }
  destruct (strptime s fmt_ymd) as [d2|e2] eqn:E2.
  { intros [= <-]. eapply CleanFacts.strptime_valid; eassumption. }
  destruct (strptime s fmt_dmy) as [d3|e3] eqn:E3; [|discriminate].
  intros [= <-]. eapply CleanFacts.strptime_valid; eassumption.
Qed.

Lemma format_iso (d : date) :
  valid d = true ->
  _format_review_date (Some (iso_text d)) = Ok (Some (strftime_ymd d)).
Proof.
  intros Hv. unfold _format_review_date.
  destruct (spellings_nonempty d) as (-> & _ & _).
  unfold review_date_formats.
  destruct (strptime_dby_of_iso d) as [msg E].
  rewrite (try_formats_raise _ _ _ _ E).
  apply try_formats_ok, strptime_iso_text, Hv.
Qed.

Lemma format_short_year (d : date) :
  year d < 1000 -> _format_review_date (Some (strftime_ymd d)) = Ok None.
Proof.
  intros Hy. unfold _format_review_date. rewrite strftime_ymd_nonempty.
  unfold review_date_formats.
  rewrite (try_formats_raise _ fmt_dby _ _ (strptime_short_year d _ Hy (or_introl eq_refl))).
  rewrite (try_formats_raise _ fmt_ymd _ _
             (strptime_short_year d _ Hy (or_intror (or_introl eq_refl)))).
  rewrite (try_formats_raise _ fmt_dmy _ _
             (strptime_short_year d _ Hy (or_intror (or_intror (or_introl eq_refl))))).
  reflexivity.
Qed.

(** X6.  What [_format_review_date] returns is always what [strftime]
    prints for a date of the calendar, never some other text.  When the
    year of that date has four digits the text is the date as YYYY-MM-DD
    and normalising it again returns it unchanged; for a date before the
    year 1000 the text has a shorter year and a second pass rejects it,
    returning an absent date. *)
Theorem format_review_date_idempotent (raw : option string) (s : string) :
  _format_review_date raw = Ok (Some s) ->
  exists d,
    valid d = true /\ s = strftime_ymd d /\
    (1000 <= year d ->
     s = iso_text d /\ _format_review_date (Some s) = Ok (Some s)) /\
    (year d < 1000 -> _format_review_date (Some s) = Ok None).
Proof.
  intros H.
  assert (exists d, valid d = true /\ s = strftime_ymd d) as (d & Hv & ->).
  { unfold _format_review_date in H. destruct raw as [s0|]; [|discriminate].
    destruct (PyStr.is_empty s0); [discriminate|].
    rewrite try_formats_first_parse in H.
    destruct (first_parse s0) as [d|] eqn:E; [|discriminate].
    injection H as <-. exists d. split; [|reflexivity].
    eapply first_parse_valid; eassumption. }
  exists d. split; [exact Hv|]. split; [reflexivity|]. split.
  - intros Hy. rewrite (strftime_ymd_iso d Hv Hy).
    split; [reflexivity|]. rewrite (format_iso d Hv).
    now rewrite (strftime_ymd_iso d Hv Hy).
  - apply format_short_year.
Qed.

Lemma format_review_date_idempotent_witness :
  (exists d,
     valid d = true /\ "2024-02-29" = strftime_ymd d /\
     (1000 <= year d ->
      "2024-02-29" = iso_text d
      /\ _format_review_date (Some "2024-02-29") = Ok (Some "2024-02-29")) /\
     (year d < 1000 -> _format_review_date (Some "2024-02-29") = Ok None))
  /\ (exists d,
        valid d = true /\ "999-01-01" = strftime_ymd d /\
        (1000 <= year d ->
         "999-01-01" = iso_text d
         /\ _format_review_date (Some "999-01-01") = Ok (Some "999-01-01")) /\
        (year d < 1000 -> _format_review_date (Some "999-01-01") = Ok None)).
Proof.
  split.
  - apply (format_review_date_idempotent (Some "29 feb 2024") "2024-02-29").
    vm_compute. reflexivity.
  - apply (format_review_date_idempotent (Some "01 Jan 0999") "999-01-01").
    vm_compute. reflexivity.
Defined.

End ParsersDateFacts.

(** ** The loader: what a run stores *)

Module LoaderStoreFacts.

Import Loader LoaderFacts.

#[local] Open Scope list_scope.

(** A review without the key the database gave it. *)
Definition without_id (r : Review) : Review :=
  mkReview None (r_bus_id r) (rating r) (review_title r) (review_text r)
    (review_date r) (sentiment_label r) (sentiment_score r).

Lemma review_model_no_id (row : ReviewRow) (r : Review) :
  review_model row = Ok r -> without_id r = r.
Proof.
  unfold review_model. destruct (parse_date (rr_review_date row)); cbn;
    [|discriminate].
  now intros [= <-].
Qed.

Lemma map_result_no_id (rows : list ReviewRow) (models : list Review) :
  map_result review_model rows = Ok models -> map without_id models = models.
Proof.
  revert models. induction rows as [|row rows IH]; intros models; cbn.
  - now intros [= <-].
  - destruct (review_model row) as [r|e] eqn:Er; cbn; [|discriminate].
    destruct (map_result review_model rows) as [rs|e]; cbn; [|discriminate].
    intros [= <-]. cbn. now rewrite (review_model_no_id row r Er), (IH rs).
Qed.

Section Store.

Variable accepts_delete_buses : DB -> bool.
Variable accepts_delete_reviews : DB -> bool.
Variable accepts_bus : DB -> Bus -> bool.
Variable accepts_review : DB -> Review -> bool.

#[local] Abbreviation run_main :=
  (main accepts_delete_buses accepts_delete_reviews accepts_bus accepts_review).

Lemma insert_buses_ok (bs : list Bus) (db db' : DB) :
  insert_buses accepts_bus bs db = Ok db' ->
  buses db' = buses db ++ bs /\ reviews db' = reviews db.
Proof.
  revert db. induction bs as [|b bs IH]; intros db; cbn.
  - intros [= <-]. now rewrite app_nil_r.
  - destruct (accepts_bus db b); [|discriminate].
    intros H. apply IH in H as [H1 H2]. cbn in H1, H2.
    now rewrite H1, H2, <- app_assoc.
Qed.

Lemma insert_reviews_ok (rs : list Review) (db db' : DB) :
  insert_reviews accepts_review rs db = Ok db' ->
  buses db' = buses db
  /\ map without_id (reviews db') = map without_id (reviews db) ++ map without_id rs.
Proof.
  revert db. induction rs as [|r rs IH]; intros db; cbn [insert_reviews].
  - intros [= <-]. cbn. now rewrite app_nil_r.
  - destruct (accepts_review db _); [|discriminate].
    intros H. apply IH in H as [H1 H2]. cbn in H1, H2. split; [exact H1|].
    rewrite H2, map_app, <- app_assoc. reflexivity.
Qed.

(** X7.  What a successful load leaves in the store.  Without [--replace]
    the rows that were there stay and the new ones come after them; with
    [--replace] only the rows of the two files are there, whatever the
    store held before.  In both cases the buses are the rows of
    buses.csv in file order and the reviews those of reviews.csv. *)
Theorem load_stores (args : Args) (buses_df : list BusRow)
  (reviews_df : list ReviewRow) (db : DB) :
  let out := run_main args (Some (Ok buses_df)) (Some (Ok reviews_df)) db in
  fst out = Ok tt ->
  exists models,
    map_result review_model reviews_df = Ok models /\
    buses (committed (snd out))
    = (if replace args then [] else buses db) ++ map bus_model buses_df /\
    map without_id (reviews (committed (snd out)))
    = (if replace args then [] else map without_id (reviews db)) ++ models.
Proof.
  cbv zeta. unfold main, load_dataframe, guarded, try_body, load_buses,
    load_reviews, sbind, sret, slift, delete_buses, delete_reviews,
    add_all_buses, add_all_reviews, commit, called, create_session.
  destruct (replace args); cbn.
  - destruct (accepts_delete_buses db); cbn; [|discriminate].
    destruct (accepts_delete_reviews _); cbn; [|discriminate].
    destruct (map_result review_model reviews_df) as [models|e] eqn:Em; cbn.
    2:{ destruct e; discriminate. }
    destruct (insert_buses _ _ _) as [db1|e1] eqn:E1; cbn;
      [|destruct e1; discriminate].
    destruct (insert_reviews _ _ _) as [db2|e2] eqn:E2; cbn;
      [|destruct e2; discriminate].
    intros _. exists models. split; [reflexivity|].
    apply insert_buses_ok in E1 as [B1 R1].
    apply insert_reviews_ok in E2 as [B2 R2]. cbn in *.
    rewrite B2, B1, R2, R1, (map_result_no_id _ _ Em). auto.
  - destruct (map_result review_model reviews_df) as [models|e] eqn:Em; cbn.
    2:{ destruct e; discriminate. }
    destruct (insert_buses _ _ _) as [db1|e1] eqn:E1; cbn;
      [|destruct e1; discriminate].
    destruct (insert_reviews _ _ _) as [db2|e2] eqn:E2; cbn;
      [|destruct e2; discriminate].
    intros _. exists models. split; [reflexivity|].
    apply insert_buses_ok in E1 as [B1 R1].
    apply insert_reviews_ok in E2 as [B2 R2]. cbn in *.
    rewrite B2, B1, R2, R1, (map_result_no_id _ _ Em). auto.
Qed.

(** X8.  A missing file stops the loader before it touches the session:
    the run raises [FileNotFoundError] for buses.csv if that file is
    missing, else for reviews.csv, no session method has been called, the
    database is as it was, and the session is left unclosed. *)
Theorem load_missing_file (args : Args)
  (buses_file : option (result (list BusRow)))
  (reviews_file : option (result (list ReviewRow))) (db : DB) :
  let out := run_main args buses_file reviews_file db in
  (buses_file = None ->
   fst out = Raise (FileNotFoundError (ETL.path_join (data args) "buses.csv"))
   /\ snd out = create_session db) /\
  (forall buses_df, buses_file = Some (Ok buses_df) -> reviews_file = None ->
   fst out = Raise (FileNotFoundError (ETL.path_join (data args) "reviews.csv"))
   /\ snd out = create_session db) /\
  (snd out = create_session db ->
   calls (snd out) = [] /\ closed (snd out) = false /\ committed (snd out) = db).
Proof.
  cbv zeta. unfold main, load_dataframe. repeat split.
  - now subst.
  - now subst.
  - now subst.
  - now subst.
  - now rewrite H.
  - now rewrite H.
  - now rewrite H.
Qed.

(** X9.  One review row whose date does not parse makes the whole load
    fail with nothing stored: the run raises, [commit] is never called,
    the database is as it was (the buses of the batch are not stored
    either, and with [--replace] the deletions are not kept) and the
    session is closed. *)
Theorem load_bad_row (args : Args) (buses_df : list BusRow)
  (reviews_df : list ReviewRow) (db : DB) (row : ReviewRow) (e : exn) :
  In row reviews_df -> review_model row = Raise e ->
  let out := run_main args (Some (Ok buses_df)) (Some (Ok reviews_df)) db in
  (exists e', fst out = Raise e') /\
  count_commits (calls (snd out)) = 0 /\
  committed (snd out) = db /\
  closed (snd out) = true.
Proof.
  intros Hin Hrow.
  destruct (map_result_raises review_model reviews_df row e Hin Hrow) as [e' Em].
  cbv zeta. unfold main, load_dataframe, guarded, try_body, load_buses,
    load_reviews, sbind, sret, slift, delete_buses, delete_reviews,
    add_all_buses, add_all_reviews, commit, called, create_session.
  rewrite Em.
  destruct (replace args); cbn.
  - destruct (accepts_delete_buses db); cbn; [|repeat split; eauto].
    destruct (accepts_delete_reviews _); cbn; [|repeat split; eauto].
    destruct e'; cbn; repeat split; eauto.
  - destruct e'; cbn; repeat split; eauto.
Qed.

End Store.

Lemma load_stores_witness :
  let out :=
    main (fun _ => true) (fun _ => true) primary_key_free (fun _ _ => true)
      (mkArgs "data/curated" true) (Some (Ok [new_bus]))
      (Some (Ok [sample_row (Str "2024-01-12")])) old_db in
  buses (committed (snd out)) = [bus_model new_bus].
Proof.
  cbv zeta.
  destruct (load_stores (fun _ => true) (fun _ => true) primary_key_free
              (fun _ _ => true) (mkArgs "data/curated" true) [new_bus]
              [sample_row (Str "2024-01-12")] old_db eq_refl)
    as (models & _ & Hb & _).
  exact Hb.
Defined.

Lemma load_missing_file_witness :
  let out :=
    main (fun _ => true) (fun _ => true) primary_key_free (fun _ _ => true)
      (mkArgs "data/curated" false) (Some (Ok [new_bus])) None old_db in
  fst out = Raise (FileNotFoundError "data/curated/reviews.csv")
  /\ calls (snd out) = [] /\ closed (snd out) = false.
Proof.
  cbv zeta.
  pose proof (load_missing_file (fun _ => true) (fun _ => true) primary_key_free
                (fun _ _ => true) (mkArgs "data/curated" false)
                (Some (Ok [new_bus])) None old_db) as (_ & H2 & H3).
  destruct (H2 [new_bus] eq_refl eq_refl) as [E1 E2].
  destruct (H3 E2) as (C1 & C2 & _).
  split; [exact E1|]. split; [exact C1 | exact C2].
Defined.

Lemma load_bad_row_witness :
  let out :=
    main (fun _ => true) (fun _ => true) primary_key_free (fun _ _ => true)
      (mkArgs "data/curated" true) (Some (Ok [new_bus]))
      (Some (Ok [sample_row (Str "2024-01-12"); sample_row (Str "12/01/2024")]))
      old_db in
  (exists e', fst out = Raise e') /\ count_commits (calls (snd out)) = 0
  /\ committed (snd out) = old_db /\ closed (snd out) = true.
Proof.
  apply (load_bad_row (fun _ => true) (fun _ => true) primary_key_free
           (fun _ _ => true) (mkArgs "data/curated" true) [new_bus]
           [sample_row (Str "2024-01-12"); sample_row (Str "12/01/2024")]
           old_db (sample_row (Str "12/01/2024"))
           (ValueError "time data does not match format")).
  - cbn. auto.
  - vm_compute. reflexivity.
Defined.

End LoaderStoreFacts.

(** ** Dashboard filters: what a selection keeps *)

Module DashboardFilterFacts.

Import Table Dashboard TableFacts DashboardFacts.

#[local] Open Scope list_scope.

(** A selection with nothing chosen lets every row through. *)
Definition chosen (values : list string) (x : option string) : bool :=
  is_nil values || isin values x.

(** The conditions of the four controls that do not read the keyword. *)
Definition selected (f : Filters) (r : ETL.Review) : bool :=
  chosen (operator f) (ETL.operator_name r)
  && chosen (bus_type f) (ETL.bus_type r)
  && chosen (sentiment f) (ETL.sentiment r)
  && between (fst (rating_range f)) (snd (rating_range f)) (ETL.rating r).

Definition route_matches (search : string -> bool) (r : ETL.Review) : bool :=
  match ETL.route r with
  | Some s => search (PyStr.lower s)
  | None => false
  end.

Lemma filter_twice {A} (p q : A -> bool) (l : list A) :
  filter q (filter p l) = filter (fun a => p a && q a) l.
Proof.
  induction l as [|a l IH]; cbn; [reflexivity|].
  destruct (p a) eqn:Ep; cbn; [|exact IH].
  destruct (q a); now rewrite IH.
Qed.

Lemma selection_step (values : list string) (c : string) (cols : list string)
  (get : ETL.Review -> option string) (df out : list ETL.Review) :
  (if is_nil values then Ok df
   else bind (require c cols) (fun _ => Ok (filter (fun r => isin values (get r)) df)))
  = Ok out ->
  out = filter (fun r => chosen values (get r)) df.
Proof.
  unfold chosen. destruct (is_nil values); cbn.
  - intros [= <-]. symmetry. apply filter_all, Forall_forall. auto.
  - intros H. apply bind_ok in H as (_ & _ & [= <-]). reflexivity.
Qed.

Section Selection.

Variable re_compile : string -> option (string -> bool).

(** The rows [apply_filters] returns when it returns. *)
Lemma apply_filters_rows (df out : Frame ETL.Review) (f : Filters) :
  apply_filters re_compile df f = Ok out ->
  columns out = columns df /\
  ((route_keyword f = "" /\ rows out = filter (selected f) (rows df)) \/
   (route_keyword f <> "" /\
    exists search,
      re_compile (PyStr.lower (route_keyword f)) = Some search /\
      rows out
      = filter (fun r => selected f r && route_matches search r) (rows df))).
Proof.
  unfold apply_filters. intros H.
  apply bind_ok in H as (d1 & H1 & H). apply bind_ok in H as (d2 & H2 & H).
  apply bind_ok in H as (d3 & H3 & H). apply bind_ok in H as (_ & _ & H).
  apply selection_step in H1, H2, H3. subst d3 d2 d1. cbv zeta in H.
  assert (forall l : list ETL.Review,
            filter (fun r => between (fst (rating_range f)) (snd (rating_range f))
                               (ETL.rating r))
              (filter (fun r => chosen (sentiment f) (ETL.sentiment r))
                 (filter (fun r => chosen (bus_type f) (ETL.bus_type r))
                    (filter (fun r => chosen (operator f) (ETL.operator_name r)) l)))
            = filter (selected f) l) as Hsel.
  { intros l. rewrite !filter_twice. apply filter_ext. intros r. unfold selected.
    destruct (chosen (operator f) _), (chosen (bus_type f) _),
      (chosen (sentiment f) _), (between _ _ _); reflexivity. }
  rewrite Hsel in H.
  destruct (route_keyword f) as [|c k] eqn:Ek; cbn [PyStr.is_empty] in H.
  - injection H as <-. cbn. auto.
  - apply bind_ok in H as (_ & _ & H).
    destruct (has_str_accessor _); [|discriminate].
    destruct (re_compile _) as [search|] eqn:Es; [|discriminate].
    injection H as <-. cbn [columns rows]. split; [reflexivity|]. right.
    split; [discriminate|]. exists search. split; [reflexivity|].
    apply filter_twice.
Qed.

(** X10.  The filters compose by intersection.  When [apply_filters]
    returns, the columns are those of the input and the rows are, in
    their input order, exactly the rows that satisfy every active
    condition at once: each non-empty selection as membership, the rating
    range with both ends included, and the keyword, when there is one, as
    a match in the lower-cased route.  An empty selection excludes no
    row. *)
Theorem apply_filters_intersection (df out : Frame ETL.Review) (f : Filters) :
  apply_filters re_compile df f = Ok out ->
  columns out = columns df /\
  exists keep : ETL.Review -> bool,
    rows out = filter keep (rows df) /\
    forall r,
      keep r = true <->
      ((operator f = [] \/ isin (operator f) (ETL.operator_name r) = true) /\
       (bus_type f = [] \/ isin (bus_type f) (ETL.bus_type r) = true) /\
       (sentiment f = [] \/ isin (sentiment f) (ETL.sentiment r) = true) /\
       between (fst (rating_range f)) (snd (rating_range f)) (ETL.rating r) = true /\
       (route_keyword f = "" \/
        exists search s,
          re_compile (PyStr.lower (route_keyword f)) = Some search /\
          ETL.route r = Some s /\ search (PyStr.lower s) = true)).
Proof.
  intros H. apply apply_filters_rows in H as [Hc H]. split; [exact Hc|].
  assert (forall values x,
            chosen values x = true <-> values = [] \/ isin values x = true) as Hch.
  { intros values x. unfold chosen. rewrite orb_true_iff.
    destruct values; cbn; split; intros [E|E]; auto; discriminate. }
  assert (forall r,
            selected f r = true <->
            (operator f = [] \/ isin (operator f) (ETL.operator_name r) = true) /\
            (bus_type f = [] \/ isin (bus_type f) (ETL.bus_type r) = true) /\
            (sentiment f = [] \/ isin (sentiment f) (ETL.sentiment r) = true) /\
            between (fst (rating_range f)) (snd (rating_range f)) (ETL.rating r)
            = true) as Hsel.
  { intros r. unfold selected. rewrite !andb_true_iff, !Hch. tauto. }
  destruct H as [[Ek ->]|(Ek & search & Es & ->)].
  - exists (selected f). split; [reflexivity|]. intros r. rewrite Hsel. tauto.
  - exists (fun r => selected f r && route_matches search r).
    split; [reflexivity|]. intros r. rewrite andb_true_iff, Hsel.
    unfold route_matches. split.
    + intros [Hs Hm]. repeat split; try tauto. right.
      destruct (ETL.route r) as [s|]; [|discriminate]. eauto.
    + intros (H1 & H2 & H3 & H4 & [H5|(search' & s & Es' & Er & Hm)]);
        [contradiction|].
      rewrite Es in Es'. injection Es' as <-. rewrite Er. tauto.
Qed.

(** X11.  Filtering a filtered table with the same selections returns it
    unchanged, and raises nothing: the rows kept by a keyword all have a
    route, so the table still has its text column. *)
Theorem apply_filters_idempotent (df out : Frame ETL.Review) (f : Filters) :
  apply_filters re_compile df f = Ok out ->
  apply_filters re_compile out f = Ok out.
Proof.
  intros H. pose proof H as H0. apply apply_filters_rows in H0 as [Hc Hr].
  unfold apply_filters in *.
  apply bind_ok in H as (d1 & H1 & H). apply bind_ok in H as (d2 & H2 & H).
  apply bind_ok in H as (d3 & H3 & H). apply bind_ok in H as ([] & Hreq & H).
  rewrite Hc.
  assert (forall values c (get : ETL.Review -> option string) d d' l,
            (if is_nil values then Ok d
             else bind (require c (columns df))
                    (fun _ => Ok (filter (fun r => isin values (get r)) d))) = Ok d' ->
            Forall (fun r => chosen values (get r) = true) l ->
            (if is_nil values then Ok l
             else bind (require c (columns df))
                    (fun _ => Ok (filter (fun r => isin values (get r)) l))) = Ok l)
    as Hstep.
  { intros values c get d d' l Hd Hl. unfold chosen in Hl.
    destruct (is_nil values); [reflexivity|].
    apply bind_ok in Hd as ([] & -> & _). cbn. f_equal.
    apply filter_all. exact Hl. }
  assert (Forall (fun r => selected f r = true) (rows out)) as Hall.
  { destruct Hr as [[_ ->]|(_ & search & _ & ->)].
    - apply Forall_filter_mask.
    - apply Forall_forall. intros r Hin. apply filter_In in Hin as [_ Hk].
      now apply andb_true_iff in Hk. }
  rewrite (Hstep _ _ _ _ _ (rows out) H1).
  2:{ eapply Forall_impl; [|exact Hall]. intros r Hs. unfold selected in Hs.
      repeat (apply andb_true_iff in Hs as [Hs ?]). exact Hs. }
  cbn [bind]. rewrite (Hstep _ _ _ _ _ (rows out) H2).
  2:{ eapply Forall_impl; [|exact Hall]. intros r Hs. unfold selected in Hs.
      repeat (apply andb_true_iff in Hs as [Hs ?]). assumption. }
  cbn [bind]. rewrite (Hstep _ _ _ _ _ (rows out) H3).
  2:{ eapply Forall_impl; [|exact Hall]. intros r Hs. unfold selected in Hs.
      repeat (apply andb_true_iff in Hs as [Hs ?]). assumption. }
  cbn [bind]. rewrite Hreq. cbn [bind].
  rewrite (filter_all _ (rows out)).
  2:{ eapply Forall_impl; [|exact Hall]. intros r Hs. unfold selected in Hs.
      now apply andb_true_iff in Hs as [_ ?]. }
  destruct (PyStr.is_empty (route_keyword f)) eqn:Ek.
  - rewrite <- Hc. now destruct out.
  - apply bind_ok in H as ([] & Hreq' & H). rewrite Hreq'. cbn [bind].
    destruct (has_str_accessor (map ETL.route (rows df))); [|discriminate].
    destruct (re_compile _) as [search|] eqn:Es; [|discriminate].
    destruct Hr as [[E _]|(_ & search' & Es' & Hrows)].
    { rewrite E in Ek. discriminate. }
    injection Es' as <-.
    assert (Forall (fun r => route_matches search r = true) (rows out)) as Hm.
    { rewrite Hrows. apply Forall_forall. intros r Hin.
      apply filter_In in Hin as [_ Hk]. now apply andb_true_iff in Hk. }
    assert (has_str_accessor (map ETL.route (rows out)) = true) as ->.
    { unfold has_str_accessor. destruct (rows out) as [|r l]; [reflexivity|].
      inversion Hm as [|? ? Hr0 _]; subst. unfold route_matches in Hr0.
      cbn. destruct (ETL.route r); [reflexivity | discriminate]. }
    fold (route_matches search). rewrite (filter_all _ (rows out) Hm).
    rewrite <- Hc. now destruct out.
Qed.

End Selection.

Definition by_operator : Filters :=
  mkFilters ["Acme Travels"] [] [] (4, 5)%Q "".

Lemma apply_filters_intersection_witness :
  exists keep,
    rows (mkFrame (columns sample_table) [sample_review (Some 4%Q)])
    = filter keep (rows sample_table)
    /\ keep (sample_review None) = false.
Proof.
  destruct (apply_filters_intersection (fun _ => None) sample_table
              (mkFrame (columns sample_table) [sample_review (Some 4%Q)])
              by_operator eq_refl) as (_ & keep & Hrows & Hkeep).
  exists keep. split; [exact Hrows|].
  destruct (keep (sample_review None)) eqn:E; [|reflexivity].
  apply Hkeep in E as (_ & _ & _ & Hb & _). discriminate Hb.
Defined.

Lemma apply_filters_idempotent_witness :
  apply_filters (fun _ => None)
    (mkFrame (columns sample_table) [sample_review (Some 4%Q)]) by_operator
  = Ok (mkFrame (columns sample_table) [sample_review (Some 4%Q)]).
Proof.
  exact (apply_filters_idempotent (fun _ => None) sample_table
           (mkFrame (columns sample_table) [sample_review (Some 4%Q)])
           by_operator eq_refl).
Defined.

End DashboardFilterFacts.

(** ** The per-bus table as a whole *)

Module BusTableFacts.

Import Table ETL TableFacts AggregateFacts.

#[local] Open Scope list_scope.










End BusTableFacts.

(** ** The clean step: columns and texts *)

Module CleanShapeFacts.

Import Table ETL TableFacts TextFacts CleanFacts.

#[local] Open Scope list_scope.

(** The columns the clean step reads, in the order it reads them. *)
Definition read_columns : list string :=
  ["review_text"; "rating"; "review_date"; "bus_id"; "journey_date"].

Fixpoint first_missing (cs cols : list string) : option string :=
  match cs with
  | [] => None
  | c :: cs' => if has_column c cols then first_missing cs' cols else Some c
  end.

Lemma journey_date_column (cols : list string) :
  has_column "journey_date" (clean_columns cols) = has_column "journey_date" cols.
Proof.
  assert (forall c cols', c <> "journey_date" ->
            has_column "journey_date" (set_column c cols')
            = has_column "journey_date" cols') as H.
  { intros c cols' Hc. unfold set_column. destruct (has_column c cols'); [reflexivity|].
    unfold has_column. rewrite existsb_app. cbn [existsb].
    destruct (String.eqb_spec "journey_date" c); [congruence|].
    now rewrite !orb_false_r. }
  unfold clean_columns. rewrite !H by discriminate. reflexivity.
Qed.

Section Columns.

Variable to_datetime : list (option string) -> list (option PyDate.date).

(** X14.  The clean step raises nothing but [KeyError], and only for a
    table with records: it raises exactly when one of the columns
    review_text, rating, review_date, bus_id, journey_date is missing, and
    the error names the first missing one in that order.  A table
    without records is returned as it is whatever its columns. *)
Theorem clean_dataframe_columns (df : Frame Review) (m : Q) :
  (empty df = true -> clean_dataframe to_datetime df m = Ok df) /\
  (empty df = false ->
   match first_missing read_columns (columns df) with
   | Some c => clean_dataframe to_datetime df m = Raise (KeyError c)
   | None => exists out, clean_dataframe to_datetime df m = Ok out
   end).
Proof.
  unfold clean_dataframe. split; intros He; rewrite He; [reflexivity|].
  unfold read_columns, first_missing, require.
  destruct (has_column "review_text" (columns df)); [|reflexivity].
  destruct (has_column "rating" (columns df)); [|reflexivity].
  destruct (has_column "review_date" (columns df)); [|reflexivity].
  destruct (has_column "bus_id" (columns df)); [|reflexivity].
  cbn [bind]. fold (clean_columns (columns df)).
  rewrite journey_date_column.
  destruct (has_column "journey_date" (columns df)); cbn [bind]; eauto.
Qed.

(** The last character, if there is one, is not white space. *)
Definition ends_clean (s : string) : Prop :=
  ScraperFacts.not_space (ScraperFacts.last_char s).

Lemma rstrip_ends_clean (s : string) : ends_clean (PyStr.rstrip s).
Proof.
  destruct (ScraperFacts.rstrip_split s) as (r & _ & _ & H). exact H.
Qed.

(** A text as the clean step leaves it: not empty, no white space at
    either end, and inside only single spaces. *)
Definition tidy (t : string) : Prop :=
  t <> "" /\ starts_clean t /\ ends_clean t /\ collapsed false t.

Lemma normalize_text_tidy (x : option string) :
  normalize_text x <> "" -> tidy (normalize_text x).
Proof.
  intros Hne. split; [exact Hne|]. unfold normalize_text, PyStr.strip.
  split; [apply rstrip_starts_clean, lstrip_starts_clean|].
  split; [apply rstrip_ends_clean|].
  apply rstrip_collapsed, (lstrip_collapsed false), sub_ws_collapsed.
Qed.

Lemma count_words_positive (t : string) :
  t <> "" -> starts_clean t -> 1 <= count_words true t.
Proof.
  destruct t as [|c r]; [congruence|]. cbn. intros _ ->. lia.
Qed.

Lemma masked_tidy (m : Q) (rs : list Review) :
  Forall (fun r => exists t, review_text r = Some t /\ tidy t) (masked m rs).
Proof.
  unfold masked. apply Forall_filter. apply Forall_forall.
  intros r Hr. apply in_map_iff in Hr as (r1 & <- & Hr1).
  apply filter_In in Hr1 as [Hr1 Hmask].
  apply in_map_iff in Hr1 as (r0 & <- & _).
  unfold text_mask in Hmask. cbn in Hmask.
  exists (normalize_text (review_text r0)). split; [reflexivity|].
  apply normalize_text_tidy. intros E. rewrite E in Hmask. discriminate.
Qed.

(** X15.  Every review the clean step returns has a text that is not
    empty, has no white space at either end and holds white space only as
    single spaces between words; its [review_length] is the length of
    that text and its [review_word_count] the number of its words, both
    at least 1. *)
Theorem clean_dataframe_texts (df out : Frame Review) (m : Q) :
  clean_dataframe to_datetime df m = Ok out -> columns df <> [] ->
  Forall (fun r =>
            exists t,
              review_text r = Some t /\ tidy t /\
              review_length r = Some (String.length t) /\
              review_word_count r = Some (count_words true t) /\
              1 <= String.length t /\ 1 <= count_words true t)
         (rows out).
Proof.
  intros H Hcols.
  apply clean_dataframe_inv in H as [[He ->]|(He & _ & _ & ->)].
  { unfold empty in He. destruct (rows df); [constructor|].
    destruct (columns df); [congruence | discriminate]. }
  cbn [rows]. unfold clean_rows, keyed. cbv zeta.
  apply assign_Forall; [|intros r v Hr; exact Hr].
  apply Forall_map.
  apply (drop_duplicates_Forall key_eqb dedup_key).
  apply assign_Forall; [|intros r v Hr; exact Hr].
  eapply Forall_impl; [|apply masked_tidy].
  intros r (t & Et & Ht). exists t. cbn. rewrite Et. cbn.
  split; [reflexivity|]. split; [exact Ht|]. split; [reflexivity|].
  split; [reflexivity|]. destruct Ht as (Hne & Hs & _). split.
  - destruct t; [congruence | cbn; lia].
  - now apply count_words_positive.
Qed.

End Columns.

Lemma clean_dataframe_columns_witness :
  clean_dataframe iso_to_datetime
    (mkFrame ["bus_id"; "review_text"; "review_date"] (rows raw_table)) 3
  = Raise (KeyError "rating").
Proof.
  exact (proj2 (clean_dataframe_columns iso_to_datetime
                  (mkFrame ["bus_id"; "review_text"; "review_date"] (rows raw_table))
                  3) eq_refl).
Defined.

Lemma clean_dataframe_texts_witness :
  Forall (fun r =>
            exists t,
              review_text r = Some t /\ tidy t /\
              review_length r = Some (String.length t) /\
              review_word_count r = Some (count_words true t) /\
              1 <= String.length t /\ 1 <= count_words true t)
         (rows cleaned_table).
Proof.
  apply (clean_dataframe_texts iso_to_datetime raw_table cleaned_table 3).
  - vm_compute. reflexivity.
  - discriminate.
Defined.

End CleanShapeFacts.

(** ** Scoring *)

Module ScoreFacts.

Import Table ETL TableFacts CleanFacts.

#[local] Open Scope list_scope.

Section Score.

Variable polarity_compound : string -> Q.

Lemma analyze_label (text : option string) :
  let s := fst (Sentiment.analyze polarity_compound text) in
  In (Sentiment.label s) ["positive"; "neutral"; "negative"] /\
  (Sentiment.label s = "positive" <-> (5 # 100 <= Sentiment.score s)%Q) /\
  (Sentiment.label s = "negative" <-> (Sentiment.score s <= - (5 # 100))%Q).
Proof.
  cbv zeta. unfold Sentiment.analyze.
  assert (fst (Sentiment.mkSentiment "neutral" 0, @nil string)
          = Sentiment.mkSentiment "neutral" 0) as Hn by reflexivity.
  destruct text as [t|]; [destruct (PyStr.is_empty t)|];
    try (cbn; repeat split; auto; try discriminate;
         intros H; exfalso; now compute in H).
  cbn [fst Sentiment.label Sentiment.score].
  unfold Sentiment.POSITIVE_THRESHOLD, Sentiment.NEGATIVE_THRESHOLD.
  destruct (Qle_bool (5 # 100) (polarity_compound t)) eqn:Ep.
  - apply Qle_bool_iff in Ep. repeat split; cbn; auto; try discriminate.
    intros H. exfalso.
    assert (5 # 100 <= - (5 # 100))%Q as X by (eapply Qle_trans; eauto).
    now compute in X.
  - assert (~ (5 # 100 <= polarity_compound t)%Q) as Hp.
    { intros H. apply Qle_bool_iff in H. congruence. }
    destruct (Qle_bool (polarity_compound t) (- (5 # 100))) eqn:En.
    + apply Qle_bool_iff in En. repeat split; cbn; auto; try discriminate.
      intros H. contradiction.
    + assert (~ (polarity_compound t <= - (5 # 100))%Q) as Hq.
      { intros H. apply Qle_bool_iff in H. congruence. }
      repeat split; cbn; auto; try discriminate; intros H; contradiction.
Qed.

(** A row with its label and its score. *)
Definition score_row (r : Review) : Review :=
  let s := fst (Sentiment.analyze polarity_compound (review_text r)) in
  set_sentiment r (Some (Sentiment.label s)) (Some (Sentiment.score s)).

Definition has_text (r : Review) : Prop := review_text r <> None.

(** The two assignments of [apply_sentiment] on the rows. *)
Definition scored_rows (rs : list Review) (sentiments : list Sentiment.SentimentResult)
  : list Review :=
  assign (fun r x => set_sentiment r (sentiment r) x)
    (assign (fun r l => set_sentiment r l (sentiment_score r)) rs
       (map (fun s => Some (Sentiment.label s)) sentiments))
    (map (fun s => Some (Sentiment.score s)) sentiments).

Lemma apply_returns (rs : list Review) (sentiments : list Sentiment.SentimentResult) :
  apply polarity_compound (map review_text rs) = Ok sentiments ->
  Forall has_text rs /\ scored_rows rs sentiments = map score_row rs.
Proof.
  revert sentiments. induction rs as [|r rs IH]; intros sentiments; cbn [map apply].
  - intros [= <-]. split; [constructor | reflexivity].
  - unfold analyze_cell at 1. destruct (review_text r) as [t|] eqn:Et; [|discriminate].
    cbn [bind].
    destruct (apply polarity_compound (map review_text rs)) as [ss|e]; [|discriminate].
    cbn [bind]. intros [= <-]. destruct (IH ss eq_refl) as [Hall Hrows].
    split.
    + constructor; [unfold has_text; congruence | exact Hall].
    + unfold scored_rows in *. cbn [map assign]. rewrite Hrows.
      unfold score_row at 2. rewrite Et. reflexivity.
Qed.

Lemma apply_total (rs : list Review) :
  Forall has_text rs ->
  exists sentiments, apply polarity_compound (map review_text rs) = Ok sentiments.
Proof.
  induction 1 as [|r rs Hr _ (ss & E)]; cbn [map apply]; [now exists []|].
  unfold has_text in Hr. destruct (review_text r) as [t|]; [|congruence].
  cbn [analyze_cell bind]. rewrite E. cbn [bind]. eauto.
Qed.

Lemma apply_raises (rs : list Review) (r : Review) :
  In r rs -> review_text r = None ->
  apply polarity_compound (map review_text rs)
  = Raise (TypeError "'float' object is not iterable").
Proof.
  induction rs as [|x rs IH]; [contradiction|].
  intros Hin Hr. cbn [map apply].
  destruct (review_text x) as [t|] eqn:Ex; cbn [analyze_cell bind]; [|reflexivity].
  destruct Hin as [->|Hin]; [congruence|]. now rewrite (IH Hin Hr).
Qed.

Section Cleaned.

Variable to_datetime : list (option string) -> list (option PyDate.date).

Lemma clean_rows_has_text (m : Q) (rs : list Review) :
  Forall has_text (clean_rows to_datetime m rs).
Proof.
  unfold clean_rows, keyed. cbv zeta.
  apply assign_Forall; [|intros r v Hr; exact Hr].
  apply Forall_map.
  apply (drop_duplicates_Forall key_eqb dedup_key).
  apply assign_Forall; [|intros r v Hr; exact Hr].
  eapply Forall_impl; [|apply masked_text].
  intros r (t & Et & _). unfold has_text. cbn. rewrite Et. discriminate.
Qed.

(** X12.  Scoring keeps the table and fills two columns, provided every
    row has a text.  A table without records is returned as it is,
    without the two columns.  Otherwise, when the call returns, every row
    had a text and every row of the result carries a label out of
    "positive", "neutral", "negative" and a score, the label being
    "positive" exactly when the score is at least 0.05 and "negative"
    exactly when it is at most -0.05; the rows are as many as before and
    their text, rating and key are untouched.  The call returns when
    every row has a text; one row whose text is missing makes it raise
    [TypeError], since NaN passes the guard of the analyzer.  The table
    the clean step returns has a text in every row, so scoring it raises
    nothing. *)
Theorem apply_sentiment_labels (df : Frame Review) :
  (empty df = true -> apply_sentiment polarity_compound df = Ok df) /\
  (forall out,
     apply_sentiment polarity_compound df = Ok out -> empty df = false ->
     Forall has_text (rows df) /\
     has_column "sentiment" (columns out) = true /\
     has_column "sentiment_score" (columns out) = true /\
     map review_text (rows out) = map review_text (rows df) /\
     map rating (rows out) = map rating (rows df) /\
     map dedup_key (rows out) = map dedup_key (rows df) /\
     Forall (fun r =>
               exists lbl sc,
                 sentiment r = Some lbl /\ sentiment_score r = Some sc /\
                 In lbl ["positive"; "neutral"; "negative"] /\
                 (lbl = "positive" <-> (5 # 100 <= sc)%Q) /\
                 (lbl = "negative" <-> (sc <= - (5 # 100))%Q))
            (rows out)) /\
  (empty df = false -> has_column "review_text" (columns df) = true ->
   (Forall has_text (rows df) ->
    exists out, apply_sentiment polarity_compound df = Ok out) /\
   (forall r, In r (rows df) -> review_text r = None ->
      exists msg, apply_sentiment polarity_compound df = Raise (TypeError msg))) /\
  (forall raw m,
     clean_dataframe to_datetime raw m = Ok df -> columns raw <> [] ->
     exists out, apply_sentiment polarity_compound df = Ok out).
Proof.
  assert (empty df = false -> has_column "review_text" (columns df) = true ->
          Forall has_text (rows df) ->
          exists out, apply_sentiment polarity_compound df = Ok out) as Hret.
  { intros He Hc Hall. unfold apply_sentiment, require. rewrite He, Hc. cbn [bind].
    destruct (apply_total (rows df) Hall) as (ss & ->). cbn [bind]. eauto. }
  split; [|split; [|split; [split|]]].
  - intros He. unfold apply_sentiment. now rewrite He.
  - intros out H He. unfold apply_sentiment in H. rewrite He in H.
    apply require_bind in H as [_ H].
    destruct (apply polarity_compound (map review_text (rows df))) as [ss|e] eqn:Ea;
      [|discriminate H].
    cbn [bind] in H. cbv zeta in H. injection H as <-.
    destruct (apply_returns (rows df) ss Ea) as [Hall Hrows].
    fold (scored_rows (rows df) ss). rewrite Hrows. cbn [columns rows].
    split; [exact Hall|].
    split; [apply has_column_set, has_column_set_same|].
    split; [apply has_column_set_same|].
    rewrite !map_map. repeat split.
    apply Forall_map, Forall_forall. intros r _.
    eexists _, _. split; [reflexivity|]. split; [reflexivity|].
    apply analyze_label.
  - now apply Hret.
  - intros r Hin Hr. unfold apply_sentiment, require. rewrite H, H0. cbn [bind].
    rewrite (apply_raises (rows df) r Hin Hr). cbn [bind]. eauto.
  - intros raw m H Hcols.
    apply clean_dataframe_inv in H as [[He ->]|(He & Hk & _ & ->)].
    { exists raw. unfold apply_sentiment. now rewrite He. }
    destruct (empty (mkFrame (clean_columns (columns raw)) (clean_rows to_datetime m (rows raw))))
      eqn:Ee.
    + eexists. unfold apply_sentiment. rewrite Ee. reflexivity.
    + apply Hret; [reflexivity | |apply clean_rows_has_text].
      cbn [columns]. apply clean_columns_keeps.
      inversion Hk; assumption.
Qed.

End Cleaned.

End Score.

Definition scored_table : Frame Review :=
  Eval vm_compute in
    match apply_sentiment (fun _ => 6 # 10)%Q CleanFacts.cleaned_table with
    | Ok out => out
    | Raise _ => DataFrame
    end.

(** A table whose second row has no text. *)
Definition gap_table : Frame Review :=
  mkFrame ["bus_id"; "review_text"]
    [CleanFacts.rated "B1" "Good bus" (Some 4%Q) None;
     set_review_text (CleanFacts.rated "B1" "" (Some 5%Q) None) None].

Lemma apply_sentiment_labels_witness :
  (has_column "sentiment" (columns scored_table) = true
   /\ map rating (rows scored_table) = map rating (rows CleanFacts.cleaned_table)
   /\ map sentiment (rows scored_table) = [Some "positive"])
  /\ (exists msg, apply_sentiment (fun _ => 6 # 10)%Q gap_table = Raise (TypeError msg))
  /\ (exists out,
        apply_sentiment (fun _ => 6 # 10)%Q CleanFacts.cleaned_table = Ok out).
Proof.
  destruct (apply_sentiment_labels (fun _ => 6 # 10)%Q CleanFacts.iso_to_datetime
              CleanFacts.cleaned_table) as (_ & Hrows & _ & Hclean).
  destruct (Hrows scored_table eq_refl eq_refl) as (_ & H1 & _ & _ & H4 & _).
  split; [|split].
  - split; [exact H1|]. split; [exact H4 | reflexivity].
  - destruct (apply_sentiment_labels (fun _ => 6 # 10)%Q CleanFacts.iso_to_datetime
                gap_table) as (_ & _ & Hgap & _).
    refine (proj2 (Hgap eq_refl eq_refl) _ (or_intror (or_introl eq_refl)) eq_refl).
  - apply (Hclean CleanFacts.raw_table 3%Q); [vm_compute; reflexivity | discriminate].
Defined.

End ScoreFacts.

(** ** The pipeline: what it reads and what it writes *)

Module PipelineIOFacts.

Import Table ETL TableFacts PipelineFacts.

#[local] Open Scope list_scope.

(** A table as [load_raw_files] keeps it: every record tagged with the
    name of its file. *)
Definition tag (name : string) (df : Frame Review) : Frame Review :=
  mkFrame (set_column "source_file" (columns df))
    (map (fun r => set_source_file r (Some name)) (rows df)).

Section IO.

Variable read_json : string -> result (Frame Review).
Variable to_datetime : list (option string) -> list (option PyDate.date).
Variable polarity_compound : string -> Q.
Variable float_mean : list Q -> Q.
Variable review_cell : Review -> string -> string.
Variable bus_cell : BusMetrics -> string -> string.
Variable review_parquet : Frame Review -> string.
Variable bus_parquet : Frame BusMetrics -> string.

#[local] Abbreviation run_main :=
  (main read_json to_datetime polarity_compound float_mean review_cell bus_cell
     review_parquet bus_parquet).

Definition all_read (files : list (string * string)) : Prop :=
  forall name text, In (name, text) files -> exists df, read_json text = Ok df.

(** The tables kept from a list of files. *)
Definition frames_of (files : list (string * string)) : list (Frame Review) :=
  flat_map (fun f =>
              match read_json (snd f) with
              | Ok df => if empty df then [] else [tag (fst f) df]
              | Raise _ => []
              end) files.


Lemma load_each_read (files : list (string * string))
  (records : list (Frame Review)) (w : World) :
  all_read files ->
  fst (load_each read_json files records w) = Ok (records ++ frames_of files).
Proof.
  revert records w. induction files as [|[name text] files IH]; intros records w H.
  - cbn. now rewrite app_nil_r.
  - destruct (H name text) as [df Hdf]; [now left|].
    assert (all_read files) as H' by (intros n t Hin; apply (H n t); now right).
    cbn [load_each]. unfold mbind, log, lift, frames_of. cbn. rewrite Hdf.
    fold (frames_of files). destruct (empty df).
    + now rewrite IH.
    + rewrite IH by exact H'. unfold tag. now rewrite <- app_assoc.
Qed.

Lemma load_each_raise (good rest : list (string * string)) (name text : string)
  (e : exn) (records : list (Frame Review)) (w : World) :
  all_read good -> read_json text = Raise e ->
  fst (load_each read_json (good ++ (name, text) :: rest) records w) = Raise e.
Proof.
  revert records w. induction good as [|[n t] good IH]; intros records w H He.
  - cbn [app load_each]. unfold mbind, log, lift. cbn. now rewrite He.
  - destruct (H n t) as [df Hdf]; [now left|].
    assert (all_read good) as H' by (intros n' t' Hin; apply (H n' t'); now right).
    cbn [app load_each]. unfold mbind, log, lift. cbn. rewrite Hdf.
    destruct (empty df); now apply IH.
Qed.


(** X16.  What the ingest step reads.  Only the files whose name ends in
    ".json" are read, in the order of their names.  When all of them
    parse, the working table holds the records of those that have any,
    file after file, each record tagged with the name of its file.  When
    one does not parse, the files before it being fine, its error is the
    error of the whole pipeline. *)
Theorem load_raw_files_records (args : Args) (dir : list (string * string))
  (w : World) :
  (all_read (json_files dir) ->
   exists table,
     fst (load_raw_files read_json (input args) dir w) = Ok table /\
     rows table = flat_map rows (frames_of (json_files dir)) /\
     Forall (fun r =>
               exists name text,
                 In (name, text) dir /\ is_json name = true
                 /\ source_file r = Some name)
            (rows table)) /\
  (forall good name text rest e,
     json_files dir = good ++ (name, text) :: rest ->
     all_read good -> read_json text = Raise e ->
     fst (load_raw_files read_json (input args) dir w) = Raise e
     /\ fst (run_main args dir w) = Raise e).
Proof.
  split.
  - intros H.
    pose proof (load_each_read (json_files dir) [] w H) as Hl.
    unfold load_raw_files, mbind. fold (json_files dir).
    destruct (load_each read_json (json_files dir) [] w) as [r w'].
    cbn in Hl. subst r. cbn [app].
    set (recs := frames_of (json_files dir)).
    assert (Forall (fun r =>
                      exists name text,
                        In (name, text) dir /\ is_json name = true
                        /\ source_file r = Some name)
                   (flat_map rows recs)) as Htag.
    { apply Forall_forall. intros r Hr.
      apply in_flat_map in Hr as (fr & Hfr & Hr). unfold recs, frames_of in Hfr.
      apply in_flat_map in Hfr as ([name text] & Hf & Hfr). cbn in Hfr.
      unfold json_files in Hf. apply sorted_In, filter_In in Hf as [Hf Hj].
      destruct (read_json text) as [df|e]; [|contradiction].
      destruct (empty df); [contradiction|]. destruct Hfr as [<-|[]].
      cbn in Hr. apply in_map_iff in Hr as (r0 & <- & _).
      exists name, text. auto. }
    destruct (is_nil recs) eqn:E.
    + destruct recs; [|discriminate]. cbn. exists DataFrame. auto.
    + cbn. exists (concat recs). auto.
  - intros good name text rest e Hfiles Hgood He.
    assert (fst (load_raw_files read_json (input args) dir w) = Raise e) as Hraw.
    { unfold load_raw_files, mbind. fold (json_files dir). rewrite Hfiles.
      pose proof (load_each_raise good rest name text e [] w Hgood He) as Hl.
      destruct (load_each read_json _ [] w) as [r w']. cbn in Hl. now subst r. }
    split; [exact Hraw|]. unfold main, mbind.
    destruct (load_raw_files read_json (input args) dir w) as [r w'].
    cbn in Hraw. now subst r.
Qed.




End IO.

Definition sample_json : string := "[{...}]".

Definition scraped_table : Frame Review :=
  mkFrame
    ["bus_id"; "operator_name"; "bus_name"; "bus_type"; "rating";
     "rating_count"; "route"; "review_title"; "review_text"; "review_date";
     "journey_date"; "scraped_at"]
    (rows CleanFacts.raw_table).

Definition one_file (text : string) : result (Frame Review) :=
  if String.eqb text sample_json then Ok scraped_table
  else Raise (ValueError "Expected object or value").

Lemma load_raw_files_records_witness :
  (exists table,
     fst (load_raw_files one_file "data/raw" [("a.json", sample_json); ("b.txt", "x")]
            (mkWorld [] [])) = Ok table
     /\ List.length (rows table) = 5)
  /\ fst (load_raw_files one_file "data/raw"
            [("b.json", "not json"); ("a.json", sample_json)] (mkWorld [] []))
     = Raise (ValueError "Expected object or value").
Proof.
  split.
  - destruct (proj1 (load_raw_files_records one_file CleanFacts.iso_to_datetime
                       (fun _ => 0%Q) AggregateFacts.exact_mean blank_cell blank_cell
                       no_bytes no_bytes
                       default_args [("a.json", sample_json); ("b.txt", "x")]
                       (mkWorld [] []))) as (table & Ht & Hrows & _).
    + intros name text [[= <- <-]|[]]. eexists. reflexivity.
    + exists table. split; [exact Ht|]. rewrite Hrows. reflexivity.
  - refine (proj1 (proj2 (load_raw_files_records one_file CleanFacts.iso_to_datetime
                            (fun _ => 0%Q) AggregateFacts.exact_mean blank_cell blank_cell
                       no_bytes no_bytes
                            default_args
                            [("b.json", "not json"); ("a.json", sample_json)]
                            (mkWorld [] []))
                     [("a.json", sample_json)] "b.json" "not json" [] _ eq_refl _ eq_refl)).
    intros name text [[= <- <-]|[]]. eexists. reflexivity.
Defined.


End PipelineIOFacts.

(** ** Scrolling to the bottom *)

Module BrowserFacts.

Import Browser.

Section Scroll.

Variable max_scroll_attempts : Z.
Variable height_at : nat -> Z.

#[local] Abbreviation goal := (Z.max 0 max_scroll_attempts).

(** After [s] scrolls, [a] counts the readings since the height last
    changed. *)
Definition quiet (s : nat) (a : Z) : Prop :=
  (0 <= a <= Z.of_nat s)%Z /\
  (forall k, (Z.of_nat s - a <= Z.of_nat k <= Z.of_nat s)%Z ->
             height_at k = height_at s) /\
  (a = Z.of_nat s
   \/ exists k, (Z.of_nat k = Z.of_nat s - a - 1)%Z
                /\ height_at (S k) <> height_at k).

Lemma scroll_loop_quiet (fuel s : nat) (a : Z) (n : nat) :
  quiet s a -> (a <= goal)%Z ->
  scroll_loop fuel max_scroll_attempts height_at s a (height_at s) = Some n ->
  quiet n goal.
Proof.
  revert s a. induction fuel as [|fuel IH]; intros s a Hq Ha.
  - cbn [scroll_loop]. destruct (Z.ltb_spec a max_scroll_attempts); [discriminate|].
    intros [= <-]. pose proof (proj1 Hq) as Hb.
    replace goal with a by lia. exact Hq.
  - cbn [scroll_loop]. destruct (Z.ltb_spec a max_scroll_attempts) as [Hlt|Hge].
    2:{ intros [= <-]. pose proof (proj1 Hq) as Hb.
        replace goal with a by lia. exact Hq. }
    cbv zeta. destruct (Z.eqb_spec (height_at (S s)) (height_at s)) as [E|E].
    + rewrite <- E. apply IH; [|lia].
      destruct Hq as (Hb & Hrun & Hstart). split; [lia|]. split.
      * intros k Hk. destruct (Nat.eq_dec k (S s)) as [->|Hne]; [reflexivity|].
        rewrite E. apply Hrun. lia.
      * destruct Hstart as [->|(k & Hk & Hd)]; [left; lia|].
        right. exists k. split; [lia | exact Hd].
    + apply IH; [|lia]. split; [lia|]. split.
      * intros k Hk. replace k with (S s) by lia. reflexivity.
      * right. exists s. split; [lia | exact E].
Qed.

(** X18.  When the scroll loop ends after [n] scrolls, the page has read
    the same height for the last [max_scroll_attempts] scrolls in a row,
    the reading before them included, and for no longer: the loop stops
    as soon as that many scrolls in a row have brought no growth.  With a
    limit of zero or less it does not scroll at all. *)
Theorem scroll_to_bottom_quiet (fuel n : nat) :
  _scroll_to_bottom fuel max_scroll_attempts height_at = Some n ->
  (goal <= Z.of_nat n)%Z /\
  (forall k, (Z.of_nat n - goal <= Z.of_nat k <= Z.of_nat n)%Z ->
             height_at k = height_at n) /\
  (Z.of_nat n = goal
   \/ exists k, (Z.of_nat k = Z.of_nat n - goal - 1)%Z
                /\ height_at (S k) <> height_at k) /\
  ((max_scroll_attempts <= 0)%Z -> n = 0).
Proof.
  intros H. unfold _scroll_to_bottom in H.
  assert (quiet 0 0) as H0.
  { split; [cbn; lia|]. split; [|now left].
    intros k Hk. replace k with 0 by lia. reflexivity. }
  pose proof (scroll_loop_quiet fuel 0 0 n H0 ltac:(lia) H) as (Hb & Hrun & Hs).
  split; [lia|]. split; [exact Hrun|]. split.
  - destruct Hs as [->|Hs]; [now left | now right].
  - intros Hmax. destruct fuel; cbn [scroll_loop] in H;
      destruct (Z.ltb_spec 0 max_scroll_attempts); try lia; now injection H as <-.
Qed.

(** The page stops growing after [settled] scrolls. *)
Variable settled : nat.
Hypothesis height_settles : forall k, settled <= k -> height_at k = height_at settled.

Definition scrolls_left (s : nat) (a : Z) : nat :=
  if s <? settled then (settled - s) + Z.to_nat max_scroll_attempts
  else Z.to_nat (max_scroll_attempts - a).

Lemma scroll_loop_ends (fuel s : nat) (a : Z) :
  (0 <= a)%Z -> scrolls_left s a <= fuel ->
  exists n,
    scroll_loop fuel max_scroll_attempts height_at s a (height_at s) = Some n
    /\ n <= s + scrolls_left s a.
Proof.
  revert s a. induction fuel as [|fuel IH]; intros s a Ha Hfuel.
  - cbn [scroll_loop]. destruct (Z.ltb_spec a max_scroll_attempts) as [Hlt|Hge].
    + exfalso. unfold scrolls_left in Hfuel.
      destruct (Nat.ltb_spec s settled); lia.
    + exists s. split; [reflexivity | lia].
  - cbn [scroll_loop]. destruct (Z.ltb_spec a max_scroll_attempts) as [Hlt|Hge].
    2:{ exists s. split; [reflexivity | lia]. }
    cbv zeta. destruct (Z.eqb_spec (height_at (S s)) (height_at s)) as [E|E].
    + rewrite <- E.
      destruct (IH (S s) (a + 1)%Z) as (n & Hn & Hle); [lia| |].
      * unfold scrolls_left in *.
        destruct (Nat.ltb_spec s settled), (Nat.ltb_spec (S s) settled); lia.
      * exists n. split; [exact Hn|]. unfold scrolls_left in *.
        destruct (Nat.ltb_spec s settled), (Nat.ltb_spec (S s) settled); lia.
    + assert (s < settled) as Hs.
      { destruct (Nat.lt_ge_cases s settled) as [Hs|Hs]; [exact Hs|].
        exfalso. apply E.
        rewrite (height_settles s Hs), (height_settles (S s)) by lia. reflexivity. }
      destruct (IH (S s) 0%Z) as (n & Hn & Hle); [lia| |].
      * unfold scrolls_left in *.
        destruct (Nat.ltb_spec s settled), (Nat.ltb_spec (S s) settled); lia.
      * exists n. split; [exact Hn|]. unfold scrolls_left in *.
        destruct (Nat.ltb_spec s settled), (Nat.ltb_spec (S s) settled); lia.
Qed.

(** X19.  The scroll loop ends on a page that stops growing: if the
    height no longer changes after [settled] scrolls, the loop returns
    after at most [settled + max_scroll_attempts] scrolls. *)
Theorem scroll_to_bottom_ends (fuel : nat) :
  settled + Z.to_nat max_scroll_attempts <= fuel ->
  exists n,
    _scroll_to_bottom fuel max_scroll_attempts height_at = Some n
    /\ n <= settled + Z.to_nat max_scroll_attempts.
Proof.
  intros Hfuel. unfold _scroll_to_bottom.
  destruct (scroll_loop_ends fuel 0 0%Z) as (n & Hn & Hle); [lia| |].
  - unfold scrolls_left. destruct (Nat.ltb_spec 0 settled); lia.
  - exists n. split; [exact Hn|]. unfold scrolls_left in Hle.
    destruct (Nat.ltb_spec 0 settled); lia.
Qed.

End Scroll.

(** A page that grows on the first two scrolls and then stays. *)
Definition growing_page (k : nat) : Z :=
  match k with
  | 0 => 900
  | 1 => 1800
  | _ => 2700
  end.

Lemma scroll_to_bottom_quiet_witness :
  (3 <= Z.of_nat 5)%Z
  /\ growing_page 2 = growing_page 5 /\ growing_page 2 <> growing_page 1.
Proof.
  destruct (scroll_to_bottom_quiet 3 growing_page 10 5 eq_refl)
    as (H1 & H2 & H3 & _).
  split; [exact H1|]. split; [apply H2; cbn; lia|].
  destruct H3 as [H3|(k & Hk & Hd)]; [cbn in H3; lia|].
  cbn in Hk. replace k with 1 in Hd by lia. exact Hd.
Defined.

Lemma scroll_to_bottom_ends_witness :
  exists n, _scroll_to_bottom 20 15 growing_page = Some n /\ n <= 2 + 15.
Proof.
  apply (scroll_to_bottom_ends 15 growing_page 2).
  - intros k Hk. destruct k as [|[|[|k]]]; try lia; reflexivity.
  - cbn. lia.
Defined.

End BrowserFacts.

(** ** Loggers *)

Module LoggingFacts.

Import Logging.

#[local] Open Scope list_scope.

Lemma lookup_store (name : string) (l : Logger) (reg : registry) :
  lookup name (store name l reg) = Some l.
Proof.
  induction reg as [|[n l0] reg IH]; cbn [store lookup].
  - now rewrite String.eqb_refl.
  - destruct (String.eqb n name) eqn:E; cbn [lookup]; now rewrite E.
Qed.

Lemma lookup_store_other (n name : string) (l : Logger) (reg : registry) :
  n <> name -> lookup n (store name l reg) = lookup n reg.
Proof.
  intros Hne. induction reg as [|[m l0] reg IH]; cbn [store lookup].
  - destruct (String.eqb_spec name n); [congruence | reflexivity].
  - destruct (String.eqb_spec m name) as [->|Hm]; cbn [lookup].
    + destruct (String.eqb_spec name n); [congruence | reflexivity].
    + now rewrite IH.
Qed.

Section Directory.

Variable log_dir : string.

(** A logger as [get_logger] sets it up: the rotating file and the
    console, each once, in this order. *)
Definition configured (l : Logger) : Prop :=
  handlers l
  = [RotatingFileHandler (ETL.path_join log_dir "redbus.log") 2000000 3
       log_format log_datefmt;
     StreamHandler log_format log_datefmt]
  /\ level l = INFO /\ propagate l = false.

(** No logger of the registry has handlers of another origin. *)
Definition ours (reg : registry) : Prop :=
  forall n l, lookup n reg = Some l -> handlers l = [] \/ configured l.

(** The modules ask for their loggers one after the other. *)
Definition get_loggers (names : list string) (reg : registry) : registry :=
  fold_left (fun r name => snd (get_logger log_dir name r)) names reg.

Lemma get_logger_configures (name : string) (reg : registry) :
  ours reg ->
  exists l,
    get_logger log_dir name reg = (l, snd (get_logger log_dir name reg))
    /\ configured l
    /\ lookup name (snd (get_logger log_dir name reg)) = Some l
    /\ (forall n, n <> name ->
          lookup n (snd (get_logger log_dir name reg)) = lookup n reg).
Proof.
  intros Hours. unfold get_logger, getLogger.
  destruct (lookup name reg) as [l|] eqn:E.
  - destruct (handlers l) as [|h hs] eqn:Eh; cbn [is_nil negb snd].
    + eexists. split; [reflexivity|]. split; [|split].
      * repeat split.
      * apply lookup_store.
      * intros n Hn. now apply lookup_store_other.
    + exists l. split; [reflexivity|]. split; [|split].
      * destruct (Hours name l E) as [H|H]; [congruence | exact H].
      * exact E.
      * reflexivity.
  - cbn [handlers is_nil negb snd app]. eexists. split; [reflexivity|].
    split; [|split].
    + now split.
    + apply lookup_store.
    + intros n Hn. now rewrite !lookup_store_other.
Qed.

Lemma get_logger_ours (name : string) (reg : registry) :
  ours reg -> ours (snd (get_logger log_dir name reg)).
Proof.
  intros Hours n l Hl.
  destruct (get_logger_configures name reg Hours) as (l' & _ & Hc & Hsame & Hother).
  destruct (String.eqb_spec n name) as [->|Hne].
  - right. congruence.
  - rewrite (Hother n Hne) in Hl. exact (Hours n l Hl).
Qed.

Lemma get_logger_keeps (name n : string) (l : Logger) (reg : registry) :
  ours reg -> lookup n reg = Some l -> configured l ->
  lookup n (snd (get_logger log_dir name reg)) = Some l.
Proof.
  intros Hours Hl Hc.
  destruct (String.eqb_spec n name) as [->|Hne].
  - unfold get_logger, getLogger. rewrite Hl.
    destruct Hc as (Hh & _). rewrite Hh. exact Hl.
  - destruct (get_logger_configures name reg Hours) as (_ & _ & _ & _ & Hother).
    now rewrite (Hother n Hne).
Qed.

Lemma get_loggers_keep (names : list string) :
  forall reg n l,
    ours reg -> lookup n reg = Some l -> configured l ->
    lookup n (get_loggers names reg) = Some l.
Proof.
  induction names as [|name names IH]; intros reg n l Hours Hl Hc; [exact Hl|].
  cbn [get_loggers fold_left]. apply IH.
  - now apply get_logger_ours.
  - now apply get_logger_keeps.
  - exact Hc.
Qed.

(** X20.  However often and in whatever order the modules ask for their
    loggers, every logger asked for ends with exactly one rotating file
    handler and one console handler, at level INFO and without
    propagation: a second call for the same name adds nothing.  This
    holds from any registry whose loggers have no handlers of another
    origin, the empty one included. *)
Theorem get_logger_no_duplicates (names : list string) (reg : registry)
  (name : string) :
  ours reg -> In name names ->
  exists l, lookup name (get_loggers names reg) = Some l /\ configured l.
Proof.
  revert reg. induction names as [|n names IH]; intros reg Hours Hin; [easy|].
  cbn [get_loggers fold_left].
  destruct Hin as [->|Hin].
  - destruct (get_logger_configures name reg Hours) as (l & _ & Hc & Hl & _).
    exists l. split; [|exact Hc].
    apply get_loggers_keep; [now apply get_logger_ours | exact Hl | exact Hc].
  - apply IH; [now apply get_logger_ours | exact Hin].
Qed.

(** X21.  A second call of [get_logger] for a name returns the logger of
    the first call and leaves the registry as it is. *)
Theorem get_logger_idempotent (name : string) (reg : registry) :
  get_logger log_dir name (snd (get_logger log_dir name reg))
  = (fst (get_logger log_dir name reg), snd (get_logger log_dir name reg)).
Proof.
  unfold get_logger at 2 3 4. unfold getLogger.
  destruct (lookup name reg) as [l|] eqn:E.
  - destruct (handlers l) as [|h hs] eqn:Eh; cbn [is_nil negb snd fst].
    + unfold get_logger, getLogger. rewrite lookup_store.
      cbn [handlers app is_nil negb]. reflexivity.
    + unfold get_logger, getLogger. rewrite E, Eh. reflexivity.
  - cbn [handlers is_nil negb snd fst app].
    unfold get_logger, getLogger. rewrite lookup_store.
    cbn [handlers app is_nil negb]. reflexivity.
Qed.

End Directory.

Lemma get_logger_no_duplicates_witness :
  exists l,
    lookup "src.etl" (get_loggers "logs" ["src.etl"; "src.db"; "src.etl"] [])
    = Some l
    /\ configured "logs" l.
Proof.
  apply (get_logger_no_duplicates "logs" ["src.etl"; "src.db"; "src.etl"] []).
  - intros n l H. discriminate H.
  - now left.
Defined.

End LoggingFacts.

(** ** The records of a scraped page *)

Module CardsFacts.

Import Cards.

#[local] Open Scope list_scope.

Section Page.

Variable float : Type.
Variable float_of_str : string -> option float.
Variable within_digit_limit : string -> bool.
Variable timestamp : nat -> string.

#[local] Abbreviation card_of := (parse_bus_card float float_of_str within_digit_limit).
#[local] Abbreviation review_of := (parse_review float float_of_str).
#[local] Abbreviation reviews_in := (_collect_reviews float float_of_str).

Lemma parse_review_ok (node : Node) :
  exists date,
    review_of node
    = Ok [("rating", float_value float float_of_str (select_or node ".rating" ".score"));
          ("review_title", str_or_none float (select_text node ".title"));
          ("review_text", str_or_none float (select_or node ".comment" ".desc"));
          ("review_date", str_or_none float date)].
Proof.
  unfold parse_review.
  destruct (select_or node ".review-date" ".date") as [t|].
  - unfold Parsers._format_review_date. destruct (PyStr.is_empty t).
    + now exists None.
    + rewrite ParsersFacts.try_formats_first_parse. now eexists.
  - now exists None.
Qed.

(** The reviews are those of the nodes, node by node. *)
Definition parsed (review_nodes : list Node) (reviews : list (dict float)) : Prop :=
  Forall2 (fun node review => review_of node = Ok review) review_nodes reviews.

Lemma parse_reviews_ok (review_nodes : list Node) :
  exists reviews,
    parse_reviews float float_of_str review_nodes = Ok reviews
    /\ parsed review_nodes reviews.
Proof.
  induction review_nodes as [|node nodes (reviews & E & Hp)].
  - exists []. split; [reflexivity | constructor].
  - destruct (parse_review_ok node) as (date & En).
    eexists. cbn [parse_reviews]. rewrite En, E. cbn [bind].
    split; [reflexivity|]. constructor; [exact En | exact Hp].
Qed.

(** The review nodes the driver shows in a widget. *)
Definition nodes_of (w : widget) : list Node :=
  match w with
  | Modal review_nodes _ => review_nodes
  | NoWidget | Unreadable => []
  end.

Lemma collect_reviews_got (w : widget) (reviews : list (dict float)) :
  reviews_in w = Got reviews -> parsed (nodes_of w) reviews.
Proof.
  destruct w as [| |nodes closes]; cbn [_collect_reviews nodes_of].
  - intros [= <-]. constructor.
  - discriminate.
  - destruct (parse_reviews_ok nodes) as (rs & -> & Hp).
    destruct closes; [|discriminate]. now intros [= <-].
Qed.

Lemma collect_reviews_lost (w : widget) (e : error) :
  reviews_in w = Lost e -> e = WebDriverException.
Proof.
  destruct w as [| |nodes closes]; cbn [_collect_reviews].
  - discriminate.
  - now intros [= <-].
  - destruct (parse_reviews_ok nodes) as (rs & -> & _).
    destruct closes; [discriminate|]. now intros [= <-].
Qed.

Lemma record_shape (b1 b2 b3 b4 b5 b6 b7 r1 r2 r3 r4 : value float)
  (journey_date stamp : string) :
  set "scraped_at" (VStr stamp)
    (set "journey_date" (VStr journey_date)
       (merge
          [("bus_id", b1); ("operator_name", b2); ("bus_name", b3);
           ("bus_type", b4); ("rating", b5); ("rating_count", b6); ("route", b7)]
          [("rating", r1); ("review_title", r2); ("review_text", r3);
           ("review_date", r4)]))
  = [("bus_id", b1); ("operator_name", b2); ("bus_name", b3); ("bus_type", b4);
     ("rating", r1); ("rating_count", b6); ("route", b7);
     ("review_title", r2); ("review_text", r3); ("review_date", r4);
     ("journey_date", VStr journey_date); ("scraped_at", VStr stamp)].
Proof. reflexivity. Qed.

Variable journey_date : string.

Definition record_keys : list string :=
  ["bus_id"; "operator_name"; "bus_name"; "bus_type"; "rating"; "rating_count";
   "route"; "review_title"; "review_text"; "review_date"; "journey_date";
   "scraped_at"].

Definition review_keys : list string :=
  ["rating"; "review_title"; "review_text"; "review_date"].

Definition bus_keys : list string :=
  ["bus_id"; "operator_name"; "bus_name"; "bus_type"; "rating_count"; "route"].

(** The record of the bus card [card] and the review node [node], appended
    at the k-th call of [timestamp]: the twelve keys in this order, the
    fields of the review, the rating among them, the other fields of the
    bus, whose id is not empty, the journey date and the time. *)
Definition joined (k : nat) (card node : Node) (r : dict float) : Prop :=
  map fst r = record_keys /\
  get "journey_date" r = Some (VStr journey_date) /\
  get "scraped_at" r = Some (VStr (timestamp k)) /\
  bus_id_of (card_of card) <> EmptyString /\
  exists review,
    review_of node = Ok review /\
    (forall key, In key review_keys -> get key r = get key review) /\
    (forall key, In key bus_keys -> get key r = get key (card_of card)).

(** Records for pairs of a card and a node, one for one and in order,
    with the calls of [timestamp] numbered from [k]. *)
Fixpoint stamped (k : nat) (pairs : list (Node * Node)) (recs : list (dict float))
  : Prop :=
  match pairs, recs with
  | [], [] => True
  | (card, node) :: pairs', r :: recs' =>
      joined k card node r /\ stamped (S k) pairs' recs'
  | _, _ => False
  end.

Lemma stamped_app (p1 p2 : list (Node * Node)) (r1 r2 : list (dict float)) :
  forall k,
    stamped k p1 r1 -> stamped (k + List.length r1) p2 r2 ->
    stamped k (p1 ++ p2) (r1 ++ r2).
Proof.
  revert r1. induction p1 as [|[card node] p1 IH]; intros [|r r1] k H1 H2;
    cbn [stamped app List.length] in *; try contradiction.
  - now rewrite Nat.add_0_r in H2.
  - destruct H1 as (Hr & H1). split; [exact Hr|].
    apply IH; [exact H1|]. now rewrite <- Nat.add_succ_comm in H2.
Qed.

Lemma stamped_nth (pairs : list (Node * Node)) :
  forall recs k,
    stamped k pairs recs ->
    List.length recs = List.length pairs /\
    forall i card node,
      nth_error pairs i = Some (card, node) ->
      exists r, nth_error recs i = Some r /\ joined (k + i) card node r.
Proof.
  induction pairs as [|[card0 node0] pairs IH]; intros [|r0 recs] k Hs;
    cbn [stamped] in Hs; try contradiction.
  - split; [reflexivity|]. intros [|i] card node Hi; discriminate Hi.
  - destruct Hs as (Hr & Hs). destruct (IH recs (S k) Hs) as [Hlen Hnth].
    split; [cbn; now rewrite Hlen|].
    intros [|i] card node Hi; cbn [nth_error] in Hi |- *.
    + injection Hi as <- <-. exists r0. rewrite Nat.add_0_r. now split.
    + destruct (Hnth i card node Hi) as (r & Hri & Hj).
      exists r. rewrite <- Nat.add_succ_comm. now split.
Qed.

Lemma record_joined (card node : Node) (review : dict float) (k : nat) :
  PyStr.is_empty (bus_id_of (card_of card)) = false ->
  review_of node = Ok review ->
  joined k card node
    (set "scraped_at" (VStr (timestamp k))
       (set "journey_date" (VStr journey_date) (merge (card_of card) review))).
Proof.
  intros Hid Hrev.
  destruct (parse_review_ok node) as (date & E).
  assert (review = [("rating", float_value float float_of_str (select_or node ".rating" ".score"));
                    ("review_title", str_or_none float (select_text node ".title"));
                    ("review_text", str_or_none float (select_or node ".comment" ".desc"));
                    ("review_date", str_or_none float date)]) as Er by congruence.
  assert (bus_id_of (card_of card) <> EmptyString) as Hne.
  { intros E0. rewrite E0 in Hid. discriminate Hid. }
  split; [|split; [|split; [|split; [exact Hne|]]]].
  - rewrite Er. unfold parse_bus_card. now rewrite record_shape.
  - rewrite Er. unfold parse_bus_card. now rewrite record_shape.
  - rewrite Er. unfold parse_bus_card. now rewrite record_shape.
  - exists review. split; [exact Hrev|]. split.
    + rewrite Er. unfold parse_bus_card. rewrite record_shape.
      intros key Hk. cbn [review_keys In] in Hk.
      repeat (destruct Hk as [<-|Hk]; [reflexivity|]). contradiction.
    + rewrite Er. unfold parse_bus_card. rewrite record_shape.
      intros key Hk. cbn [bus_keys In] in Hk.
      repeat (destruct Hk as [<-|Hk]; [reflexivity|]). contradiction.
Qed.

Lemma add_reviews_stamped (card : Node) (review_nodes : list Node)
  (reviews : list (dict float)) :
  PyStr.is_empty (bus_id_of (card_of card)) = false ->
  parsed review_nodes reviews ->
  forall payload,
  exists recs,
    add_reviews float timestamp (card_of card) reviews journey_date payload
    = payload ++ recs
    /\ stamped (List.length payload) (map (pair card) review_nodes) recs.
Proof.
  intros Hid Hp. induction Hp as [|node review nodes reviews Hn _ IH]; intros payload.
  - exists []. split; [now rewrite app_nil_r | exact I].
  - cbn [add_reviews]. cbv zeta.
    destruct (IH (payload ++ [set "scraped_at" (VStr (timestamp (List.length payload)))
                                (set "journey_date" (VStr journey_date)
                                   (merge (card_of card) review))]))
      as (recs & E & Hs).
    eexists. split.
    + rewrite E, <- app_assoc. reflexivity.
    + cbn [app map stamped]. split.
      * now apply record_joined.
      * rewrite length_app, Nat.add_1_r in Hs. exact Hs.
Qed.

Variable widget_of : nat -> string -> widget.

(** The review nodes shown for the card at place [seen] of the page: none
    for a card without an id, whose widget is not asked for. *)
Definition shown (seen : nat) (card : Node) : list Node :=
  let bus_id := bus_id_of (card_of card) in
  if PyStr.is_empty bus_id then [] else nodes_of (widget_of seen bus_id).

(** Every card of the page with each of the review nodes shown for it, in
    the order of the page. *)
Fixpoint pairs_from (seen : nat) (cards : list Node) : list (Node * Node) :=
  match cards with
  | [] => []
  | card :: cards' =>
      map (pair card) (shown seen card) ++ pairs_from (S seen) cards'
  end.

Lemma add_buses_stamped (cards : list Node) :
  forall seen payload out,
    add_buses float float_of_str timestamp (map card_of cards) widget_of seen
      journey_date payload = Got out ->
    exists recs,
      out = payload ++ recs
      /\ stamped (List.length payload) (pairs_from seen cards) recs.
Proof.
  induction cards as [|card cards IH]; intros seen payload out.
  - cbn [map add_buses]. intros [= <-]. exists [].
    split; [now rewrite app_nil_r | exact I].
  - cbn [map add_buses pairs_from]. cbv zeta. unfold shown. cbv zeta.
    destruct (PyStr.is_empty (bus_id_of (card_of card))) eqn:Eid.
    + cbn [map app]. now apply IH.
    + destruct (reviews_in (widget_of seen (bus_id_of (card_of card))))
        as [reviews|e] eqn:Ew; [|discriminate].
      destruct (add_reviews_stamped card _ reviews Eid
                  (collect_reviews_got _ _ Ew) payload) as (recs1 & E1 & Hs1).
      rewrite E1. intros H.
      destruct (IH _ _ _ H) as (recs2 & E2 & Hs2).
      exists (recs1 ++ recs2). split.
      * now rewrite E2, app_assoc.
      * apply stamped_app; [exact Hs1|]. now rewrite length_app in Hs2.
Qed.

(** X22.  A page adds to the payload exactly one record for every review
    node shown for a bus card that has an id, in the order of the page
    and, within a bus, of its modal; a card without an id adds none.
    Every record has the same twelve keys in the same order: the rating,
    title, text and date of its review, so that the rating of the bus
    card is replaced by the review's, missing or not; the other fields
    of its bus; the journey date; and the time of its own call of
    [timestamp].  What the payload held before stays in front. *)
Theorem scrape_page_records (cards : list Node) (payload out : list (dict float)) :
  scrape_page float float_of_str within_digit_limit timestamp cards widget_of
    journey_date payload = Got out ->
  exists recs,
    out = payload ++ recs
    /\ List.length recs = List.length (pairs_from 0 cards)
    /\ forall i card node,
         nth_error (pairs_from 0 cards) i = Some (card, node) ->
         exists r,
           nth_error recs i = Some r
           /\ joined (List.length payload + i) card node r.
Proof.
  unfold scrape_page, _collect_bus_cards. intros H.
  destruct (add_buses_stamped cards 0 payload out H) as (recs & E & Hs).
  destruct (stamped_nth _ recs _ Hs) as [Hlen Hnth].
  exists recs. split; [exact E|]. split; [exact Hlen | exact Hnth].
Qed.

Lemma add_buses_lost (card : Node) (cs : list Node) :
  forall i seen payload,
    nth_error cs i = Some card ->
    PyStr.is_empty (bus_id_of (card_of card)) = false ->
    reviews_in (widget_of (seen + i) (bus_id_of (card_of card)))
    = Lost WebDriverException ->
    add_buses float float_of_str timestamp (map card_of cs) widget_of seen
      journey_date payload = Lost WebDriverException.
Proof.
  induction cs as [|c cs IH]; intros i seen payload Hi Hid Hw.
  - destruct i; discriminate Hi.
  - cbn [map add_buses]. cbv zeta. destruct i as [|i]; cbn [nth_error] in Hi.
    + injection Hi as ->. rewrite Nat.add_0_r in Hw. now rewrite Hid, Hw.
    + rewrite <- Nat.add_succ_comm in Hw.
      destruct (PyStr.is_empty (bus_id_of (card_of c))).
      * now apply (IH i).
      * destruct (reviews_in (widget_of seen (bus_id_of (card_of c))))
          as [reviews|e] eqn:Ew.
        -- now apply (IH i).
        -- now rewrite (collect_reviews_lost _ _ Ew).
Qed.

(** X23.  The parsers never make a page fail, the driver does: if the bus
    at some place of the page has an id and the page cannot be read once
    its modal is open, or the modal cannot be closed, the page ends with
    the driver's exception and returns no payload, whatever the buses
    before it gave. *)
Theorem scrape_page_lost (cards : list Node) (i : nat) (card : Node)
  (payload : list (dict float)) :
  nth_error cards i = Some card ->
  bus_id_of (card_of card) <> EmptyString ->
  (widget_of i (bus_id_of (card_of card)) = Unreadable
   \/ exists review_nodes,
        widget_of i (bus_id_of (card_of card)) = Modal review_nodes false) ->
  scrape_page float float_of_str within_digit_limit timestamp cards widget_of
    journey_date payload = Lost WebDriverException.
Proof.
  intros Hi Hid Hw. unfold scrape_page, _collect_bus_cards.
  apply (add_buses_lost card cards i 0 payload Hi).
  - destruct (bus_id_of (card_of card)); [contradiction | reflexivity].
  - cbn [Nat.add]. destruct Hw as [->|(nodes & ->)]; [reflexivity|].
    cbn [_collect_reviews]. now destruct (parse_reviews_ok nodes) as (rs & -> & _).
Qed.

End Page.

(** A page with two buses, the first without an id, and in the modal of
    the second two reviews. *)
Definition sample_float (s : string) : option Q :=
  if String.eqb s "4.5" then Some (9 # 2)%Q
  else if String.eqb s "2" then Some (2 # 1)%Q
  else None.

Definition sample_stamp (k : nat) : string :=
  match k with
  | 0 => "2024-01-10T08-00-00Z"
  | _ => "2024-01-10T08-00-01Z"
  end.

Definition sample_card : Node :=
  mkNode
    (fun selector =>
       if String.eqb selector ".travels .name" then Some "KPN Travels"
       else if String.eqb selector ".rating-sec .rating" then Some "4.5"
       else None)
    (fun selector =>
       if String.eqb selector ".rating-sec .votes" then Some " 1,204 ratings"
       else None)
    (fun name => if String.eqb name "data-busid" then Some "bus-17" else None).

Definition nameless_card : Node :=
  mkNode
    (fun selector =>
       if String.eqb selector ".travels .name" then Some "SRS Travels" else None)
    (fun _ => None)
    (fun _ => None).

Definition sample_review_node : Node :=
  mkNode
    (fun selector =>
       if String.eqb selector ".rating" then Some "2"
       else if String.eqb selector ".comment" then Some "Late by an hour"
       else if String.eqb selector ".review-date" then Some "12 Jan 2024"
       else None)
    (fun _ => None)
    (fun _ => None).

Definition unrated_review_node : Node :=
  mkNode
    (fun selector =>
       if String.eqb selector ".comment" then Some "Clean seats" else None)
    (fun _ => None)
    (fun _ => None).

Definition open_modal (seen : nat) (bus_id : string) : widget :=
  if String.eqb bus_id "bus-17"
  then Modal [sample_review_node; unrated_review_node] true
  else NoWidget.

Definition stuck_modal (seen : nat) (bus_id : string) : widget :=
  Modal [sample_review_node] false.

Definition sample_payload : list (dict Q) :=
  Eval vm_compute in
    match scrape_page Q sample_float (fun _ => true) sample_stamp
            [nameless_card; sample_card] open_modal "2024-01-15" [] with
    | Got out => out
    | Lost _ => []
    end.

Lemma scrape_page_records_witness :
  List.length sample_payload = 2
  /\ exists r,
       nth_error sample_payload 1 = Some r
       /\ joined Q sample_float (fun _ => true) sample_stamp "2024-01-15" 1
            sample_card unrated_review_node r
       /\ get "rating" r = Some VNone.
Proof.
  destruct (scrape_page_records Q sample_float (fun _ => true) sample_stamp
              "2024-01-15" open_modal [nameless_card; sample_card] [] sample_payload)
    as (recs & E & Hlen & Hnth); [vm_compute; reflexivity|].
  cbn [app] in E. subst recs. split; [exact Hlen|].
  destruct (Hnth 1 sample_card unrated_review_node eq_refl) as (r & Hr & Hj).
  exists r. split; [exact Hr|]. split; [exact Hj|].
  vm_compute in Hr. injection Hr as <-. reflexivity.
Defined.

Lemma scrape_page_lost_witness :
  scrape_page Q sample_float (fun _ => true) sample_stamp [sample_card]
    stuck_modal "2024-01-15" [] = Lost WebDriverException.
Proof.
  apply (scrape_page_lost Q sample_float (fun _ => true) sample_stamp
           "2024-01-15" stuck_modal [sample_card] 0 sample_card []).
  - reflexivity.
  - vm_compute. discriminate.
  - right. exists [sample_review_node]. reflexivity.
Defined.

End CardsFacts.

(** ** From the clean step to the loader *)

Module HandoverFacts.

Import Table ETL CleanFacts.

#[local] Open Scope list_scope.

Section Dates.

Variable to_datetime : list (option string) -> list (option PyDate.date).

(** The timestamps of [to_datetime] are dates of the calendar with a
    year of four digits: a timestamp of nanosecond resolution lies
    between the years 1677 and 2262. *)
Hypothesis to_datetime_calendar :
  forall col d, In (Some d) (to_datetime col) ->
    PyDate.valid d = true /\ 1000 <= PyDate.year d.

Definition four_digits (d : PyDate.date) : bool :=
  PyDate.valid d && (1000 <=? PyDate.year d).

Lemma to_datetime_four_digits (col : list (option string)) (d : PyDate.date) :
  In (Some d) (to_datetime col) -> four_digits d = true.
Proof.
  intros H. destruct (to_datetime_calendar col d H) as [Hv Hy].
  unfold four_digits. rewrite Hv. now apply Nat.leb_le.
Qed.

Lemma written_date_loads (d : PyDate.date) :
  PyDate.valid d = true -> 1000 <= PyDate.year d ->
  Loader.parse_date (Loader.Str (PyDate.strftime_ymd d)) = Ok (Some d).
Proof.
  intros Hv Hy. unfold Loader.parse_date.
  rewrite DateFacts.strftime_ymd_nonempty.
  rewrite (DateFacts.strftime_ymd_iso d Hv Hy).
  now rewrite (DateFacts.strptime_iso_text d Hv).
Qed.

(** X24.  The review dates the clean step writes are dates the loader
    reads, the timestamps of pandas having years of four digits: the
    [review_date] of a cleaned row is missing or the YYYY-MM-DD text of
    a calendar date, and on that text the loader's [parse_date] returns
    this date and does not raise; so does [review_model] on a row of
    reviews.csv that holds it. *)
Theorem cleaned_dates_load (df out : Frame Review) (m : Q) :
  clean_dataframe to_datetime df m = Ok out -> columns df <> [] ->
  Forall (fun r =>
            forall s, review_date r = Some s ->
              exists d,
                PyDate.valid d = true /\ s = PyDate.strftime_ymd d /\
                Loader.parse_date (Loader.Str s) = Ok (Some d) /\
                forall row, Loader.rr_review_date row = Loader.Str s ->
                  exists model,
                    Loader.review_model row = Ok model
                    /\ Loader.review_date model = Some d)
         (rows out).
Proof.
  intros H Hcols.
  apply clean_dataframe_inv in H as [[He ->]|(He & _ & _ & ->)].
  { unfold empty in He. destruct (rows df); [constructor|].
    destruct (columns df); [congruence | discriminate]. }
  cbn [rows].
  eapply Forall_impl;
    [|exact (clean_rows_invariant to_datetime four_digits to_datetime_four_digits
               m (rows df))].
  intros r (_ & _ & (od & Eod & Hod) & _) s Es.
  rewrite Es in Eod. destruct od as [d|]; [|discriminate Eod].
  injection Eod as ->. exists d.
  pose proof (Hod d eq_refl) as Hf. unfold four_digits in Hf.
  apply andb_prop in Hf as [Hv Hy]. apply Nat.leb_le in Hy.
  split; [exact Hv|]. split; [reflexivity|].
  split; [now apply written_date_loads|].
  intros row Hrow. unfold Loader.review_model. rewrite Hrow.
  rewrite (written_date_loads d Hv Hy). cbn [bind]. eexists.
  split; reflexivity.
Qed.

End Dates.

Lemma cleaned_dates_load_witness :
  Forall (fun r =>
            forall s, review_date r = Some s ->
              exists d,
                PyDate.valid d = true /\ s = PyDate.strftime_ymd d /\
                Loader.parse_date (Loader.Str s) = Ok (Some d) /\
                forall row, Loader.rr_review_date row = Loader.Str s ->
                  exists model,
                    Loader.review_model row = Ok model
                    /\ Loader.review_date model = Some d)
         (rows cleaned_table).
Proof.
  apply (cleaned_dates_load iso_to_datetime
           (fun col d H => in_bounds_four d (iso_to_datetime_range col d H))
           raw_table cleaned_table 3).
  - vm_compute. reflexivity.
  - discriminate.
Defined.

End HandoverFacts.
